(** * irp-integration: workflow polling, lookups, credential decoding and
      mapping synchronisation of the Risk Modeler client, as a shallow
      embedding.

    Sources embedded: [client.py], [utils.py], [mri_import.py],
    [portfolio.py] and [irp_integration/validators.py].

    Conventions of the model.
    - JSON payloads are values of [json] (numbers are integers); a Python
      [dict] is an association list in insertion order, looked up by its
      first matching key.
    - Strings are Rocq byte strings; [str.upper], [str.strip] and slicing are
      modelled on ASCII text.
    - An exception is a class name and the pieces of its f-string message
      ([frag]); interpolated values stay structured instead of being
      rendered to text. For the exceptions that Python or a library raises
      the pieces only indicate the cause; what the statements rely on is
      their class.
    - Effectful code runs in the monad [M] over a [World]: a clock, the
      replies the server is still going to give, the requests sent so far,
      the local files and the base64 decodings attempted so far. Calls of
      [print] are left out.
    - The clock counts ticks, [hz] of them in a second: [time.time()] reads
      it, a request advances it by the latency of its reply, and
      [time.sleep(n)] by [n * hz]; a timeout of [n] seconds is exceeded when
      more than [n * hz] ticks have passed.
    - [base64], [int()] and the EDM manager ([edm.py]) are outside the
      embedded files and enter as section variables.
    - [constants.py] and [exceptions.py] are not part of the embedded files:
      the constants are the fields of a record [Constants] (the two status
      collections as lists of strings), the exception classes are the
      constructors of [exn_kind].
    - [while True] loops take their fuel from the number of replies the
      server still has in stock: every iteration consumes at least one, so
      a run ends with a result, an exception, or [Exhausted] when the
      replies have run out. *)

From Stdlib Require Import ZArith List String Ascii Bool Lia DecimalString.
Import ListNotations.
Open Scope string_scope.
Open Scope Z_scope.
Set Warnings "-register-all".

(** ** JSON values and Python exceptions *)

Inductive json : Type :=
| JNull
| JBool (b : bool)
| JInt (z : Z)
| JStr (s : string)
| JArr (items : list json)
| JObj (fields : list (string * json)).

Inductive exn_kind : Type :=
| IRPValidationError
| IRPAPIError
| IRPJobError
| IRPWorkflowError
| IRPFileError
| IRPReferenceDataError
| KeyError
| TypeError
| AttributeError
| IndexError
| JSONDecodeError
| HTTPError
| RequestException
| FileNotFoundError
| ValueError
| DecodeError.   (* what [base64.b64decode] or [bytes.decode] raises *)

(** A piece of an f-string: literal text or an interpolated value. *)
Inductive frag : Type :=
| Lit (s : string)
| FStr (s : string)
| FInt (z : Z)
| FJson (v : json)
| FExn (k : exn_kind) (m : list frag).

Record exn : Type := Exn { kind : exn_kind; msg : list frag }.

Definition fexn (e : exn) : frag := FExn (kind e) (msg e).

(** The name Python prints for [type(value).__name__]. *)
Definition type_name (v : json) : string :=
  match v with
  | JNull => "NoneType"
  | JBool _ => "bool"
  | JInt _ => "int"
  | JStr _ => "str"
  | JArr _ => "list"
  | JObj _ => "dict"
  end.

(** ** Strings (ASCII) *)

Definition is_space (c : ascii) : bool :=
  let n := nat_of_ascii c in
  ((9 <=? n) && (n <=? 13) || (28 <=? n) && (n <=? 32))%nat.

Definition upper_ascii (c : ascii) : ascii :=
  let n := nat_of_ascii c in
  if ((97 <=? n) && (n <=? 122))%nat then ascii_of_nat (n - 32) else c.

Fixpoint upper (s : string) : string :=
  match s with
  | EmptyString => EmptyString
  | String c r => String (upper_ascii c) (upper r)
  end.

(** [not value.strip()]: the string holds white space only. *)
Fixpoint is_blank (s : string) : bool :=
  match s with
  | EmptyString => true
  | String c r => is_space c && is_blank r
  end.

(** [s[:n]] for [n >= 0]. *)
Fixpoint take (n : nat) (s : string) : string :=
  match n, s with
  | O, _ => EmptyString
  | _, EmptyString => EmptyString
  | S k, String c r => String c (take k r)
  end.

(** [s.lstrip('/')]. *)
Fixpoint lstrip_slash (s : string) : string :=
  match s with
  | String "/" r => lstrip_slash r
  | _ => s
  end.

(** [s.split('/')[-1]]: the text after the last slash. *)
Fixpoint last_segment_from (acc s : string) : string :=
  match s with
  | EmptyString => acc
  | String "/" r => last_segment_from EmptyString r
  | String c r => last_segment_from (acc ++ String c EmptyString) r
  end.

Definition last_segment (s : string) : string := last_segment_from EmptyString s.

(** [sep.join(parts)]. *)
Fixpoint join (sep : string) (parts : list string) : string :=
  match parts with
  | [] => EmptyString
  | [p] => p
  | p :: rest => p ++ sep ++ join sep rest
  end.

(** ** Dictionaries *)

Fixpoint lookup {A : Type} (k : string) (d : list (string * A)) : option A :=
  match d with
  | [] => None
  | (k', v) :: r => if String.eqb k k' then Some v else lookup k r
  end.

(** [d[k] = v] on a dict: an existing key keeps its place. *)
Fixpoint update {A : Type} (k : string) (v : A) (d : list (string * A))
  : list (string * A) :=
  match d with
  | [] => [(k, v)]
  | (k', v') :: r =>
      if String.eqb k k' then (k, v) :: r else (k', v') :: update k v r
  end.

(** ** The world and the monad of effects *)

Record Request : Type := mkRequest {
  rq_method : string;
  rq_url : string;
  rq_params : list (string * json);
  rq_json : option json
}.

Record Response : Type := mkResponse {
  status_code : Z;
  headers : list (string * string);   (* keys in lower case *)
  text : string;
  json_body : option json             (* [None]: the body is not JSON *)
}.

Inductive reply : Type :=
| Reply (r : Response)
| ConnectionFailed.

(** What the server does with the next request: how long it takes, in
    clock ticks, and what comes back. *)
Record Event : Type := mkEvent { latency : nat; ev_reply : reply }.

Record World : Type := mkWorld {
  clock : Z;
  script : list Event;
  sent : list Request;
  files : list (string * json);          (* JSON documents, by path *)
  tables : list (string * list string);  (* header rows of delimited files *)
  decoded : list string                  (* fields handed to the base64 decoder *)
}.

Inductive outcome (A : Type) : Type :=
| Ok (a : A)
| Raise (e : exn)
| Exhausted.
Arguments Ok {A} a.
Arguments Raise {A} e.
Arguments Exhausted {A}.

Definition M (A : Type) : Type := World -> outcome A * World.

Definition ret {A : Type} (a : A) : M A := fun w => (Ok a, w).

Definition bind {A B : Type} (m : M A) (f : A -> M B) : M B :=
  fun w =>
    match m w with
    | (Ok a, w') => f a w'
    | (Raise e, w') => (Raise e, w')
    | (Exhausted, w') => (Exhausted, w')
    end.

Definition raise {A : Type} (k : exn_kind) (m : list frag) : M A :=
  fun w => (Raise (Exn k m), w).

(** [try: m except Exception as e: h e]. *)
Definition try_except {A : Type} (m : M A) (h : exn -> M A) : M A :=
  fun w =>
    match m w with
    | (Raise e, w') => h e w'
    | r => r
    end.

Declare Scope monad_scope.
Delimit Scope monad_scope with monad.
Notation "x <- m ;; k" := (bind m (fun x => k))
  (at level 61, m at next level, right associativity) : monad_scope.
Notation "m ;; k" := (bind m (fun _ => k))
  (at level 61, right associativity) : monad_scope.
Open Scope monad_scope.

(** The result of one pass through the body of a [while True] loop whose
    local variables are [St]: the function returns, or the loop goes round
    again with new values of the variables. *)
Inductive tick (St A : Type) : Type :=
| Return (a : A)
| Again (s : St).
Arguments Return {St A} a.
Arguments Again {St A} s.

Fixpoint while_true {St A : Type} (fuel : nat) (body : St -> M (tick St A)) (s : St)
  : M A :=
  match fuel with
  | O => fun w => (Exhausted, w)
  | S f =>
      r <- body s ;;
      match r with
      | Return a => ret a
      | Again s' => while_true f body s'
      end
  end.

(** Runs the loop with one unit of fuel more than there are replies left. *)
Definition loop {St A : Type} (body : St -> M (tick St A)) (s : St) : M A :=
  fun w => while_true (S (List.length (script w))) body s w.

(** ** validators.py *)

Definition validate_non_empty_string (value : json) (param_name : string) : M unit :=
  match value with
  | JStr s =>
      if is_blank s
      then raise IRPValidationError [FStr param_name; Lit " cannot be empty"]
      else ret tt
  | _ =>
      raise IRPValidationError
        [FStr param_name; Lit " must be a string, got "; FStr (type_name value)]
  end.

(** [bool] is a subclass of [int] in Python. *)
Definition as_int (value : json) : option Z :=
  match value with
  | JInt z => Some z
  | JBool b => Some (if b then 1 else 0)
  | _ => None
  end.

Definition validate_positive_int (value : json) (param_name : string) : M unit :=
  match as_int value with
  | None =>
      raise IRPValidationError
        [FStr param_name; Lit " must be an integer, got "; FStr (type_name value)]
  | Some z =>
      if z <=? 0
      then raise IRPValidationError
             [FStr param_name; Lit " must be positive, got "; FJson value]
      else ret tt
  end.

Definition validate_list_not_empty (value : json) (param_name : string) : M unit :=
  match value with
  | JArr [] => raise IRPValidationError [FStr param_name; Lit " cannot be empty"]
  | JArr _ => ret tt
  | _ =>
      raise IRPValidationError
        [FStr param_name; Lit " must be a list, got "; FStr (type_name value)]
  end.

(** ** constants.py (not among the embedded files) *)

Record Constants : Type := mkConstants {
  WORKFLOW_COMPLETED_STATUSES : list string;
  WORKFLOW_IN_PROGRESS_STATUSES : list string;
  GET_WORKFLOWS : string;
  GET_WORKFLOW_BY_ID : Z -> string;       (* [.format(workflow_id=...)] *)
  GET_GEOHAZ_JOB : Z -> string;           (* [.format(jobId=...)] *)
  SEARCH_PORTFOLIOS : json -> string;     (* [.format(exposureId=...)] *)
  CREATE_PORTFOLIO : json -> string       (* [.format(exposureId=...)] *)
}.

(** ** Primitive effects *)

Definition time_time : M Z := fun w => (Ok (clock w), w).

Definition advance (d : Z) (w : World) : World :=
  mkWorld (clock w + d) (script w) (sent w) (files w) (tables w) (decoded w).

(** [str(n)] for an integer. *)
Definition str_int (z : Z) : string :=
  DecimalString.NilZero.string_of_int (Z.to_int z).

(** [response.json()]. *)
Definition response_json (r : Response) : M json :=
  match json_body r with
  | Some v => ret v
  | None => raise JSONDecodeError []
  end.

(** [v[k]] for a string key. *)
Definition subscript (v : json) (k : string) : M json :=
  match v with
  | JObj d =>
      match lookup k d with
      | Some x => ret x
      | None => raise KeyError [FStr k]
      end
  | _ => raise TypeError [FStr (type_name v)]
  end.

(** [v.get(k, default)]. *)
Definition dict_get (v : json) (k : string) (default : json) : M json :=
  match v with
  | JObj d =>
      ret (match lookup k d with Some x => x | None => default end)
  | _ => raise AttributeError [FStr (type_name v); Lit " object has no attribute 'get'"]
  end.

(** [for x in v]: the items a loop over [v] visits. *)
Definition iterate (v : json) : M (list json) :=
  match v with
  | JArr l => ret l
  | JObj d => ret (map (fun kv => JStr (fst kv)) d)
  | JStr s => ret (map (fun c => JStr (String c EmptyString)) (list_ascii_of_string s))
  | _ => raise TypeError [FStr (type_name v); Lit " object is not iterable"]
  end.

(** [status in STATUSES], for a list or tuple of strings. *)
Definition status_in (status : json) (statuses : list string) : bool :=
  match status with
  | JStr s => existsb (String.eqb s) statuses
  | _ => false
  end.

(** [len(l) >= n]. *)
Definition len_ge (l : list json) (n : json) : M bool :=
  match as_int n with
  | Some z => ret (z <=? Z.of_nat (List.length l))
  | None => raise TypeError [Lit "'>=' not supported between instances of 'int' and "; FStr (type_name n)]
  end.

(** ** Concrete constants and worlds for the examples *)

Definition K0 : Constants :=
  mkConstants ["FINISHED"; "FAILED"; "CANCELLED"]
    ["QUEUED"; "PENDING"; "RUNNING"; "CANCEL_REQUESTED"; "CANCELLING"]
    "/riskmodeler/v1/workflows"
    (fun id => "/riskmodeler/v1/workflows/" ++ str_int id)
    (fun id => "/platform/geohaz/v1/jobs/" ++ str_int id)
    (fun _ => "/riskmodeler/v2/exposures/portfolios")
    (fun _ => "/riskmodeler/v2/exposures/portfolios").

Definition api0 : string := "https://api-euw1.rms-ppe.com".

(** A reply with status code 200 and a JSON body, after [lat] clock ticks. *)
Definition json_reply (lat : nat) (v : json) : Event :=
  mkEvent lat (Reply (mkResponse 200 [] EmptyString (Some v))).

Definition status_record (status : string) (progress : Z) : json :=
  JObj [("status", JStr status); ("progress", JInt progress)].

(** A world at time 0 in which the server is going to answer with [evs]. *)
Definition world0 (evs : list Event) : World := mkWorld 0 evs [] [] [] [].

Definition url0 : string := "https://host/workflows/42".

(** The answer of a listing request: [total] matches reported, one page. *)
Definition listing (total : Z) (page : list json) : json :=
  JObj [("totalMatchCount", JInt total); ("workflows", JArr page)].

(** A 202 answer to a submission, with a Location header. *)
Definition accepted (lat : nat) (location : string) : Event :=
  mkEvent lat (Reply (mkResponse 202 [("location", location)] EmptyString None)).


(** [int] on a string of decimal digits. *)
Fixpoint digits_value (acc : Z) (s : string) : option Z :=
  match s with
  | EmptyString => Some acc
  | String c r =>
      let n := nat_of_ascii c in
      if ((48 <=? n) && (n <=? 57))%nat
      then digits_value (10 * acc + Z.of_nat (n - 48)) r
      else None
  end.

Definition int_of_digits (s : string) : option Z :=
  match s with
  | EmptyString => None
  | _ => digits_value 0 s
  end.

(** An EDM search that finds one EDM, with exposure ID 7. *)
Definition one_edm (filter : string) : M json :=
  ret (JArr [JObj [("exposureId", JInt 7); ("exposureName", JStr "EDM_Q4")]]).

(** A mapping file and two data files. *)
Definition zip_entry : json :=
  JObj [("source", JStr "ZIP"); ("destination", JStr "PostalCode")].

Definition mapping0 : list (string * json) :=
  [("accountItems", JArr [zip_entry]); ("locationItems", JArr [])].

Definition files0 : World :=
  mkWorld 0 [] [] [("mapping.json", JObj mapping0)]
    [("accounts.tsv", ["zip"; "City"]); ("locations.tsv", ["ZIP"])] [].


(** Worlds of the pollers. *)
Definition archived : json := status_record "ARCHIVED" 0.

Definition archived_world : World := world0 [json_reply 5 archived].

Definition archived_listing : json := listing 1 [archived].

Definition running_world : World :=
  world0 [json_reply 5 (status_record "RUNNING" 10);
          json_reply 5 (status_record "RUNNING" 20);
          json_reply 5 (status_record "RUNNING" 30)].

Definition no_status : json := JObj [("progress", JInt 10)].

Definition finished : Response :=
  mkResponse 200 [] EmptyString (Some (status_record "FINISHED" 100)).

Definition no_status_world : World :=
  world0 [json_reply 5 no_status; json_reply 5 (status_record "FINISHED" 100)].

Definition pages (sizes : list nat) : World :=
  world0 (map (fun n => json_reply 5 (listing 250 (repeat (status_record "FINISHED" 100) n)))
            sizes).

Definition submission_world : World :=
  world0 [accepted 5 url0; json_reply 5 (status_record "RUNNING" 10);
          json_reply 5 (status_record "RUNNING" 90);
          json_reply 5 (status_record "FINISHED" 100)].

Definition no_portfolio_world : World := world0 [json_reply 5 (JArr [])].

Definition creation_world : World :=
  world0 [json_reply 5 (JArr []); accepted 5 "https://host/exposures/7/portfolios/88"].


Definition synced_items : list json :=
  [JObj [("source", JStr "CITY"); ("destination", JStr "CITY")];
   JObj [("source", JStr "ZIP"); ("destination", JStr "ZIP")];
   JObj [("source", JStr "ZIP"); ("destination", JStr "ZIP")]].

(** Two portfolios of the same name. *)
Definition usfl (id : Z) : json :=
  JObj [("portfolioId", JInt id); ("name", JStr "USFL_Other")].

(** Replies of a job that is running and of one that has finished. *)
Definition running : Event := json_reply 5 (status_record "RUNNING" 10).

Definition running_response : Response :=
  mkResponse 200 [] EmptyString (Some (status_record "RUNNING" 10)).

Definition finished_reply : Event := json_reply 5 (status_record "FINISHED" 100).

(** A server that refuses the connection. *)
Definition refused : Event := mkEvent 5 ConnectionFailed.

(** A listing of three workflows in pages of two and one. *)
Definition short_pages : World :=
  world0 [json_reply 5 (listing 3 [status_record "FINISHED" 100; status_record "FAILED" 40]);
          json_reply 5 (listing 3 [status_record "CANCELLED" 0])].

(** A listing that reports three workflows and delivers none. *)
Definition empty_pages : World :=
  world0 [json_reply 5 (listing 3 []); json_reply 5 (listing 3 [])].

(** A portfolio search with a full page and a short one. *)
Definition portfolio_pages : World :=
  world0 [json_reply 5 (JArr (repeat (usfl 1) 100)); json_reply 5 (JArr [usfl 2])].








(** The mapping directory of a workspace. *)
Definition mapping_directories : list (string * bool) :=
  [("Annual", true); ("test", false); ("Test", true)].

(** A portfolio of the EDM, and the accounts of a portfolio. *)
Definition portfolio3 : list (string * json) :=
  [("uri", JStr "/riskmodeler/v2/exposures/7/portfolios/3"); ("portfolioId", JInt 3)].

Definition account_of (locations : Z) : json :=
  JObj [("accountId", JInt 1); ("locationsCount", JInt locations)].

Definition geohaz_path : string := "/platform/geohaz/v1/jobs".

Definition accounts_path (exposure_id portfolio_id : json) : string :=
  "/riskmodeler/v2/exposures/portfolios/accounts".

Definition empty_portfolio_world : World :=
  world0 [json_reply 5 (JArr [JObj portfolio3]);
          json_reply 5 (JArr [account_of 0; account_of 0])].

Definition located_portfolio_world : World :=
  world0 [json_reply 5 (JArr [JObj portfolio3]);
          json_reply 5 (JArr [account_of 0; account_of 4; JNull]);
          accepted 5 "https://host/platform/geohaz/v1/jobs/91"].

(** An answer with an HTTP error status. *)
Definition not_found : Response := mkResponse 404 [] "Not Found" None.

(** The body of a GeoHaz submission with the earthquake layer. *)
Definition geohaz_body : json :=
  JObj [("resourceUri", JStr "/riskmodeler/v2/exposures/7/portfolios/3");
        ("resourceType", JStr "portfolio");
        ("settings",
         JObj [("layers",
                JArr [JObj [("type", JStr "geocode"); ("name", JStr "geocode");
                            ("engineType", JStr "RL"); ("version", JStr "22.0");
                            ("layerOptions",
                             JObj [("aggregateTriggerEnabled", JStr "true");
                                   ("geoLicenseType", JStr "0");
                                   ("skipPrevGeocoded", JBool false)])];
                      JObj [("type", JStr "hazard"); ("name", JStr "earthquake");
                            ("engineType", JStr "RL"); ("version", JStr "22.0");
                            ("layerOptions",
                             JObj [("overrideUserDef", JBool false);
                                   ("skipPrevHazard", JBool false)])]])])].

Section Client.

(** The constants, the base URL of the client and the number of clock ticks
    in a second. *)
Variable K : Constants.
Variable base_url : string.
Variable hz : Z.
Hypothesis hz_pos : 0 < hz.

(** [base64.b64decode(v).decode("utf-8")], [None] when either step raises;
    [int(s)], [None] when it raises; [EDMManager.search_edms(filter=...)]. *)
Variable b64decode_utf8 : json -> option string.
Variable py_int : string -> option Z.
Variable search_edms : string -> M json.

Definition time_sleep (seconds : Z) : M unit :=
  fun w => (Ok tt, advance (seconds * hz) w).

(** *** client.py *)

(** The URL [Client.request] addresses. *)
Definition target_url (path : string) (full_url : option string) : string :=
  match full_url with
  | Some (String c r) => String c r
  | _ => base_url ++ "/" ++ lstrip_slash path
  end.

(** The world once the server has dealt with request [rq] as event [ev]
    says, the events after it still to come. *)
Definition served (w : World) (ev : Event) (rest : list Event) (rq : Request) : World :=
  mkWorld (clock w + Z.of_nat (latency ev)) rest (sent w ++ [rq])
    (files w) (tables w) (decoded w).

(** [response.raise_for_status()] raises. *)
Definition is_http_error (r : Response) : bool :=
  (400 <=? status_code r) && (status_code r <? 600).

(** [Client.request]: the session answers with the next scripted event.
    The [base_url] override, the extra headers, the timeout and the stream
    flag of the source play no part in the functions embedded here and are
    left out. *)
Definition request (method path : string) (full_url : option string)
    (params : list (string * json)) (body : option json) : M Response :=
  validate_non_empty_string (JStr method) "method" ;;
  let url := target_url path full_url in
  fun w =>
    match script w with
    | [] => (Exhausted, w)
    | ev :: rest =>
        let w' := served w ev rest (mkRequest method url params body) in
        match ev_reply ev with
        | ConnectionFailed =>
            (Raise (Exn IRPAPIError [Lit "Request error: "; FExn RequestException []]), w')
        | Reply r =>
            if is_http_error r
            then (Raise (Exn IRPAPIError
                    (Lit "HTTP request failed: " :: FExn HTTPError [FInt (status_code r)]
                     :: Lit " "
                     :: match json_body r with
                        | Some b => [Lit " | server: "; FJson b]
                        | None => [Lit " | text: "; FStr (take 500 (text r))]
                        end)), w')
            else (Ok r, w')
        end
    end.

Definition get_workflow (workflow_id : Z) : M json :=
  validate_positive_int (JInt workflow_id) "workflow_id" ;;
  try_except
    (response <- request "GET" (GET_WORKFLOW_BY_ID K workflow_id) None [] None ;;
     response_json response)
    (fun e => raise IRPAPIError
       [Lit "Failed to get workflow status for workflow ID "; FInt workflow_id;
        Lit ": "; fexn e]).

(** The body of the loop of [poll_workflow_to_completion]. *)
Definition poll_workflow_to_completion_tick (workflow_id interval timeout start : Z)
    (_ : unit) : M (tick unit json) :=
  job_data <- get_workflow workflow_id ;;
  sp <- try_except
          (status <- subscript job_data "status" ;;
           progress <- subscript job_data "progress" ;;
           ret (status, progress))
          (fun e => raise IRPAPIError
             [Lit "Missing 'status' or 'progress' in job response for workflow ID ";
              FInt workflow_id; Lit ": "; fexn e]) ;;
  let status := fst sp in
  if status_in status (WORKFLOW_COMPLETED_STATUSES K) then ret (Return job_data)
  else
    now <- time_time ;;
    if now - start >? timeout * hz
    then raise IRPJobError
           [Lit "Risk data workflow ID "; FInt workflow_id;
            Lit " did not complete within "; FInt timeout;
            Lit " seconds. Last status: "; FJson status]
    else time_sleep interval ;; ret (Again tt).

Definition poll_workflow_to_completion (workflow_id interval timeout : Z) : M json :=
  validate_positive_int (JInt workflow_id) "workflow_id" ;;
  validate_positive_int (JInt interval) "interval" ;;
  validate_positive_int (JInt timeout) "timeout" ;;
  start <- time_time ;;
  loop (poll_workflow_to_completion_tick workflow_id interval timeout start) tt.

(** The body of the loop of [poll_workflow]. *)
Definition poll_workflow_tick (workflow_url : string) (interval timeout start : Z)
    (_ : unit) : M (tick unit Response) :=
  response <- request "GET" EmptyString (Some workflow_url) [] None ;;
  workflow_data <- response_json response ;;
  status <- dict_get workflow_data "status" (JStr EmptyString) ;;
  progress <- dict_get workflow_data "progress" (JStr EmptyString) ;;
  if status_in status (WORKFLOW_COMPLETED_STATUSES K) then ret (Return response)
  else
    now <- time_time ;;
    if now - start >? timeout * hz
    then raise IRPWorkflowError
           [Lit "Workflow did not complete within "; FInt timeout;
            Lit " seconds. Last status: "; FJson status]
    else time_sleep interval ;; ret (Again tt).

Definition poll_workflow (workflow_url : string) (interval timeout : Z) : M Response :=
  validate_non_empty_string (JStr workflow_url) "workflow_url" ;;
  validate_positive_int (JInt interval) "interval" ;;
  validate_positive_int (JInt timeout) "timeout" ;;
  start <- time_time ;;
  loop (poll_workflow_tick workflow_url interval timeout start) tt.

(** One pass of the inner loop of [poll_workflow_batch_to_completion] and of
    [poll_import_job_batch_to_completion]; its variables are
    [all_workflows] and [offset]. *)
Definition fetch_workflows_page (workflow_ids : list Z) (limit : Z)
    (st : list json * Z) : M (tick (list json * Z) (Response * list json)) :=
  let all_workflows := fst st in
  let offset := snd st in
  let params := [("ids", JStr (join "," (map str_int workflow_ids)));
                 ("limit", JInt limit); ("offset", JInt offset)] in
  response <- request "GET" (GET_WORKFLOWS K) None params None ;;
  response_data <- response_json response ;;
  total_match_count <-
    try_except (subscript response_data "totalMatchCount")
      (fun e => raise IRPAPIError
         [Lit "Missing 'totalMatchCount' in workflow batch response: "; fexn e]) ;;
  workflows <- dict_get response_data "workflows" (JArr []) ;;
  page <- iterate workflows ;;
  let all_workflows := (all_workflows ++ page)%list in
  fetched <- len_ge all_workflows total_match_count ;;
  if fetched then ret (Return (response, all_workflows))
  else ret (Again (all_workflows, offset + limit)).

(** The scan [for workflow in all_workflows: ... break]. *)
Fixpoint all_completed (all_workflows : list json) : M bool :=
  match all_workflows with
  | [] => ret true
  | workflow :: rest =>
      status <- dict_get workflow "status" (JStr EmptyString) ;;
      if status_in status (WORKFLOW_IN_PROGRESS_STATUSES K) then ret false
      else all_completed rest
  end.

Definition poll_workflow_batch_to_completion_tick (workflow_ids : list Z)
    (interval timeout start : Z) (_ : unit) : M (tick unit Response) :=
  fetched <- loop (fetch_workflows_page workflow_ids 100) ([], 0) ;;
  done <- all_completed (snd fetched) ;;
  if done then ret (Return (fst fetched))
  else
    now <- time_time ;;
    if now - start >? timeout * hz
    then raise IRPWorkflowError
           [Lit "Batch workflows did not complete within "; FInt timeout; Lit " seconds"]
    else time_sleep interval ;; ret (Again tt).

Definition poll_workflow_batch_to_completion (workflow_ids : list Z)
    (interval timeout : Z) : M Response :=
  validate_list_not_empty (JArr (map JInt workflow_ids)) "workflow_ids" ;;
  validate_positive_int (JInt interval) "interval" ;;
  validate_positive_int (JInt timeout) "timeout" ;;
  start <- time_time ;;
  loop (poll_workflow_batch_to_completion_tick workflow_ids interval timeout start) tt.

(** *** utils.py *)

Definition get_location_header (response : Response) (error_context : string)
  : M string :=
  match lookup "location" (headers response) with
  | None => raise IRPAPIError [Lit "Location header missing from "; FStr error_context]
  | Some location => ret location
  end.

Definition extract_id_from_location_header (response : Response)
    (error_context : string) : M string :=
  location <- get_location_header response error_context ;;
  match last_segment location with
  | EmptyString =>
      raise IRPAPIError [Lit "Could not extract ID from Location header: "; FStr location]
  | resource_id => ret resource_id
  end.

(** *** client.py: the submission *)

Definition execute_workflow (method path : string)
    (params : list (string * json)) (body : option json) : M Response :=
  response <- request method path None params body ;;
  if negb ((status_code response =? 201) || (status_code response =? 202))
  then ret response
  else
    workflow_url <- get_location_header response "response" ;;
    match workflow_url with
    | EmptyString =>
        raise IRPAPIError
          [Lit "Workflow submission succeeded but Location header is missing"]
    | _ => poll_workflow workflow_url 10 600000
    end.

(** *** utils.py, continued *)

(** Decodes with [b64decode_utf8] and records the field in the world's list
    of decoding attempts. *)
Definition decode_base64_field (encoded_value : json) (field_name : string)
  : M string :=
  fun w =>
    let w' := mkWorld (clock w) (script w) (sent w) (files w) (tables w)
                (decoded w ++ [field_name]) in
    match b64decode_utf8 encoded_value with
    | Some s => (Ok s, w')
    | None =>
        (Raise (Exn IRPAPIError
           [Lit "Failed to decode base64 field '"; FStr field_name; Lit "': ";
            FExn DecodeError []]), w')
    end.





(** [next((item for item in data_list if item.get(name_field) == target_name), None)]. *)
Fixpoint first_named (data_list : list json) (name_field target_name : string)
  : M (option json) :=
  match data_list with
  | [] => ret None
  | item :: rest =>
      name <- dict_get item name_field JNull ;;
      match name with
      | JStr s =>
          if String.eqb s target_name then ret (Some item)
          else first_named rest name_field target_name
      | _ => first_named rest name_field target_name
      end
  end.

(** [[item.get(name_field, '<unnamed>') for item in items]], as the strings
    that [', '.join] accepts. *)
Fixpoint names_of (items : list json) (name_field : string) : M (list string) :=
  match items with
  | [] => ret []
  | item :: rest =>
      name <- dict_get item name_field (JStr "<unnamed>") ;;
      others <- names_of rest name_field ;;
      match name with
      | JStr s => ret (s :: others)
      | _ => raise TypeError [Lit "sequence item: expected str instance, ";
                              FStr (type_name name); Lit " found"]
      end
  end.

Definition find_reference_data_by_name (data_list : list json)
    (target_name name_field data_type : string) : M json :=
  match data_list with
  | [] => raise IRPReferenceDataError [Lit "No "; FStr data_type; Lit " available to search"]
  | _ =>
      found <- first_named data_list name_field target_name ;;
      match found with
      | Some item => ret item
      | None =>
          available_names <- names_of (firstn 5 data_list) name_field ;;
          let names_str := join ", " available_names in
          let more :=
            if (5 <? List.length data_list)%nat
            then [Lit ", ... ("; FInt (Z.of_nat (List.length data_list) - 5); Lit " more)"]
            else [] in
          raise IRPReferenceDataError
            ([FStr data_type; Lit " '"; FStr target_name; Lit "' not found. Available: ";
              FStr names_str] ++ more)
      end
  end.

(** *** portfolio.py *)

(** [len(v)]. *)
Definition py_len (v : json) : M Z :=
  match v with
  | JArr l => ret (Z.of_nat (List.length l))
  | JObj d => ret (Z.of_nat (List.length d))
  | JStr s => ret (Z.of_nat (String.length s))
  | _ => raise TypeError [Lit "object of type "; FStr (type_name v); Lit " has no len()"]
  end.

(** [v[0]]. *)
Definition index0 (v : json) : M json :=
  match v with
  | JArr (x :: _) => ret x
  | JArr [] => raise IndexError [Lit "list index out of range"]
  | JStr (String c _) => ret (JStr (String c EmptyString))
  | JStr EmptyString => raise IndexError [Lit "string index out of range"]
  | JObj _ => raise KeyError [FInt 0]
  | _ => raise TypeError [FStr (type_name v); Lit " object is not subscriptable"]
  end.

Definition dquote : string := String "034"%char EmptyString.

(** The search filter [field="name"], the name between double quotes. *)
Definition name_filter (field name : string) : string :=
  field ++ "=" ++ dquote ++ name ++ dquote.

Definition search_portfolios (exposure_id : json) (filter : string)
    (limit offset : Z) : M json :=
  validate_positive_int exposure_id "exposure_id" ;;
  let params := [("limit", JInt limit); ("offset", JInt offset)] in
  let params :=
    match filter with
    | EmptyString => params
    | _ => (params ++ [("filter", JStr filter)])%list
    end in
  try_except
    (response <- request "GET" (SEARCH_PORTFOLIOS K exposure_id) None params None ;;
     response_json response)
    (fun e => raise IRPAPIError
       [Lit "Failed to search portfolios for exposure ID '"; FJson exposure_id;
        Lit "': "; fexn e]).

Definition create_portfolio (edm_name portfolio_name portfolio_number description : string)
  : M (Z * json) :=
  validate_non_empty_string (JStr edm_name) "edm_name" ;;
  validate_non_empty_string (JStr portfolio_name) "portfolio_name" ;;
  validate_non_empty_string (JStr portfolio_number) "portfolio_number" ;;
  edms <- search_edms (name_filter "exposureName" edm_name) ;;
  n_edms <- py_len edms ;;
  if negb (n_edms =? 1)
  then raise IRPAPIError
         [Lit "Expected 1 EDM with name "; FStr edm_name; Lit ", found "; FInt n_edms]
  else
    exposure_id <-
      try_except (edm <- index0 edms ;; subscript edm "exposureId")
        (fun e => raise IRPAPIError
           [Lit "Failed to extract exposure ID for EDM '"; FStr edm_name; Lit "': ";
            fexn e]) ;;
    portfolios <- search_portfolios exposure_id
                    (name_filter "portfolioName" portfolio_name) 100 0 ;;
    n_portfolios <- py_len portfolios ;;
    if n_portfolios >? 0
    then raise IRPAPIError
           [FInt n_portfolios; Lit " portfolios found with name "; FStr portfolio_name;
            Lit ", please use a unique name"]
    else
      let data := JObj [("portfolioName", JStr portfolio_name);
                        ("portfolioNumber", JStr (take 20 portfolio_number));
                        ("description", JStr description)] in
      try_except
        (response <- request "POST" (CREATE_PORTFOLIO K exposure_id) None []
                       (Some data) ;;
         portfolio_id <- extract_id_from_location_header response "portfolio creation" ;;
         match py_int portfolio_id with
         | Some id => ret (id, data)
         | None => raise ValueError [Lit "invalid literal for int(): "; FStr portfolio_id]
         end)
        (fun e => raise IRPAPIError
           [Lit "Failed to create portfolio '"; FStr portfolio_name;
            Lit "' in exposure id '"; FJson exposure_id; Lit "': "; fexn e]).

Definition get_geohaz_job (job_id : Z) : M json :=
  validate_positive_int (JInt job_id) "job_id" ;;
  try_except
    (response <- request "GET" (GET_GEOHAZ_JOB K job_id) None [] None ;;
     response_json response)
    (fun e => raise IRPAPIError
       [Lit "Failed to get geohaz job status for job ID "; FInt job_id; Lit ": "; fexn e]).

(** The body of the loop of [poll_geohaz_job_to_completion]. *)
Definition poll_geohaz_job_to_completion_tick (job_id interval timeout start : Z)
    (_ : unit) : M (tick unit json) :=
  job_data <- get_geohaz_job job_id ;;
  sp <- try_except
          (status <- subscript job_data "status" ;;
           progress <- subscript job_data "progress" ;;
           ret (status, progress))
          (fun e => raise IRPAPIError
             [Lit "Missing 'status' or 'progress' in job response for job ID ";
              FInt job_id; Lit ": "; fexn e]) ;;
  let status := fst sp in
  if status_in status (WORKFLOW_COMPLETED_STATUSES K) then ret (Return job_data)
  else
    now <- time_time ;;
    if now - start >? timeout * hz
    then raise IRPJobError
           [Lit "GeoHaz job ID "; FInt job_id; Lit " did not complete within ";
            FInt timeout; Lit " seconds. Last status: "; FJson status]
    else time_sleep interval ;; ret (Again tt).

Definition poll_geohaz_job_to_completion (job_id interval timeout : Z) : M json :=
  validate_positive_int (JInt job_id) "job_id" ;;
  validate_positive_int (JInt interval) "interval" ;;
  validate_positive_int (JInt timeout) "timeout" ;;
  start <- time_time ;;
  loop (poll_geohaz_job_to_completion_tick job_id interval timeout start) tt.

(** The [for job_id in job_ids] loop of [poll_geohaz_job_batch_to_completion];
    its variables are [all_completed] and [all_jobs]. *)
Fixpoint geohaz_scan (job_ids : list Z) (all_done : bool) (all_jobs : list json)
  : M (bool * list json) :=
  match job_ids with
  | [] => ret (all_done, all_jobs)
  | job_id :: rest =>
      workflow_response <- get_geohaz_job job_id ;;
      let all_jobs := (all_jobs ++ [workflow_response])%list in
      status <-
        try_except (subscript workflow_response "status")
          (fun e => raise IRPAPIError
             [Lit "Missing 'status' in workflow response for job ID "; FInt job_id;
              Lit ": "; fexn e]) ;;
      if status_in status (WORKFLOW_IN_PROGRESS_STATUSES K)
      then ret (all_done, [])
      else geohaz_scan rest true all_jobs
  end.

Definition poll_geohaz_job_batch_to_completion_tick (job_ids : list Z)
    (interval timeout start : Z) (_ : unit) : M (tick unit (list json)) :=
  scanned <- geohaz_scan job_ids false [] ;;
  if fst scanned then ret (Return (snd scanned))
  else
    now <- time_time ;;
    if now - start >? timeout * hz
    then raise IRPJobError
           [Lit "Batch geohaz jobs did not complete within "; FInt timeout; Lit " seconds"]
    else time_sleep interval ;; ret (Again tt).

Definition poll_geohaz_job_batch_to_completion (job_ids : list Z)
    (interval timeout : Z) : M (list json) :=
  validate_list_not_empty (JArr (map JInt job_ids)) "job_ids" ;;
  validate_positive_int (JInt interval) "interval" ;;
  validate_positive_int (JInt timeout) "timeout" ;;
  start <- time_time ;;
  loop (poll_geohaz_job_batch_to_completion_tick job_ids interval timeout start) tt.

(** *** mri_import.py *)

(** [item['source'].upper()]. *)
Definition source_upper (item : json) : M string :=
  source <- subscript item "source" ;;
  match source with
  | JStr s => ret (upper s)
  | _ => raise AttributeError [FStr (type_name source); Lit " object has no attribute 'upper'"]
  end.

(** [{item['source'].upper() for item in items}]. *)
Fixpoint existing_sources (items : list json) : M (list string) :=
  match items with
  | [] => ret []
  | item :: rest =>
      s <- source_upper item ;;
      others <- existing_sources rest ;;
      ret (s :: others)
  end.

Definition mem (s : string) (l : list string) : bool := existsb (String.eqb s) l.

Definition identity_entry (header_upper : string) : json :=
  JObj [("source", JStr header_upper); ("destination", JStr header_upper)].

(** [items.append(x)]. *)
Definition py_append (items : json) (x : json) : M json :=
  match items with
  | JArr l => ret (JArr (l ++ [x]))
  | _ => raise AttributeError [FStr (type_name items); Lit " object has no attribute 'append'"]
  end.

(** The [for header in headers] loop of [_add_missing_sources]; its
    variables are [modified] and the list object [items]. *)
Fixpoint add_headers (existing_sources_upper headers : list string)
    (items : json) (modified : bool) : M (bool * json) :=
  match headers with
  | [] => ret (modified, items)
  | header :: rest =>
      let header_upper := upper header in
      if mem header_upper existing_sources_upper
      then add_headers existing_sources_upper rest items modified
      else
        items' <- py_append items (identity_entry header_upper) ;;
        add_headers existing_sources_upper rest items' true
  end.

(** Returns [modified] and the list object [items] as the call leaves it. *)
Definition _add_missing_sources (headers : list string) (items : json)
  : M (bool * json) :=
  entries <- iterate items ;;
  existing_sources_upper <- existing_sources entries ;;
  add_headers existing_sources_upper headers items false.

Definition json_load (path : string) : M json :=
  fun w =>
    match lookup path (files w) with
    | Some v => (Ok v, w)
    | None => (Raise (Exn FileNotFoundError [FStr path]), w)
    end.

Definition json_dump (v : json) (path : string) : M unit :=
  fun w =>
    (Ok tt, mkWorld (clock w) (script w) (sent w) (update path v (files w))
              (tables w) (decoded w)).

(** [list(pd.read_csv(path, nrows=0, sep=TAB).columns)]. *)
Definition read_csv_columns (path : string) : M (list string) :=
  fun w =>
    match lookup path (tables w) with
    | Some columns => (Ok columns, w)
    | None => (Raise (Exn FileNotFoundError [FStr path]), w)
    end.

(** [mapping.get(key, [])] followed by [_add_missing_sources(headers, items)]:
    when the key is present the list that grows is the one inside
    [mapping]; when it is absent the list that grows is a fresh one that
    [mapping] does not hold. *)
Definition sync_items (mapping : json) (key : string) (headers : list string)
  : M (bool * json) :=
  match mapping with
  | JObj d =>
      match lookup key d with
      | Some items =>
          r <- _add_missing_sources headers items ;;
          ret (fst r, JObj (update key (snd r) d))
      | None =>
          r <- _add_missing_sources headers (JArr []) ;;
          ret (fst r, mapping)
      end
  | _ => raise AttributeError [FStr (type_name mapping); Lit " object has no attribute 'get'"]
  end.

Definition _sync_mapping_with_csv_headers
    (mapping_file_path accounts_file_path locations_file_path : string) : M unit :=
  mapping <- json_load mapping_file_path ;;
  let modified := false in
  account_headers <- read_csv_columns accounts_file_path ;;
  r1 <- sync_items mapping "accountItems" account_headers ;;
  let modified := modified || fst r1 in
  location_headers <- read_csv_columns locations_file_path ;;
  r2 <- sync_items (snd r1) "locationItems" location_headers ;;
  let modified := modified || fst r2 in
  if modified then json_dump (snd r2) mapping_file_path else ret tt.

Definition poll_import_job_batch_to_completion_tick (workflow_ids : list Z)
    (interval timeout start : Z) (_ : unit) : M (tick unit (list json)) :=
  fetched <- loop (fetch_workflows_page workflow_ids 100) ([], 0) ;;
  done <- all_completed (snd fetched) ;;
  if done then ret (Return (snd fetched))
  else
    now <- time_time ;;
    if now - start >? timeout * hz
    then raise IRPJobError
           [Lit "Batch import workflows did not complete within "; FInt timeout;
            Lit " seconds"]
    else time_sleep interval ;; ret (Again tt).

Definition poll_import_job_batch_to_completion (workflow_ids : list Z)
    (interval timeout : Z) : M (list json) :=
  validate_list_not_empty (JArr (map JInt workflow_ids)) "workflow_ids" ;;
  validate_positive_int (JInt interval) "interval" ;;
  validate_positive_int (JInt timeout) "timeout" ;;
  start <- time_time ;;
  loop (poll_import_job_batch_to_completion_tick workflow_ids interval timeout start) tt.

(** [submit_mri_import_job] up to its portfolio lookup, called with both
    directories given: the validation of the arguments and the EDM and
    portfolio lookups, which give the exposure ID and the portfolio ID the
    rest of the function works with. *)
Definition submit_mri_import_job_lookup
    (edm_name portfolio_name accounts_file_name locations_file_name
     mapping_file_name : string) : M (json * json) :=
  validate_non_empty_string (JStr edm_name) "edm_name" ;;
  validate_non_empty_string (JStr portfolio_name) "portfolio_name" ;;
  validate_non_empty_string (JStr accounts_file_name) "accounts_file_name" ;;
  validate_non_empty_string (JStr locations_file_name) "locations_file_name" ;;
  validate_non_empty_string (JStr mapping_file_name) "mapping_file_name" ;;
  edms <- search_edms (name_filter "exposureName" edm_name) ;;
  n_edms <- py_len edms ;;
  if negb (n_edms =? 1)
  then raise IRPAPIError
         [Lit "Expected 1 EDM with name "; FStr edm_name; Lit ", found "; FInt n_edms]
  else
    exposure_id <-
      try_except (edm <- index0 edms ;; subscript edm "exposureId")
        (fun e => raise IRPAPIError
           [Lit "Failed to extract exposure ID for EDM '"; FStr edm_name; Lit "': ";
            fexn e]) ;;
    portfolios <- search_portfolios exposure_id
                    (name_filter "portfolioName" portfolio_name) 100 0 ;;
    n_portfolios <- py_len portfolios ;;
    if n_portfolios =? 0
    then raise IRPAPIError
           [Lit "Portfolio with name "; FStr portfolio_name; Lit " not found"]
    else if n_portfolios >? 1
    then raise IRPAPIError
           [FInt n_portfolios; Lit " portfolios found with name "; FStr portfolio_name;
            Lit ", please use a unique name"]
    else
      portfolio_id <-
        try_except (portfolio <- index0 portfolios ;; subscript portfolio "portfolioId")
          (fun e => raise IRPAPIError
             [Lit "Failed to extract portfolio ID for portfolio '"; FStr portfolio_name;
              Lit "': "; fexn e]) ;;
      ret (exposure_id, portfolio_id).

(** ** More of the embedded files *)

(** More of [constants.py]. *)
Variable CREATE_AWS_BUCKET : string.
Variable EXECUTE_IMPORT : string.
Variable GEOHAZ_PORTFOLIO : string.
Variable SEARCH_ACCOUNTS_BY_PORTFOLIO : json -> json -> string.  (* [.format(exposureId=..., id=...)] *)

(** *** Strings, continued *)

Definition lower_ascii (c : ascii) : ascii :=
  let n := nat_of_ascii c in
  if ((65 <=? n) && (n <=? 90))%nat then ascii_of_nat (n + 32) else c.

Fixpoint lower (s : string) : string :=
  match s with
  | EmptyString => EmptyString
  | String c r => String (lower_ascii c) (lower r)
  end.

(** [needle in s]. *)
Fixpoint has_substring (needle s : string) : bool :=
  prefix needle s
  || match s with
     | EmptyString => false
     | String _ r => has_substring needle r
     end.


(** *** utils.py: the remaining decoders *)

Definition extract_analysis_id_from_workflow_response (workflow : json) : M json :=
  try_except
    (output <- subscript workflow "output" ;; subscript output "analysisId")
    (fun e => raise IRPAPIError
       [Lit "Missing required field in workflow response: "; fexn e]).



(** *** portfolio.py, continued *)

(** One pass of the loop of [search_portfolios_paginated]; its variables are
    [all_results] and [offset]. *)
Definition search_portfolios_page (exposure_id : json) (filter : string) (limit : Z)
    (st : list json * Z) : M (tick (list json * Z) (list json)) :=
  let all_results := fst st in
  let offset := snd st in
  results <- search_portfolios exposure_id filter limit offset ;;
  page <- iterate results ;;
  let all_results := (all_results ++ page)%list in
  n <- py_len results ;;
  if n <? limit then ret (Return all_results)
  else ret (Again (all_results, offset + limit)).

Definition search_portfolios_paginated (exposure_id : json) (filter : string)
  : M (list json) :=
  validate_positive_int exposure_id "exposure_id" ;;
  loop (search_portfolios_page exposure_id filter 100) ([], 0).

Definition search_accounts_by_portfolio (exposure_id portfolio_id : json) : M json :=
  validate_positive_int exposure_id "exposure_id" ;;
  validate_positive_int portfolio_id "portfolio_id" ;;
  try_except
    (response <- request "GET" (SEARCH_ACCOUNTS_BY_PORTFOLIO exposure_id portfolio_id)
                   None [] None ;;
     response_json response)
    (fun e => raise IRPAPIError
       [Lit "Failed to search portfolio accounts for exposure ID '"; FJson exposure_id;
        Lit "' and portfolio ID '"; FJson portfolio_id; Lit "': "; fexn e]).

(** [locations_count += n] on an integer. *)
Definition add_count (locations_count : Z) (n : json) : M Z :=
  match as_int n with
  | Some z => ret (locations_count + z)
  | None => raise TypeError [Lit "unsupported operand type(s) for +=: 'int' and ";
                             FStr (type_name n)]
  end.

(** The [for account in accounts] loop of [submit_geohaz_job], which stops
    at the first account with which the count becomes positive. *)
Fixpoint count_locations (accounts : list json) (locations_count : Z) : M Z :=
  match accounts with
  | [] => ret locations_count
  | account :: rest =>
      n <- subscript account "locationsCount" ;;
      locations_count <- add_count locations_count n ;;
      if locations_count >? 0 then ret locations_count
      else count_locations rest locations_count
  end.

Definition default_geocode_layer_options : json :=
  JObj [("aggregateTriggerEnabled", JStr "true"); ("geoLicenseType", JStr "0");
        ("skipPrevGeocoded", JBool false)].

Definition default_hazard_layer_options : json :=
  JObj [("overrideUserDef", JBool false); ("skipPrevHazard", JBool false)].

Definition geohaz_layer (type name version : string) (layer_options : json) : json :=
  JObj [("type", JStr type); ("name", JStr name); ("engineType", JStr "RL");
        ("version", JStr version); ("layerOptions", layer_options)].

(** The request body of [submit_geohaz_job]. *)
Definition geohaz_data (portfolio_uri : json) (version : string)
    (hazard_eq hazard_ws : bool) (geocode_layer_options hazard_layer_options : json)
  : json :=
  JObj [("resourceUri", portfolio_uri); ("resourceType", JStr "portfolio");
        ("settings",
         JObj [("layers",
                JArr ([geohaz_layer "geocode" "geocode" version geocode_layer_options]
                      ++ (if hazard_eq
                          then [geohaz_layer "hazard" "earthquake" version
                                  hazard_layer_options]
                          else [])
                      ++ (if hazard_ws
                          then [geohaz_layer "hazard" "windstorm" version
                                  hazard_layer_options]
                          else [])))])].

Definition submit_geohaz_job (portfolio_name edm_name version : string)
    (hazard_eq hazard_ws : bool)
    (geocode_layer_options hazard_layer_options : option json) : M (Z * json) :=
  validate_non_empty_string (JStr portfolio_name) "portfolio_name" ;;
  validate_non_empty_string (JStr edm_name) "edm_name" ;;
  edms <- search_edms (name_filter "exposureName" edm_name) ;;
  n_edms <- py_len edms ;;
  if negb (n_edms =? 1)
  then raise IRPAPIError
         [Lit "Expected 1 EDM with name '"; FStr edm_name; Lit "', found "; FInt n_edms]
  else
    exposure_id <-
      try_except (edm <- index0 edms ;; subscript edm "exposureId")
        (fun e => raise IRPAPIError
           [Lit "Failed to extract exposure ID for EDM '"; FStr edm_name; Lit "': ";
            fexn e]) ;;
    portfolios <- search_portfolios exposure_id
                    (name_filter "portfolioName" portfolio_name) 100 0 ;;
    n_portfolios <- py_len portfolios ;;
    if negb (n_portfolios =? 1)
    then raise IRPAPIError
           [Lit "Expected 1 portfolio with name '"; FStr portfolio_name;
            Lit "', found "; FInt n_portfolios]
    else
      details <-
        try_except
          (portfolio <- index0 portfolios ;;
           uri <- subscript portfolio "uri" ;;
           portfolio' <- index0 portfolios ;;
           id <- subscript portfolio' "portfolioId" ;;
           ret (uri, id))
          (fun e => raise IRPAPIError
             [Lit "Failed to extract portfolio details for portfolio '";
              FStr portfolio_name; Lit "': "; fexn e]) ;;
      let portfolio_uri := fst details in
      let portfolio_id := snd details in
      accounts <- search_accounts_by_portfolio exposure_id portfolio_id ;;
      n_accounts <- py_len accounts ;;
      if n_accounts =? 0
      then raise IRPAPIError
             [Lit "Portfolio '"; FStr portfolio_name;
              Lit "' does not have any Accounts/Locations to be GeoHaz'd"]
      else
        locations_count <-
          try_except
            (items <- iterate accounts ;; count_locations items 0)
            (fun e => raise IRPAPIError
               [Lit "Failed to validate locations count for portfolio '";
                FStr portfolio_name; Lit "': "; fexn e]) ;;
        if locations_count =? 0
        then raise IRPAPIError
               [Lit "Portfolio '"; FStr portfolio_name;
                Lit "' has accounts but no locations to be GeoHaz'd"]
        else
          let geocode_layer_options :=
            match geocode_layer_options with
            | Some o => o
            | None => default_geocode_layer_options
            end in
          let hazard_layer_options :=
            match hazard_layer_options with
            | Some o => o
            | None => default_hazard_layer_options
            end in
          let data := geohaz_data portfolio_uri version hazard_eq hazard_ws
                        geocode_layer_options hazard_layer_options in
          try_except
            (response <- request "POST" GEOHAZ_PORTFOLIO None [] (Some data) ;;
             job_id <- extract_id_from_location_header response "portfolio geohaz" ;;
             match py_int job_id with
             | Some id => ret (id, data)
             | None => raise ValueError [Lit "invalid literal for int(): "; FStr job_id]
             end)
            (fun e => raise IRPAPIError
               [Lit "Failed to execute geohaz for portfolio '"; FJson portfolio_uri;
                Lit "': "; fexn e]).

(** The first directory of the listing whose name is [target_dir] in lower
    case: the [for item in portfolio_mapping_base.iterdir()] loop. *)
Fixpoint first_directory (target_dir : string) (entries : list (string * bool))
  : option string :=
  match entries with
  | [] => None
  | (name, is_dir) :: rest =>
      if is_dir && String.eqb (lower name) target_dir then Some name
      else first_directory target_dir rest
  end.

(** [resolve_cycle_type_directory], given what the file system holds at
    [WORKSPACE_PATH/sql/portfolio_mapping]: nothing, or entries with their
    names and whether they are directories, in the order [iterdir] gives. *)
Definition resolve_cycle_type_directory
    (portfolio_mapping_base : option (list (string * bool))) (cycle_type : string)
  : M string :=
  let cycle_type_lower := lower cycle_type in
  let target_dir :=
    if has_substring "test" cycle_type_lower then "test" else cycle_type_lower in
  match portfolio_mapping_base with
  | None =>
      raise IRPValidationError
        [Lit "Portfolio mapping base directory not found: "; Lit "sql/portfolio_mapping"]
  | Some entries =>
      match first_directory target_dir entries with
      | Some name => ret name
      | None =>
          raise IRPValidationError
            [Lit "Portfolio mapping directory not found for cycle type '";
             FStr cycle_type; Lit "'. ";
             Lit "Expected directory: portfolio_mapping/"; FStr target_dir]
      end
  end.

(** *** mri_import.py, continued *)


Definition create_aws_bucket : M Response :=
  request "POST" CREATE_AWS_BUCKET None [] None.






Definition get_import_job (workflow_id : Z) : M json :=
  validate_positive_int (JInt workflow_id) "workflow_id" ;;
  try_except
    (response <- request "GET" (GET_WORKFLOW_BY_ID K workflow_id) None [] None ;;
     response_json response)
    (fun e => raise IRPAPIError
       [Lit "Failed to get import job status for workflow ID "; FInt workflow_id;
        Lit ": "; fexn e]).

Definition submit_import_job (edm_name : string)
    (portfolio_id bucket_id accounts_file_id locations_file_id mapping_file_id : Z)
    (delimiter : string) (skip_lines : Z) (currency : string) (append_locations : bool)
  : M (Z * json) :=
  validate_non_empty_string (JStr edm_name) "edm_name" ;;
  validate_positive_int (JInt portfolio_id) "portfolio_id" ;;
  validate_positive_int (JInt bucket_id) "bucket_id" ;;
  validate_positive_int (JInt accounts_file_id) "accounts_file_id" ;;
  validate_positive_int (JInt locations_file_id) "locations_file_id" ;;
  validate_positive_int (JInt mapping_file_id) "mapping_file_id" ;;
  let data := JObj [("importType", JStr "MRI"); ("bucketId", JInt bucket_id);
                    ("dataSourceName", JStr edm_name);
                    ("accountsFileId", JInt accounts_file_id);
                    ("locationsFileId", JInt locations_file_id);
                    ("mappingFileId", JInt mapping_file_id);
                    ("delimiter", JStr delimiter); ("skipLines", JInt skip_lines);
                    ("currency", JStr currency); ("portfolioId", JInt portfolio_id);
                    ("appendLocations", JBool append_locations)] in
  try_except
    (response <- request "POST" EXECUTE_IMPORT None [] (Some data) ;;
     workflow_id <- extract_id_from_location_header response "MRI import submission" ;;
     match py_int workflow_id with
     | Some id => ret (id, data)
     | None => raise ValueError [Lit "invalid literal for int(): "; FStr workflow_id]
     end)
    (fun e => raise IRPAPIError [Lit "Failed to submit MRI import: "; fexn e]).

(** ** Vocabulary of the statements *)

(** [workflow_data.get('status', '')] on a dict with fields [d]. *)
Definition status_or_empty (d : list (string * json)) : json :=
  match lookup "status" d with Some x => x | None => JStr EmptyString end.

(** The status request of [poll_workflow], of [get_workflow] and of
    [get_geohaz_job]. *)
Definition url_request (workflow_url : string) : Request :=
  mkRequest "GET" (target_url EmptyString (Some workflow_url)) [] None.

Definition workflow_request (workflow_id : Z) : Request :=
  mkRequest "GET" (target_url (GET_WORKFLOW_BY_ID K workflow_id) None) [] None.

Definition geohaz_request (job_id : Z) : Request :=
  mkRequest "GET" (target_url (GET_GEOHAZ_JOB K job_id) None) [] None.

(** The event is an answer [r] that [raise_for_status] accepts and whose
    body is the JSON value [v]. *)
Definition answers (ev : Event) (r : Response) (v : json) : Prop :=
  ev_reply ev = Reply r /\ is_http_error r = false /\ json_body r = Some v.

(** A listed workflow whose status is not one of the in-progress ones. *)
Definition not_in_progress (workflow : json) : Prop :=
  exists d, workflow = JObj d /\
    status_in (status_or_empty d) (WORKFLOW_IN_PROGRESS_STATUSES K) = false.

(** The listing request of the batch pollers for one page. *)
Definition page_request (workflow_ids : list Z) (limit offset : Z) : Request :=
  mkRequest "GET" (target_url (GET_WORKFLOWS K) None)
    [("ids", JStr (join "," (map str_int workflow_ids)));
     ("limit", JInt limit); ("offset", JInt offset)] None.

(** The first [n] page requests of a tick: offsets [offset], [offset + limit], ... *)
Definition page_requests (workflow_ids : list Z) (limit offset : Z) (n : nat)
  : list Request :=
  map (fun i => page_request workflow_ids limit (offset + limit * Z.of_nat i)) (seq 0 n).

(** The body of a listing answer reports [total] matches and carries [page]. *)
Definition lists (d : list (string * json)) (total : Z) (page : list json) : Prop :=
  lookup "totalMatchCount" d = Some (JInt total) /\
  lookup "workflows" d = Some (JArr page).

(** The key whose absence [job_data['status']], [job_data['progress']] reports. *)
Definition first_missing (d : list (string * json)) : string :=
  match lookup "status" d with None => "status" | Some _ => "progress" end.

(** The mapping entry [item] has the source field [s]. *)
Definition has_source (item : json) (s : string) : Prop :=
  exists d, item = JObj d /\ lookup "source" d = Some (JStr s).

(** The header is not, in upper case, among the existing sources. *)
Definition is_missing (existing_sources_upper : list string) (header : string) : bool :=
  negb (mem (upper header) existing_sources_upper).

(** The identity entries of the headers that are missing, in header order. *)
Definition new_entries (existing_sources_upper headers : list string) : list json :=
  map (fun header => identity_entry (upper header))
    (filter (is_missing existing_sources_upper) headers).


(** The error of [decode_base64_field] for a field. *)
Definition decode_failure (field_name : string) : exn :=
  Exn IRPAPIError
    [Lit "Failed to decode base64 field '"; FStr field_name; Lit "': ";
     FExn DecodeError []].

(** The body [create_portfolio] sends. *)
Definition portfolio_data (portfolio_name portfolio_number description : string) : json :=
  JObj [("portfolioName", JStr portfolio_name);
        ("portfolioNumber", JStr (take 20 portfolio_number));
        ("description", JStr description)].

(** The portfolio search by name that [create_portfolio] and
    [submit_mri_import_job] make. *)
Definition portfolio_search (exposure_id : json) (portfolio_name : string) : Request :=
  mkRequest "GET" (target_url (SEARCH_PORTFOLIOS K exposure_id) None)
    [("limit", JInt 100); ("offset", JInt 0);
     ("filter", JStr (name_filter "portfolioName" portfolio_name))] None.

(** The item is a dict whose name field is a string other than [target_name]. *)
Definition named_otherwise (name_field target_name : string) (item : json) : Prop :=
  exists d s, item = JObj d /\ lookup name_field d = Some (JStr s) /\ s <> target_name.

(** ** Vocabulary of the further statements *)

(** An answer with a status record whose status is not in COMPLETED: the
    single-handle pollers go on after it. *)
Definition pending_job (ev : Event) : Prop :=
  exists r d status progress,
    answers ev r (JObj d) /\ lookup "status" d = Some status /\
    lookup "progress" d = Some progress /\
    status_in status (WORKFLOW_COMPLETED_STATUSES K) = false.

(** The time the replies take, in clock ticks. *)
Definition total_latency (evs : list Event) : Z :=
  fold_right (fun ev acc => Z.of_nat (latency ev) + acc) 0 evs.

(** The world after [n] identical requests [rq] that consumed the replies
    [evs], with [slept] ticks of sleep in between. *)
Definition after_requests (w : World) (evs rest : list Event) (rq : Request)
    (n : nat) (slept : Z) : World :=
  mkWorld (clock w + total_latency evs + slept) rest (sent w ++ repeat rq n)
    (files w) (tables w) (decoded w).

(** The JSON body of a reply. *)
Definition record_of (ev : Event) : json :=
  match ev_reply ev with
  | Reply r => match json_body r with Some v => v | None => JNull end
  | ConnectionFailed => JNull
  end.

(** An answer with a job record whose status is, or is not, one of the
    in-progress ones. *)
Definition job_in_progress (in_progress : bool) (ev : Event) : Prop :=
  exists r d status,
    answers ev r (JObj d) /\ lookup "status" d = Some status /\
    status_in status (WORKFLOW_IN_PROGRESS_STATUSES K) = in_progress.

(** A listing answer that reports [total] matches and carries [page]. *)
Definition page_of (total : Z) (ev : Event) (page : list json) : Prop :=
  exists r d, answers ev r (JObj d) /\ lists d total page.

(** A portfolio search answer that carries the list [page]. *)
Definition portfolios_of (ev : Event) (page : list json) : Prop :=
  exists r, answers ev r (JArr page).

(** The request of [search_portfolios]. *)
Definition portfolio_page_request (exposure_id : json) (filter : string)
    (limit offset : Z) : Request :=
  mkRequest "GET" (target_url (SEARCH_PORTFOLIOS K exposure_id) None)
    (match filter with
     | EmptyString => [("limit", JInt limit); ("offset", JInt offset)]
     | _ => [("limit", JInt limit); ("offset", JInt offset); ("filter", JStr filter)]
     end) None.

Definition portfolio_page_requests (exposure_id : json) (filter : string)
    (limit offset : Z) (n : nat) : list Request :=
  map (fun i => portfolio_page_request exposure_id filter limit
                  (offset + limit * Z.of_nat i)) (seq 0 n).

(** No slash in the string. *)
Fixpoint slash_free (s : string) : bool :=
  match s with
  | EmptyString => true
  | String "/" _ => false
  | String _ r => slash_free r
  end.

(** An account whose [locationsCount] is the integer [n]. *)
Definition account_with (n : Z) (account : json) : Prop :=
  exists d, account = JObj d /\ lookup "locationsCount" d = Some (JInt n).

(** The status a single-handle poller reads off a reply. *)
Definition observed_status (ev : Event) : json :=
  match record_of ev with
  | JObj d => status_or_empty d
  | _ => JStr EmptyString
  end.

(** The timeout errors of the three single-handle pollers. *)
Definition workflow_timeout (timeout : Z) (status : json) : exn :=
  Exn IRPWorkflowError
    [Lit "Workflow did not complete within "; FInt timeout;
     Lit " seconds. Last status: "; FJson status].

Definition job_timeout (workflow_id timeout : Z) (status : json) : exn :=
  Exn IRPJobError
    [Lit "Risk data workflow ID "; FInt workflow_id;
     Lit " did not complete within "; FInt timeout;
     Lit " seconds. Last status: "; FJson status].

Definition geohaz_timeout (job_id timeout : Z) (status : json) : exn :=
  Exn IRPJobError
    [Lit "GeoHaz job ID "; FInt job_id; Lit " did not complete within ";
     FInt timeout; Lit " seconds. Last status: "; FJson status].

(** The world after the requests [rqs] have consumed the replies [evs]. *)
Definition after_fetches (w : World) (evs rest : list Event) (rqs : list Request)
  : World :=
  mkWorld (clock w + total_latency evs) rest (sent w ++ rqs)
    (files w) (tables w) (decoded w).

(** The item is a dict whose name field is the string [target_name]. *)
Definition named_as (name_field target_name : string) (item : json) : Prop :=
  exists d, item = JObj d /\ lookup name_field d = Some (JStr target_name).

(** The cycle type's directory name, in lower case. *)
Definition cycle_directory (cycle_type : string) : string :=
  if has_substring "test" (lower cycle_type) then "test" else lower cycle_type.


(** The request of [search_accounts_by_portfolio]. *)
Definition accounts_request (exposure_id portfolio_id : Z) : Request :=
  mkRequest "GET"
    (target_url (SEARCH_ACCOUNTS_BY_PORTFOLIO (JInt exposure_id) (JInt portfolio_id)) None)
    [] None.

(** The errors of [submit_geohaz_job] for a portfolio without locations. *)
Definition no_locations_error (portfolio_name : string) (accounts : list json) : exn :=
  Exn IRPAPIError
    (match accounts with
     | [] => [Lit "Portfolio '"; FStr portfolio_name;
              Lit "' does not have any Accounts/Locations to be GeoHaz'd"]
     | _ => [Lit "Portfolio '"; FStr portfolio_name;
             Lit "' has accounts but no locations to be GeoHaz'd"]
     end).

(** The layer options [submit_geohaz_job] sends. *)
Definition options_or (options : option json) (default : json) : json :=
  match options with Some o => o | None => default end.

(** The computation leaves the world as it finds it, however it ends. *)
Definition unchanged {A : Type} (m : M A) : Prop :=
  forall (w w' : World) (res : outcome A), m w = (res, w') -> w' = w.

(** The worlds differ at most in what the file at [path] holds. *)
Definition same_but_file (path : string) (w w' : World) : Prop :=
  clock w' = clock w /\ script w' = script w /\ sent w' = sent w /\
  tables w' = tables w /\ decoded w' = decoded w /\
  forall other, other <> path -> lookup other (files w') = lookup other (files w).

(** ** The monad and the transport: basic facts *)

Lemma bind_ok {A B : Type} (m : M A) (f : A -> M B) (w w' : World) (a : A) :
  m w = (Ok a, w') -> bind m f w = f a w'.
Proof. intros H. unfold bind. now rewrite H. Qed.

Lemma bind_ret {A B : Type} (a : A) (f : A -> M B) (w : World) :
  bind (ret a) f w = f a w.
Proof. reflexivity. Qed.

Lemma bind_raise {A B : Type} (m : M A) (f : A -> M B) (w w' : World) (e : exn) :
  m w = (Raise e, w') -> bind m f w = (Raise e, w').
Proof. intros H. unfold bind. now rewrite H. Qed.

Lemma bind_inv_ok {A B : Type} (m : M A) (f : A -> M B) (w w' : World) (b : B) :
  bind m f w = (Ok b, w') ->
  exists a w1, m w = (Ok a, w1) /\ f a w1 = (Ok b, w').
Proof.
  unfold bind. destruct (m w) as [[a | e |] w1]; intros H; try discriminate.
  now exists a, w1.
Qed.

Lemma try_except_ok {A : Type} (m : M A) (h : exn -> M A) (w w' : World) (a : A) :
  m w = (Ok a, w') -> try_except m h w = (Ok a, w').
Proof. intros H. unfold try_except. now rewrite H. Qed.

Lemma try_except_raise {A : Type} (m : M A) (h : exn -> M A) (w w' : World) (e : exn) :
  m w = (Raise e, w') -> try_except m h w = h e w'.
Proof. intros H. unfold try_except. now rewrite H. Qed.

Lemma request_served (method path : string) (full_url : option string)
    (params : list (string * json)) (body : option json)
    (w : World) (ev : Event) (rest : list Event) (r : Response) :
  is_blank method = false ->
  script w = ev :: rest ->
  ev_reply ev = Reply r ->
  is_http_error r = false ->
  request method path full_url params body w =
    (Ok r, served w ev rest (mkRequest method (target_url path full_url) params body)).
Proof.
  intros Hm Hs Hr He. unfold request, bind, validate_non_empty_string.
  rewrite Hm. unfold ret. rewrite Hs, Hr, He. reflexivity.
Qed.

(** One more turn of a loop whose body asks to go round again. *)
Lemma while_true_again {St A : Type} (fuel : nat) (body : St -> M (tick St A))
    (s s' : St) (w w' : World) :
  body s w = (Ok (Again s'), w') ->
  while_true (S fuel) body s w = while_true fuel body s' w'.
Proof. intros H. simpl. now rewrite (bind_ok _ _ _ _ _ H). Qed.

Lemma while_true_return {St A : Type} (fuel : nat) (body : St -> M (tick St A))
    (s : St) (a : A) (w w' : World) :
  body s w = (Ok (Return a), w') ->
  while_true (S fuel) body s w = (Ok a, w').
Proof. intros H. simpl. now rewrite (bind_ok _ _ _ _ _ H). Qed.

Lemma while_true_raise {St A : Type} (fuel : nat) (body : St -> M (tick St A))
    (s : St) (e : exn) (w w' : World) :
  body s w = (Raise e, w') ->
  while_true (S fuel) body s w = (Raise e, w').
Proof. intros H. simpl. now rewrite (bind_raise _ _ _ _ _ H). Qed.

(** ** One tick of the single-handle pollers *)

Lemma poll_workflow_tick_pending (workflow_url : string) (interval timeout start : Z)
    (w : World) (ev : Event) (rest : list Event) (r : Response)
    (d : list (string * json)) :
  script w = ev :: rest ->
  answers ev r (JObj d) ->
  status_in (status_or_empty d) (WORKFLOW_COMPLETED_STATUSES K) = false ->
  poll_workflow_tick workflow_url interval timeout start tt w =
    let w1 := served w ev rest (url_request workflow_url) in
    if clock w1 - start >? timeout * hz
    then (Raise (Exn IRPWorkflowError
            [Lit "Workflow did not complete within "; FInt timeout;
             Lit " seconds. Last status: "; FJson (status_or_empty d)]), w1)
    else (Ok (Again tt), advance (interval * hz) w1).
Proof.
  intros Hs (Hr & He & Hb) Hst. unfold poll_workflow_tick.
  rewrite (bind_ok _ _ _ _ _ (request_served "GET" _ _ _ _ w ev rest r eq_refl Hs Hr He)).
  unfold response_json. rewrite Hb. unfold bind at 1. unfold ret at 1.
  unfold dict_get, bind, ret. fold (status_or_empty d). rewrite Hst.
  unfold time_time, url_request. cbn zeta.
  destruct (_ >? _); reflexivity.
Qed.

Lemma poll_workflow_tick_completed (workflow_url : string) (interval timeout start : Z)
    (w : World) (ev : Event) (rest : list Event) (r : Response)
    (d : list (string * json)) :
  script w = ev :: rest ->
  answers ev r (JObj d) ->
  status_in (status_or_empty d) (WORKFLOW_COMPLETED_STATUSES K) = true ->
  poll_workflow_tick workflow_url interval timeout start tt w =
    (Ok (Return r), served w ev rest (url_request workflow_url)).
Proof.
  intros Hs (Hr & He & Hb) Hst. unfold poll_workflow_tick.
  rewrite (bind_ok _ _ _ _ _ (request_served "GET" _ _ _ _ w ev rest r eq_refl Hs Hr He)).
  unfold response_json. rewrite Hb. unfold bind at 1. unfold ret at 1.
  unfold dict_get, bind, ret. fold (status_or_empty d). rewrite Hst. reflexivity.
Qed.

Lemma get_workflow_served (workflow_id : Z) (w : World) (ev : Event)
    (rest : list Event) (r : Response) (v : json) :
  0 < workflow_id ->
  script w = ev :: rest ->
  answers ev r v ->
  get_workflow workflow_id w = (Ok v, served w ev rest (workflow_request workflow_id)).
Proof.
  intros Hid Hs (Hr & He & Hb). unfold get_workflow, validate_positive_int. cbn [as_int].
  destruct (Z.leb_spec workflow_id 0); [lia |].
  unfold bind at 1. unfold ret at 1.
  apply try_except_ok.
  rewrite (bind_ok _ _ _ _ _ (request_served "GET" _ _ _ _ w ev rest r eq_refl Hs Hr He)).
  unfold response_json. now rewrite Hb.
Qed.

Lemma get_geohaz_job_served (job_id : Z) (w : World) (ev : Event)
    (rest : list Event) (r : Response) (v : json) :
  0 < job_id ->
  script w = ev :: rest ->
  answers ev r v ->
  get_geohaz_job job_id w = (Ok v, served w ev rest (geohaz_request job_id)).
Proof.
  intros Hid Hs (Hr & He & Hb). unfold get_geohaz_job, validate_positive_int. cbn [as_int].
  destruct (Z.leb_spec job_id 0); [lia |].
  unfold bind at 1. unfold ret at 1.
  apply try_except_ok.
  rewrite (bind_ok _ _ _ _ _ (request_served "GET" _ _ _ _ w ev rest r eq_refl Hs Hr He)).
  unfold response_json. now rewrite Hb.
Qed.

Lemma poll_workflow_to_completion_tick_pending (workflow_id interval timeout start : Z)
    (w : World) (ev : Event) (rest : list Event) (r : Response)
    (d : list (string * json)) (status progress : json) :
  0 < workflow_id ->
  script w = ev :: rest ->
  answers ev r (JObj d) ->
  lookup "status" d = Some status ->
  lookup "progress" d = Some progress ->
  status_in status (WORKFLOW_COMPLETED_STATUSES K) = false ->
  poll_workflow_to_completion_tick workflow_id interval timeout start tt w =
    let w1 := served w ev rest (workflow_request workflow_id) in
    if clock w1 - start >? timeout * hz
    then (Raise (Exn IRPJobError
            [Lit "Risk data workflow ID "; FInt workflow_id;
             Lit " did not complete within "; FInt timeout;
             Lit " seconds. Last status: "; FJson status]), w1)
    else (Ok (Again tt), advance (interval * hz) w1).
Proof.
  intros Hid Hs Ha Hst Hpr Hin. unfold poll_workflow_to_completion_tick.
  rewrite (bind_ok _ _ _ _ _ (get_workflow_served _ _ _ _ _ _ Hid Hs Ha)).
  unfold subscript, try_except, bind, ret. rewrite Hst, Hpr. cbn [fst]. rewrite Hin.
  unfold time_time. cbn zeta. destruct (_ >? _); reflexivity.
Qed.

Lemma poll_workflow_to_completion_tick_completed (workflow_id interval timeout start : Z)
    (w : World) (ev : Event) (rest : list Event) (r : Response)
    (d : list (string * json)) (status progress : json) :
  0 < workflow_id ->
  script w = ev :: rest ->
  answers ev r (JObj d) ->
  lookup "status" d = Some status ->
  lookup "progress" d = Some progress ->
  status_in status (WORKFLOW_COMPLETED_STATUSES K) = true ->
  poll_workflow_to_completion_tick workflow_id interval timeout start tt w =
    (Ok (Return (JObj d)), served w ev rest (workflow_request workflow_id)).
Proof.
  intros Hid Hs Ha Hst Hpr Hin. unfold poll_workflow_to_completion_tick.
  rewrite (bind_ok _ _ _ _ _ (get_workflow_served _ _ _ _ _ _ Hid Hs Ha)).
  unfold subscript, try_except, bind, ret. rewrite Hst, Hpr. cbn [fst]. rewrite Hin.
  reflexivity.
Qed.

Lemma poll_geohaz_job_to_completion_tick_pending (job_id interval timeout start : Z)
    (w : World) (ev : Event) (rest : list Event) (r : Response)
    (d : list (string * json)) (status progress : json) :
  0 < job_id ->
  script w = ev :: rest ->
  answers ev r (JObj d) ->
  lookup "status" d = Some status ->
  lookup "progress" d = Some progress ->
  status_in status (WORKFLOW_COMPLETED_STATUSES K) = false ->
  poll_geohaz_job_to_completion_tick job_id interval timeout start tt w =
    let w1 := served w ev rest (geohaz_request job_id) in
    if clock w1 - start >? timeout * hz
    then (Raise (Exn IRPJobError
            [Lit "GeoHaz job ID "; FInt job_id; Lit " did not complete within ";
             FInt timeout; Lit " seconds. Last status: "; FJson status]), w1)
    else (Ok (Again tt), advance (interval * hz) w1).
Proof.
  intros Hid Hs Ha Hst Hpr Hin. unfold poll_geohaz_job_to_completion_tick.
  rewrite (bind_ok _ _ _ _ _ (get_geohaz_job_served _ _ _ _ _ _ Hid Hs Ha)).
  unfold subscript, try_except, bind, ret. rewrite Hst, Hpr. cbn [fst]. rewrite Hin.
  unfold time_time. cbn zeta. destruct (_ >? _); reflexivity.
Qed.

(** ** The completion test of the batch pollers *)

Lemma all_completed_finished (all_workflows : list json) (w : World) :
  Forall not_in_progress all_workflows ->
  all_completed all_workflows w = (Ok true, w).
Proof.
  induction 1 as [| workflow rest (d & -> & Hd) _ IH]; [reflexivity |].
  cbn [all_completed]. unfold dict_get, bind, ret. fold (status_or_empty d).
  rewrite Hd. exact IH.
Qed.

Lemma all_completed_in_progress (d : list (string * json)) (rest : list json)
    (w : World) :
  status_in (status_or_empty d) (WORKFLOW_IN_PROGRESS_STATUSES K) = true ->
  all_completed (JObj d :: rest) w = (Ok false, w).
Proof.
  intros Hd. cbn [all_completed]. unfold dict_get, bind, ret.
  fold (status_or_empty d). now rewrite Hd.
Qed.

Lemma geohaz_scan_step (job_id : Z) (job_ids : list Z) (all_done : bool)
    (all_jobs : list json) (w : World) (ev : Event) (rest : list Event)
    (r : Response) (d : list (string * json)) (status : json) :
  0 < job_id ->
  script w = ev :: rest ->
  answers ev r (JObj d) ->
  lookup "status" d = Some status ->
  status_in status (WORKFLOW_IN_PROGRESS_STATUSES K) = false ->
  geohaz_scan (job_id :: job_ids) all_done all_jobs w =
    geohaz_scan job_ids true (all_jobs ++ [JObj d])
      (served w ev rest (geohaz_request job_id)).
Proof.
  intros Hid Hs Ha Hst Hin. cbn [geohaz_scan].
  rewrite (bind_ok _ _ _ _ _ (get_geohaz_job_served _ _ _ _ _ _ Hid Hs Ha)).
  unfold subscript, try_except, bind, ret. rewrite Hst, Hin. reflexivity.
Qed.

(** ** C1 *)

(** C1, as the code has it. A single-handle poll tick that observes a status
    outside the COMPLETED set never returns: [poll_workflow],
    [poll_workflow_to_completion] and [poll_geohaz_job_to_completion] raise
    their timeout error when the time elapsed since the start exceeds the
    timeout, and otherwise sleep for the interval and go round again. The
    batch pollers test membership of the IN_PROGRESS set only: a listing
    whose statuses are all outside IN_PROGRESS ends the batch poll on that
    tick, whether or not the statuses are in COMPLETED, and the geohaz scan
    counts such a job as completed. *)
Theorem status_outside_completed_by_poller
    (workflow_url : string) (id interval timeout start : Z)
    (w : World) (ev : Event) (rest : list Event) (r : Response)
    (d : list (string * json)) (status progress : json) :
  0 < id ->
  script w = ev :: rest ->
  answers ev r (JObj d) ->
  lookup "status" d = Some status ->
  lookup "progress" d = Some progress ->
  status_in status (WORKFLOW_COMPLETED_STATUSES K) = false ->
  (poll_workflow_tick workflow_url interval timeout start tt w =
     let w1 := served w ev rest (url_request workflow_url) in
     if clock w1 - start >? timeout * hz
     then (Raise (Exn IRPWorkflowError
             [Lit "Workflow did not complete within "; FInt timeout;
              Lit " seconds. Last status: "; FJson status]), w1)
     else (Ok (Again tt), advance (interval * hz) w1)) /\
  (poll_workflow_to_completion_tick id interval timeout start tt w =
     let w1 := served w ev rest (workflow_request id) in
     if clock w1 - start >? timeout * hz
     then (Raise (Exn IRPJobError
             [Lit "Risk data workflow ID "; FInt id;
              Lit " did not complete within "; FInt timeout;
              Lit " seconds. Last status: "; FJson status]), w1)
     else (Ok (Again tt), advance (interval * hz) w1)) /\
  (poll_geohaz_job_to_completion_tick id interval timeout start tt w =
     let w1 := served w ev rest (geohaz_request id) in
     if clock w1 - start >? timeout * hz
     then (Raise (Exn IRPJobError
             [Lit "GeoHaz job ID "; FInt id; Lit " did not complete within ";
              FInt timeout; Lit " seconds. Last status: "; FJson status]), w1)
     else (Ok (Again tt), advance (interval * hz) w1)) /\
  (status_in status (WORKFLOW_IN_PROGRESS_STATUSES K) = false ->
     geohaz_scan [id] false [] w =
       (Ok (true, [JObj d]), served w ev rest (geohaz_request id)) /\
     forall (ids : list Z) (others : list json) (response : Response) (w0 w' : World),
       Forall not_in_progress others ->
       loop (fetch_workflows_page ids 100) ([], 0) w0
         = (Ok (response, JObj d :: others), w') ->
       poll_workflow_batch_to_completion_tick ids interval timeout start tt w0
         = (Ok (Return response), w') /\
       poll_import_job_batch_to_completion_tick ids interval timeout start tt w0
         = (Ok (Return (JObj d :: others)), w')).
Proof.
  intros Hid Hs Ha Hst Hpr Hin.
  assert (Hse : status_or_empty d = status) by (unfold status_or_empty; now rewrite Hst).
  split; [| split; [| split]].
  - rewrite (poll_workflow_tick_pending _ _ _ _ _ _ _ _ _ Hs Ha); rewrite Hse; auto.
  - now apply poll_workflow_to_completion_tick_pending with (r := r) (d := d) (progress := progress).
  - now apply poll_geohaz_job_to_completion_tick_pending with (r := r) (d := d) (progress := progress).
  - intros Hout. split.
    + rewrite (geohaz_scan_step _ _ _ _ _ _ _ _ _ _ Hid Hs Ha Hst Hout). reflexivity.
    + intros ids others response w0 w' Hothers Hloop.
      assert (Hall : Forall not_in_progress (JObj d :: others)).
      { constructor; [| assumption]. exists d. now rewrite Hse. }
      unfold poll_workflow_batch_to_completion_tick,
        poll_import_job_batch_to_completion_tick.
      rewrite !(bind_ok _ _ _ _ _ Hloop). cbn [fst snd].
      rewrite !(bind_ok _ _ _ _ _ (all_completed_finished _ _ Hall)).
      split; reflexivity.
Qed.

(** ** Whole polls *)

Lemma validate_positive_int_ok (z : Z) (name : string) (w : World) :
  0 < z -> validate_positive_int (JInt z) name w = (Ok tt, w).
Proof.
  intros Hz. unfold validate_positive_int. cbn [as_int].
  destruct (Z.leb_spec z 0); [lia | reflexivity].
Qed.

Lemma validate_non_empty_string_ok (s name : string) (w : World) :
  is_blank s = false -> validate_non_empty_string (JStr s) name w = (Ok tt, w).
Proof. intros Hs. unfold validate_non_empty_string. now rewrite Hs. Qed.

Lemma poll_workflow_start (workflow_url : string) (interval timeout : Z) (w : World) :
  is_blank workflow_url = false -> 0 < interval -> 0 < timeout ->
  poll_workflow workflow_url interval timeout w =
    loop (poll_workflow_tick workflow_url interval timeout (clock w)) tt w.
Proof.
  intros Hu Hi Ht. unfold poll_workflow.
  rewrite (bind_ok _ _ _ _ _ (validate_non_empty_string_ok _ _ _ Hu)).
  rewrite (bind_ok _ _ _ _ _ (validate_positive_int_ok _ _ _ Hi)).
  rewrite (bind_ok _ _ _ _ _ (validate_positive_int_ok _ _ _ Ht)).
  reflexivity.
Qed.

Lemma poll_workflow_to_completion_start (workflow_id interval timeout : Z) (w : World) :
  0 < workflow_id -> 0 < interval -> 0 < timeout ->
  poll_workflow_to_completion workflow_id interval timeout w =
    loop (poll_workflow_to_completion_tick workflow_id interval timeout (clock w)) tt w.
Proof.
  intros Hu Hi Ht. unfold poll_workflow_to_completion.
  rewrite (bind_ok _ _ _ _ _ (validate_positive_int_ok _ _ _ Hu)).
  rewrite (bind_ok _ _ _ _ _ (validate_positive_int_ok _ _ _ Hi)).
  rewrite (bind_ok _ _ _ _ _ (validate_positive_int_ok _ _ _ Ht)).
  reflexivity.
Qed.

Lemma poll_geohaz_job_to_completion_start (job_id interval timeout : Z) (w : World) :
  0 < job_id -> 0 < interval -> 0 < timeout ->
  poll_geohaz_job_to_completion job_id interval timeout w =
    loop (poll_geohaz_job_to_completion_tick job_id interval timeout (clock w)) tt w.
Proof.
  intros Hu Hi Ht. unfold poll_geohaz_job_to_completion.
  rewrite (bind_ok _ _ _ _ _ (validate_positive_int_ok _ _ _ Hu)).
  rewrite (bind_ok _ _ _ _ _ (validate_positive_int_ok _ _ _ Hi)).
  rewrite (bind_ok _ _ _ _ _ (validate_positive_int_ok _ _ _ Ht)).
  reflexivity.
Qed.

(** A loop whose first pass raises. *)
Lemma loop_raise {St A : Type} (body : St -> M (tick St A)) (s : St) (e : exn)
    (w w1 : World) :
  body s w = (Raise e, w1) -> loop body s w = (Raise e, w1).
Proof. intros H. unfold loop. now apply while_true_raise. Qed.

Lemma loop_return {St A : Type} (body : St -> M (tick St A)) (s : St) (a : A)
    (w w1 : World) :
  body s w = (Ok (Return a), w1) -> loop body s w = (Ok a, w1).
Proof. intros H. unfold loop. now apply while_true_return. Qed.

(** A loop whose first pass asks for a second one, which raises. *)
Lemma loop_again_raise {St A : Type} (body : St -> M (tick St A)) (s s1 : St)
    (e : exn) (w w1 w2 : World) :
  script w <> [] ->
  body s w = (Ok (Again s1), w1) ->
  body s1 w1 = (Raise e, w2) ->
  loop body s w = (Raise e, w2).
Proof.
  intros Hne H1 H2. unfold loop.
  destruct (script w) as [| ev rest]; [congruence |]. cbn [List.length].
  rewrite (while_true_again _ _ _ _ _ _ H1). now apply while_true_raise.
Qed.


(** ** C2 *)

(** C2, as the code has it. The timeout is tested after the fetch and before
    the sleep, so with interval > timeout > 0 and a status that is never in
    COMPLETED, [poll_workflow] and [poll_workflow_to_completion] fetch at
    most twice. The first test sees only the time the first fetch took: when
    that exceeds the timeout the poll raises after one fetch, with the status
    of that fetch in the message; otherwise the poll sleeps for the interval,
    fetches a second time, sees elapsed time > timeout and raises its
    timeout error with the status of the second fetch in the message. *)
Theorem interval_beyond_timeout
    (workflow_url : string) (workflow_id interval timeout : Z)
    (w : World) (e1 e2 : Event) (rest : list Event) (r1 r2 : Response)
    (d1 d2 : list (string * json)) (s1 p1 s2 p2 : json) :
  is_blank workflow_url = false ->
  0 < workflow_id ->
  0 < timeout < interval ->
  script w = e1 :: e2 :: rest ->
  answers e1 r1 (JObj d1) -> answers e2 r2 (JObj d2) ->
  lookup "status" d1 = Some s1 -> lookup "progress" d1 = Some p1 ->
  lookup "status" d2 = Some s2 -> lookup "progress" d2 = Some p2 ->
  status_in s1 (WORKFLOW_COMPLETED_STATUSES K) = false ->
  status_in s2 (WORKFLOW_COMPLETED_STATUSES K) = false ->
  let timed_out_url s :=
    Exn IRPWorkflowError
      [Lit "Workflow did not complete within "; FInt timeout;
       Lit " seconds. Last status: "; FJson s] in
  let timed_out_id s :=
    Exn IRPJobError
      [Lit "Risk data workflow ID "; FInt workflow_id;
       Lit " did not complete within "; FInt timeout;
       Lit " seconds. Last status: "; FJson s] in
  (Z.of_nat (latency e1) <= timeout * hz ->
     (exists w', poll_workflow workflow_url interval timeout w
                   = (Raise (timed_out_url s2), w') /\
                 sent w' = (sent w ++ [url_request workflow_url;
                                       url_request workflow_url])%list) /\
     (exists w', poll_workflow_to_completion workflow_id interval timeout w
                   = (Raise (timed_out_id s2), w') /\
                 sent w' = (sent w ++ [workflow_request workflow_id;
                                       workflow_request workflow_id])%list)) /\
  (timeout * hz < Z.of_nat (latency e1) ->
     (exists w', poll_workflow workflow_url interval timeout w
                   = (Raise (timed_out_url s1), w') /\
                 sent w' = (sent w ++ [url_request workflow_url])%list) /\
     (exists w', poll_workflow_to_completion workflow_id interval timeout w
                   = (Raise (timed_out_id s1), w') /\
                 sent w' = (sent w ++ [workflow_request workflow_id])%list)).
Proof.
  intros Hu Hid [Ht Hi] Hs A1 A2 S1 P1 S2 P2 C1 C2 timed_out_url timed_out_id.
  assert (Hi0 : 0 < interval) by lia.
  assert (E1 : status_or_empty d1 = s1) by (unfold status_or_empty; now rewrite S1).
  assert (E2 : status_or_empty d2 = s2) by (unfold status_or_empty; now rewrite S2).
  assert (Hne : script w <> []) by (rewrite Hs; discriminate).
  rewrite (poll_workflow_start _ _ _ _ Hu Hi0 Ht).
  rewrite (poll_workflow_to_completion_start _ _ _ _ Hid Hi0 Ht).
  pose proof (poll_workflow_tick_pending workflow_url interval timeout (clock w)
                w e1 (e2 :: rest) r1 d1 Hs A1) as T1.
  rewrite E1 in T1. specialize (T1 C1). cbn zeta in T1.
  pose proof (poll_workflow_to_completion_tick_pending workflow_id interval timeout
                (clock w) w e1 (e2 :: rest) r1 d1 s1 p1 Hid Hs A1 S1 P1 C1) as U1.
  cbn zeta in U1.
  split; intros Hlat.
  - destruct (Z.gtb_spec (clock (served w e1 (e2 :: rest) (url_request workflow_url))
                          - clock w) (timeout * hz)) as [Hgt | _];
      [cbn [served clock] in Hgt; lia |].
    destruct (Z.gtb_spec (clock (served w e1 (e2 :: rest) (workflow_request workflow_id))
                          - clock w) (timeout * hz)) as [Hgt | _];
      [cbn [served clock] in Hgt; lia |].
    split.
    + eexists. split.
      * eapply loop_again_raise; [exact Hne | exact T1 |].
        assert (Hs1 : script (advance (interval * hz)
                  (served w e1 (e2 :: rest) (url_request workflow_url))) = e2 :: rest)
          by reflexivity.
        rewrite (poll_workflow_tick_pending workflow_url interval timeout (clock w)
                   _ e2 rest r2 d2 Hs1 A2); [| now rewrite E2].
        cbn zeta. rewrite E2.
        destruct (Z.gtb_spec (clock (served (advance (interval * hz)
                     (served w e1 (e2 :: rest) (url_request workflow_url))) e2 rest
                     (url_request workflow_url)) - clock w) (timeout * hz)) as [_ | Hle];
          [reflexivity | cbn [served advance clock] in Hle; nia].
      * cbn [served advance sent]. now rewrite <- app_assoc.
    + eexists. split.
      * eapply loop_again_raise; [exact Hne | exact U1 |].
        assert (Hs1 : script (advance (interval * hz)
                  (served w e1 (e2 :: rest) (workflow_request workflow_id))) = e2 :: rest)
          by reflexivity.
        rewrite (poll_workflow_to_completion_tick_pending workflow_id interval timeout
                   (clock w) _ e2 rest r2 d2 s2 p2 Hid Hs1 A2 S2 P2 C2).
        cbn zeta.
        destruct (Z.gtb_spec (clock (served (advance (interval * hz)
                     (served w e1 (e2 :: rest) (workflow_request workflow_id))) e2 rest
                     (workflow_request workflow_id)) - clock w) (timeout * hz)) as [_ | Hle];
          [reflexivity | cbn [served advance clock] in Hle; nia].
      * cbn [served advance sent]. now rewrite <- app_assoc.
  - destruct (Z.gtb_spec (clock (served w e1 (e2 :: rest) (url_request workflow_url))
                          - clock w) (timeout * hz)) as [_ | Hle];
      [| cbn [served clock] in Hle; lia].
    destruct (Z.gtb_spec (clock (served w e1 (e2 :: rest) (workflow_request workflow_id))
                          - clock w) (timeout * hz)) as [_ | Hle];
      [| cbn [served clock] in Hle; lia].
    split; eexists; (split; [eapply loop_raise; eassumption | reflexivity]).
Qed.

(** ** C3 *)

Lemma subscript_status_progress_missing (d : list (string * json)) (w : World) :
  lookup "status" d = None \/ lookup "progress" d = None ->
  (status <- subscript (JObj d) "status" ;;
   progress <- subscript (JObj d) "progress" ;;
   ret (status, progress)) w
  = (Raise (Exn KeyError [FStr (first_missing d)]), w).
Proof.
  intros H. unfold subscript, bind, first_missing, raise, ret.
  destruct (lookup "status" d) as [st |]; [| reflexivity].
  destruct H as [H | H]; [discriminate | now rewrite H].
Qed.

(** C3, as the code has it. The pollers of a job by ID,
    [poll_workflow_to_completion] and [poll_geohaz_job_to_completion], fail
    with an API error on the tick whose status record lacks [status] or
    [progress]: that tick raises, after its one fetch, and so does the whole
    poll when it is the first tick. [poll_workflow], the poller of a URL,
    reads a missing [status] as the empty string and treats the record like
    any other whose status is not in COMPLETED: no API error is raised. *)
Theorem malformed_status_record
    (workflow_url : string) (id interval timeout start : Z)
    (w : World) (ev : Event) (rest : list Event) (r : Response)
    (d : list (string * json)) :
  0 < id ->
  script w = ev :: rest ->
  answers ev r (JObj d) ->
  lookup "status" d = None \/ lookup "progress" d = None ->
  let cause := FExn KeyError [FStr (first_missing d)] in
  let workflow_error :=
    Exn IRPAPIError
      [Lit "Missing 'status' or 'progress' in job response for workflow ID ";
       FInt id; Lit ": "; cause] in
  let geohaz_error :=
    Exn IRPAPIError
      [Lit "Missing 'status' or 'progress' in job response for job ID ";
       FInt id; Lit ": "; cause] in
  poll_workflow_to_completion_tick id interval timeout start tt w
    = (Raise workflow_error, served w ev rest (workflow_request id)) /\
  poll_geohaz_job_to_completion_tick id interval timeout start tt w
    = (Raise geohaz_error, served w ev rest (geohaz_request id)) /\
  (0 < interval -> 0 < timeout ->
     poll_workflow_to_completion id interval timeout w
       = (Raise workflow_error, served w ev rest (workflow_request id)) /\
     poll_geohaz_job_to_completion id interval timeout w
       = (Raise geohaz_error, served w ev rest (geohaz_request id))) /\
  (lookup "status" d = None ->
     status_in (JStr EmptyString) (WORKFLOW_COMPLETED_STATUSES K) = false ->
     poll_workflow_tick workflow_url interval timeout start tt w =
       let w1 := served w ev rest (url_request workflow_url) in
       if clock w1 - start >? timeout * hz
       then (Raise (Exn IRPWorkflowError
               [Lit "Workflow did not complete within "; FInt timeout;
                Lit " seconds. Last status: "; FJson (JStr EmptyString)]), w1)
       else (Ok (Again tt), advance (interval * hz) w1)).
Proof.
  intros Hid Hs Ha Hmiss cause workflow_error geohaz_error.
  assert (T1 : forall start', poll_workflow_to_completion_tick id interval timeout start' tt w
            = (Raise workflow_error, served w ev rest (workflow_request id))).
  { intros start'. unfold poll_workflow_to_completion_tick.
    rewrite (bind_ok _ _ _ _ _ (get_workflow_served _ _ _ _ _ _ Hid Hs Ha)).
    apply bind_raise.
    now rewrite (try_except_raise _ _ _ _ _ (subscript_status_progress_missing d _ Hmiss)). }
  assert (T2 : forall start', poll_geohaz_job_to_completion_tick id interval timeout start' tt w
            = (Raise geohaz_error, served w ev rest (geohaz_request id))).
  { intros start'. unfold poll_geohaz_job_to_completion_tick.
    rewrite (bind_ok _ _ _ _ _ (get_geohaz_job_served _ _ _ _ _ _ Hid Hs Ha)).
    apply bind_raise.
    now rewrite (try_except_raise _ _ _ _ _ (subscript_status_progress_missing d _ Hmiss)). }
  split; [apply T1 |]. split; [apply T2 |]. split.
  - intros Hi Ht. split.
    + rewrite (poll_workflow_to_completion_start _ _ _ _ Hid Hi Ht).
      apply loop_raise, T1.
    + rewrite (poll_geohaz_job_to_completion_start _ _ _ _ Hid Hi Ht).
      apply loop_raise, T2.
  - intros Hnone Hempty.
    rewrite (poll_workflow_tick_pending _ _ _ _ _ _ _ _ _ Hs Ha);
      unfold status_or_empty; rewrite Hnone; [reflexivity | exact Hempty].
Qed.

(** ** C4 *)

Lemma fetch_workflows_page_step (workflow_ids : list Z) (limit offset : Z)
    (all_workflows : list json) (w : World) (ev : Event) (rest : list Event)
    (r : Response) (d : list (string * json)) (total : Z) (page : list json) :
  script w = ev :: rest ->
  answers ev r (JObj d) ->
  lists d total page ->
  fetch_workflows_page workflow_ids limit (all_workflows, offset) w =
    (Ok (if total <=? Z.of_nat (List.length (all_workflows ++ page))
         then Return (r, all_workflows ++ page)%list
         else Again ((all_workflows ++ page)%list, offset + limit)),
     served w ev rest (page_request workflow_ids limit offset)).
Proof.
  intros Hs (Hr & He & Hb) (Ht & Hp). unfold fetch_workflows_page. cbn [fst snd].
  rewrite (bind_ok _ _ _ _ _ (request_served "GET" _ _ _ _ w ev rest r eq_refl Hs Hr He)).
  unfold response_json. rewrite Hb.
  unfold subscript, dict_get, iterate, len_ge, try_except, bind, ret.
  rewrite Ht, Hp. cbn [as_int].
  destruct (_ <=? _); reflexivity.
Qed.

Lemma request_sent (method path : string) (full_url : option string)
    (params : list (string * json)) (body : option json) (w w1 : World)
    (res : outcome Response) :
  request method path full_url params body w = (res, w1) ->
  (sent w1 = sent w /\ forall r, res <> Ok r) \/
  sent w1 = (sent w ++ [mkRequest method (target_url path full_url) params body])%list.
Proof.
  unfold request, validate_non_empty_string, bind, ret, raise.
  destruct (is_blank method).
  - intros [= <- <-]. left. split; [reflexivity | discriminate].
  - destruct (script w) as [| ev rest].
    + intros [= <- <-]. left. split; [reflexivity | discriminate].
    + destruct (ev_reply ev) as [r |]; [destruct (is_http_error r) |];
        intros [= <- <-]; right; reflexivity.
Qed.

(** One pass of the inner loop sends at most one request, the page request
    at the current offset, and goes round again only with the offset moved
    on by the limit. *)
Lemma fetch_workflows_page_sent (workflow_ids : list Z) (limit : Z)
    (st : list json * Z) (w w1 : World)
    (res : outcome (tick (list json * Z) (Response * list json))) :
  fetch_workflows_page workflow_ids limit st w = (res, w1) ->
  (sent w1 = sent w /\ forall st', res <> Ok (Again st')) \/
  (sent w1 = (sent w ++ [page_request workflow_ids limit (snd st)])%list /\
   forall st', res = Ok (Again st') -> snd st' = snd st + limit).
Proof.
  unfold fetch_workflows_page. unfold bind at 1.
  destruct (request _ _ _ _ _ w) as [o w0] eqn:Hreq.
  apply request_sent in Hreq. fold (page_request workflow_ids limit (snd st)) in Hreq.
  assert (Hpure : forall r,
    (response_data <- response_json r ;;
     total_match_count <-
       try_except (subscript response_data "totalMatchCount")
         (fun e => raise IRPAPIError
            [Lit "Missing 'totalMatchCount' in workflow batch response: "; fexn e]) ;;
     workflows <- dict_get response_data "workflows" (JArr []) ;;
     page <- iterate workflows ;;
     fetched <- len_ge (fst st ++ page) total_match_count ;;
     (if fetched then ret (Return (r, fst st ++ page)%list)
      else ret (Again ((fst st ++ page)%list, snd st + limit)))) w0 = (res, w1) ->
    w1 = w0 /\ forall st', res = Ok (Again st') -> snd st' = snd st + limit).
  { intros r. unfold response_json, subscript, dict_get, iterate, len_ge, try_except,
      bind, ret, raise. intros H.
    repeat match type of H with
           | context [match ?x with _ => _ end] =>
               lazymatch x with
               | context [match _ with _ => _ end] => fail
               | _ => destruct x
               end
           end;
      injection H as <- <-; (split; [reflexivity |]);
      intros st' Hst; try discriminate; injection Hst as <-; reflexivity. }
  destruct o as [r | e |].
  - intros H. destruct (Hpure r H) as [-> Hnext].
    destruct Hreq as [[_ Hno] | Hsent]; [now destruct (Hno r) |].
    right. split; assumption.
  - intros [= <- <-]. destruct Hreq as [[Hs _] | Hs].
    + left. split; [assumption | discriminate].
    + right. split; [assumption | discriminate].
  - intros [= <- <-]. destruct Hreq as [[Hs _] | Hs].
    + left. split; [assumption | discriminate].
    + right. split; [assumption | discriminate].
Qed.

Lemma page_requests_succ (workflow_ids : list Z) (limit offset : Z) (n : nat) :
  page_requests workflow_ids limit offset (S n) =
  page_request workflow_ids limit offset
    :: page_requests workflow_ids limit (offset + limit) n.
Proof.
  unfold page_requests. cbn [seq map]. rewrite <- seq_shift, map_map.
  f_equal; [f_equal; lia |]. apply map_ext. intros i. f_equal. lia.
Qed.

(** However a run of the inner loop ends, the requests it has sent are page
    requests at offsets [offset], [offset + limit], [offset + 2 * limit], ... *)
Lemma fetch_pages_offsets (workflow_ids : list Z) (limit : Z) (fuel : nat) :
  forall (st : list json * Z) (w w' : World)
         (res : outcome (Response * list json)),
    while_true fuel (fetch_workflows_page workflow_ids limit) st w = (res, w') ->
    exists n, sent w' = (sent w ++ page_requests workflow_ids limit (snd st) n)%list.
Proof.
  induction fuel as [| fuel IH]; intros st w w' res H.
  - injection H as _ <-. exists 0%nat. cbn. now rewrite app_nil_r.
  - cbn [while_true] in H. unfold bind in H.
    destruct (fetch_workflows_page workflow_ids limit st w) as [r1 w1] eqn:Hp.
    destruct (fetch_workflows_page_sent _ _ _ _ _ _ Hp) as [[Hsent Hno] | [Hsent Hnext]].
    + destruct r1 as [[a | st'] | e |].
      * injection H as _ <-. exists 0%nat. cbn. now rewrite app_nil_r.
      * now destruct (Hno st').
      * injection H as _ <-. exists 0%nat. cbn. now rewrite app_nil_r.
      * injection H as _ <-. exists 0%nat. cbn. now rewrite app_nil_r.
    + destruct r1 as [[a | st'] | e |].
      * injection H as _ <-. exists 1%nat. rewrite Hsent. cbn. do 4 f_equal. lia.
      * destruct (IH _ _ _ _ H) as [n Hn]. exists (S n).
        rewrite page_requests_succ, Hn, Hsent, <- app_assoc.
        now rewrite (Hnext st' eq_refl).
      * injection H as _ <-. exists 1%nat. rewrite Hsent. cbn. do 4 f_equal. lia.
      * injection H as _ <-. exists 1%nat. rewrite Hsent. cbn. do 4 f_equal. lia.
Qed.

Lemma all_completed_world (all_workflows : list json) (w w' : World)
    (res : outcome bool) :
  all_completed all_workflows w = (res, w') -> w' = w.
Proof.
  induction all_workflows as [| workflow rest IH]; cbn [all_completed].
  - now intros [= _ <-].
  - unfold dict_get, bind, ret, raise.
    destruct workflow; try (now intros [= _ <-]).
    destruct (status_in _ _); [now intros [= _ <-] | exact IH].
Qed.

Lemma fetch_workflows_page_more (workflow_ids : list Z) (limit offset : Z)
    (all_workflows : list json) (w : World) (ev : Event) (rest : list Event)
    (r : Response) (d : list (string * json)) (total : Z) (page : list json) :
  script w = ev :: rest ->
  answers ev r (JObj d) ->
  lists d total page ->
  Z.of_nat (List.length (all_workflows ++ page)) < total ->
  fetch_workflows_page workflow_ids limit (all_workflows, offset) w =
    (Ok (Again ((all_workflows ++ page)%list, offset + limit)),
     served w ev rest (page_request workflow_ids limit offset)).
Proof.
  intros Hs Ha Hl Hlt. rewrite (fetch_workflows_page_step _ _ _ _ _ _ _ _ _ _ _ Hs Ha Hl).
  destruct (Z.leb_spec total (Z.of_nat (List.length (all_workflows ++ page))));
    [lia | reflexivity].
Qed.

Lemma fetch_workflows_page_last (workflow_ids : list Z) (limit offset : Z)
    (all_workflows : list json) (w : World) (ev : Event) (rest : list Event)
    (r : Response) (d : list (string * json)) (total : Z) (page : list json) :
  script w = ev :: rest ->
  answers ev r (JObj d) ->
  lists d total page ->
  total <= Z.of_nat (List.length (all_workflows ++ page)) ->
  fetch_workflows_page workflow_ids limit (all_workflows, offset) w =
    (Ok (Return (r, all_workflows ++ page)%list),
     served w ev rest (page_request workflow_ids limit offset)).
Proof.
  intros Hs Ha Hl Hle. rewrite (fetch_workflows_page_step _ _ _ _ _ _ _ _ _ _ _ Hs Ha Hl).
  destruct (Z.leb_spec total (Z.of_nat (List.length (all_workflows ++ page))));
    [reflexivity | lia].
Qed.

Lemma batch_tick_offsets {A : Type} (workflow_ids : list Z)
    (interval timeout start : Z) (timeout_error : exn)
    (result : Response * list json -> A) (w w' : World) (res : outcome (tick unit A)) :
  (fetched <- loop (fetch_workflows_page workflow_ids 100) ([], 0) ;;
   done <- all_completed (snd fetched) ;;
   if done then ret (Return (result fetched))
   else
     now <- time_time ;;
     if now - start >? timeout * hz
     then (fun w => (Raise timeout_error, w))
     else time_sleep interval ;; ret (Again tt)) w = (res, w') ->
  exists n, sent w' = (sent w ++ page_requests workflow_ids 100 0 n)%list.
Proof.
  unfold bind at 1. destruct (loop _ _ w) as [o w1] eqn:Hloop.
  unfold loop in Hloop. destruct (fetch_pages_offsets _ _ _ _ _ _ _ Hloop) as [n Hn].
  cbn [snd] in Hn. exists n. rewrite <- Hn.
  destruct o as [fetched | e |]; try (now injection H as _ <-).
  revert H. unfold bind at 1.
  destruct (all_completed (snd fetched) w1) as [o2 w2] eqn:Hall.
  apply all_completed_world in Hall. subst w2.
  destruct o2 as [[|] | e |]; try (now intros [= _ <-]).
  unfold time_time, time_sleep, bind, ret.
  destruct (_ >? _); now intros [= _ <-].
Qed.

(** C4, as the code has it. The inner loop of a batch tick stops at the
    first page with which the number of items fetched so far reaches the
    reported [totalMatchCount], so the number of page requests depends on
    how many items the pages carry. When every answer reports 250 matches
    and the first two pages together carry fewer than 250 items while the
    first three carry at least 250 (pages of 100, 100 and 50 items, say),
    the tick makes exactly 3 page requests with limit 100, at offsets 0, 100
    and 200. Whatever the answers, the page requests of a tick of
    [poll_workflow_batch_to_completion] and of
    [poll_import_job_batch_to_completion] are at offsets 0, 100, 200, ...:
    every tick starts again from offset 0. *)
Theorem batch_pagination
    (workflow_ids : list Z) (w : World) (e1 e2 e3 : Event) (rest : list Event)
    (r1 r2 r3 : Response) (d1 d2 d3 : list (string * json))
    (p1 p2 p3 : list json) :
  script w = e1 :: e2 :: e3 :: rest ->
  answers e1 r1 (JObj d1) -> answers e2 r2 (JObj d2) -> answers e3 r3 (JObj d3) ->
  lists d1 250 p1 -> lists d2 250 p2 -> lists d3 250 p3 ->
  (List.length p1 + List.length p2 < 250)%nat ->
  (250 <= List.length p1 + List.length p2 + List.length p3)%nat ->
  (exists w',
     loop (fetch_workflows_page workflow_ids 100) ([], 0) w
       = (Ok (r3, p1 ++ p2 ++ p3)%list, w') /\
     script w' = rest /\
     sent w' = (sent w ++ [page_request workflow_ids 100 0;
                           page_request workflow_ids 100 100;
                           page_request workflow_ids 100 200])%list) /\
  (forall (interval timeout start : Z) (w0 w' : World),
     (forall res,
        poll_workflow_batch_to_completion_tick workflow_ids interval timeout start tt w0
          = (res, w') ->
        exists n, sent w' = (sent w0 ++ page_requests workflow_ids 100 0 n)%list) /\
     (forall res,
        poll_import_job_batch_to_completion_tick workflow_ids interval timeout start tt w0
          = (res, w') ->
        exists n, sent w' = (sent w0 ++ page_requests workflow_ids 100 0 n)%list)).
Proof.
  intros Hs A1 A2 A3 L1 L2 L3 H12 H123. split.
  - eexists. split; [| split].
    + assert (B1 : Z.of_nat (List.length ([] ++ p1)) < 250) by (cbn [app]; lia).
      assert (B2 : Z.of_nat (List.length (([] ++ p1) ++ p2)) < 250)
        by (rewrite length_app; cbn [app]; lia).
      assert (B3 : 250 <= Z.of_nat (List.length ((([] ++ p1) ++ p2) ++ p3)))
        by (rewrite !length_app; cbn [app]; lia).
      unfold loop. rewrite Hs. cbn [List.length].
      rewrite (while_true_again _ _ _ _ _ _
                 (fetch_workflows_page_more _ _ _ _ _ _ _ _ _ _ _ Hs A1 L1 B1)).
      rewrite (while_true_again _ _ _ _ _ _
                 (fetch_workflows_page_more _ _ _ _
                    (served w e1 (e2 :: e3 :: rest) _) _ _ _ _ _ _ eq_refl A2 L2 B2)).
      rewrite (while_true_return _ _ _ _ _ _
                 (fetch_workflows_page_last _ _ _ _
                    (served (served w e1 (e2 :: e3 :: rest) _) e2 (e3 :: rest) _)
                    _ _ _ _ _ _ eq_refl A3 L3 B3)).
      cbn [app]. rewrite <- app_assoc. reflexivity.
    + reflexivity.
    + cbn [served sent]. rewrite <- !app_assoc. reflexivity.
  - intros interval timeout start w0 w'. split; intros res H.
    + exact (batch_tick_offsets workflow_ids interval timeout start _ fst w0 w' res H).
    + exact (batch_tick_offsets workflow_ids interval timeout start _ snd w0 w' res H).
Qed.

(** ** C8 *)

Lemma poll_workflow_tick_continue (workflow_url : string) (interval timeout start : Z)
    (w : World) (ev : Event) (rest : list Event) (r : Response)
    (d : list (string * json)) :
  script w = ev :: rest ->
  answers ev r (JObj d) ->
  status_in (status_or_empty d) (WORKFLOW_COMPLETED_STATUSES K) = false ->
  clock w + Z.of_nat (latency ev) - start <= timeout * hz ->
  poll_workflow_tick workflow_url interval timeout start tt w =
    (Ok (Again tt), advance (interval * hz) (served w ev rest (url_request workflow_url))).
Proof.
  intros Hs Ha Hst Hle. rewrite (poll_workflow_tick_pending _ _ _ _ _ _ _ _ _ Hs Ha Hst).
  cbn zeta. cbn [served clock].
  destruct (Z.gtb_spec (clock w + Z.of_nat (latency ev) - start) (timeout * hz));
    [lia | reflexivity].
Qed.

(** C8, as the code has it. [execute_workflow] makes the submission with
    [Client.request], so an answer with an HTTP error status, 400 to 599,
    is not returned: the operation raises the API error of the request,
    with no polling. An answer with any other status code is returned as it
    is, without polling, when the code is neither 201 nor 202. For 201 and
    202 the handle is the Location header of the answer: its absence, or an
    empty header, is an API error, and otherwise the handle itself is the
    URL that is polled with [poll_workflow]. When the first two status
    fetches report statuses outside COMPLETED (within the time budget of
    600000 seconds) and the third a status in COMPLETED, the operation
    returns the third answer, having made the submission and exactly three
    status fetches, each a GET of the handle. *)
Theorem execute_workflow_contract
    (method path : string) (params : list (string * json)) (body : option json)
    (w : World) (e0 : Event) (rest0 : list Event) (r0 : Response) :
  is_blank method = false ->
  script w = e0 :: rest0 ->
  ev_reply e0 = Reply r0 ->
  let submit :=
    mkRequest method (base_url ++ "/" ++ lstrip_slash path)%string params body in
  let w0 :=
    mkWorld (clock w + Z.of_nat (latency e0)) rest0 (sent w ++ [submit])
      (files w) (tables w) (decoded w) in
  (400 <= status_code r0 < 600 ->
     execute_workflow method path params body w
       = (Raise (Exn IRPAPIError
            (Lit "HTTP request failed: " :: FExn HTTPError [FInt (status_code r0)]
             :: Lit " "
             :: match json_body r0 with
                | Some b => [Lit " | server: "; FJson b]
                | None => [Lit " | text: "; FStr (take 500 (text r0))]
                end)), w0)) /\
  (status_code r0 < 400 \/ 600 <= status_code r0 ->
     (status_code r0 <> 201 -> status_code r0 <> 202 ->
        execute_workflow method path params body w = (Ok r0, w0)) /\
     (status_code r0 = 201 \/ status_code r0 = 202 ->
        (lookup "location" (headers r0) = None ->
           execute_workflow method path params body w
             = (Raise (Exn IRPAPIError
                  [Lit "Location header missing from "; FStr "response"]), w0)) /\
        (lookup "location" (headers r0) = Some EmptyString ->
           execute_workflow method path params body w
             = (Raise (Exn IRPAPIError
                  [Lit "Workflow submission succeeded but Location header is missing"]),
                w0)) /\
        (forall (workflow_url : string) (e1 e2 e3 : Event) (rest : list Event)
                (r1 r2 r3 : Response) (d1 d2 d3 : list (string * json)),
           lookup "location" (headers r0) = Some workflow_url ->
           is_blank workflow_url = false ->
           rest0 = e1 :: e2 :: e3 :: rest ->
           answers e1 r1 (JObj d1) -> answers e2 r2 (JObj d2) ->
           answers e3 r3 (JObj d3) ->
           status_in (status_or_empty d1) (WORKFLOW_COMPLETED_STATUSES K) = false ->
           status_in (status_or_empty d2) (WORKFLOW_COMPLETED_STATUSES K) = false ->
           status_in (status_or_empty d3) (WORKFLOW_COMPLETED_STATUSES K) = true ->
           Z.of_nat (latency e1) + 10 * hz + Z.of_nat (latency e2) <= 600000 * hz ->
           exists w',
             execute_workflow method path params body w = (Ok r3, w') /\
             script w' = rest /\
             sent w' = (sent w ++ [submit; mkRequest "GET" workflow_url [] None;
                                   mkRequest "GET" workflow_url [] None;
                                   mkRequest "GET" workflow_url [] None])%list))).
Proof.
  intros Hm Hs Hr submit w0.
  assert (Hw0 : w0 = served w e0 rest0 (mkRequest method (target_url path None) params body))
    by reflexivity.
  split.
  - intros Hcode. unfold execute_workflow. apply bind_raise.
    unfold request.
    rewrite (bind_ok _ _ _ _ _ (validate_non_empty_string_ok _ _ _ Hm)).
    rewrite Hs, Hr. cbv zeta.
    assert (He : is_http_error r0 = true).
    { unfold is_http_error. apply andb_true_intro.
      split; [apply Z.leb_le | apply Z.ltb_lt]; lia. }
    now rewrite He, Hw0.
  - intros Hcode0.
    assert (He : is_http_error r0 = false).
    { unfold is_http_error. apply andb_false_iff.
      destruct Hcode0; [left; apply Z.leb_gt | right; apply Z.ltb_ge]; lia. }
    pose proof (request_served method path None params body w e0 rest0 r0 Hm Hs Hr He)
      as Hreq. rewrite <- Hw0 in Hreq.
    split.
    + intros H201 H202. unfold execute_workflow. rewrite (bind_ok _ _ _ _ _ Hreq).
      destruct (Z.eqb_spec (status_code r0) 201); [contradiction |].
      destruct (Z.eqb_spec (status_code r0) 202); [contradiction |].
      reflexivity.
    + intros Hcode.
      assert (Hacc : negb ((status_code r0 =? 201) || (status_code r0 =? 202)) = false).
      { destruct Hcode as [-> | ->]; reflexivity. }
      split; [| split].
      * intros Hloc. unfold execute_workflow. rewrite (bind_ok _ _ _ _ _ Hreq), Hacc.
        unfold get_location_header. now rewrite Hloc.
      * intros Hloc. unfold execute_workflow. rewrite (bind_ok _ _ _ _ _ Hreq), Hacc.
        unfold get_location_header. now rewrite Hloc.
      * intros workflow_url e1 e2 e3 rest r1 r2 r3 d1 d2 d3 Hloc Hu -> A1 A2 A3 C1 C2 C3
          Hlat.
        unfold execute_workflow. rewrite (bind_ok _ _ _ _ _ Hreq), Hacc.
        unfold get_location_header. rewrite Hloc. unfold bind at 1. unfold ret at 1.
        destruct workflow_url as [| c u]; [discriminate |].
        rewrite (poll_workflow_start _ _ _ _ Hu); [| lia | lia].
        assert (S0 : script w0 = e1 :: e2 :: e3 :: rest) by reflexivity.
        unfold loop. rewrite S0. cbn [List.length].
        assert (B1 : clock w0 + Z.of_nat (latency e1) - clock w0 <= 600000 * hz) by lia.
        assert (B2 : clock (advance (10 * hz)
                          (served w0 e1 (e2 :: e3 :: rest) (url_request (String c u))))
                     + Z.of_nat (latency e2) - clock w0 <= 600000 * hz)
          by (cbn [served advance clock]; lia).
        rewrite (while_true_again _ _ _ _ _ _
                   (poll_workflow_tick_continue _ _ _ _ _ _ _ _ _ S0 A1 C1 B1)).
        rewrite (while_true_again _ _ _ _ _ _
                   (poll_workflow_tick_continue _ _ _ _
                      (advance (10 * hz) (served w0 e1 (e2 :: e3 :: rest) _))
                      e2 (e3 :: rest) _ _ eq_refl A2 C2 B2)).
        rewrite (while_true_return _ _ _ _ _ _
                   (poll_workflow_tick_completed _ _ _ _
                      (advance (10 * hz)
                         (served (advance (10 * hz) (served w0 e1 (e2 :: e3 :: rest) _))
                            e2 (e3 :: rest) _))
                      _ _ _ _ eq_refl A3 C3)).
        eexists. split; [reflexivity |]. split; [reflexivity |].
        subst w0. cbn [served advance sent]. rewrite <- !app_assoc. reflexivity.
Qed.

(** ** Mapping synchronisation: C10 and C7 *)

Lemma upper_ascii_idempotent (c : ascii) : upper_ascii (upper_ascii c) = upper_ascii c.
Proof. destruct c as [[] [] [] [] [] [] [] []]; reflexivity. Qed.

Lemma upper_idempotent (s : string) : upper (upper s) = upper s.
Proof.
  induction s as [| c s IH]; [reflexivity |].
  cbn [upper]. now rewrite upper_ascii_idempotent, IH.
Qed.

Lemma mem_In (s : string) (l : list string) : mem s l = true <-> In s l.
Proof.
  unfold mem. rewrite existsb_exists. split.
  - intros (x & Hx & Heq). apply String.eqb_eq in Heq. now subst.
  - intros H. exists s. split; [assumption | apply String.eqb_refl].
Qed.


Lemma lookup_update_other {A : Type} (k k' : string) (v : A) (d : list (string * A)) :
  k <> k' -> lookup k' (update k v d) = lookup k' d.
Proof.
  intros Hne. induction d as [| [k0 v0] d IH]; cbn [update lookup].
  - destruct (String.eqb_spec k' k); [congruence | reflexivity].
  - destruct (String.eqb_spec k k0) as [-> | Hk]; cbn [lookup].
    + destruct (String.eqb_spec k' k0); [congruence | reflexivity].
    + now rewrite IH.
Qed.

Lemma existing_sources_ok (items : list json) (sources : list string) (w : World) :
  Forall2 has_source items sources ->
  existing_sources items w = (Ok (map upper sources), w).
Proof.
  induction 1 as [| item s items sources (d & -> & Hd) _ IH]; [reflexivity |].
  cbn [existing_sources]. unfold source_upper, subscript, bind, ret.
  rewrite Hd. unfold bind, ret in IH. now rewrite IH.
Qed.

Lemma add_headers_spec (existing_sources_upper headers : list string) :
  forall (items : list json) (modified : bool) (w : World),
    add_headers existing_sources_upper headers (JArr items) modified w =
      (Ok (modified || existsb (is_missing existing_sources_upper) headers,
           JArr (items ++ new_entries existing_sources_upper headers)), w).
Proof.
  induction headers as [| header rest IH]; intros items modified w.
  - cbn. now rewrite orb_false_r, app_nil_r.
  - cbn [add_headers existsb]. unfold new_entries. cbn [filter]. unfold is_missing at 1 3.
    destruct (mem (upper header) existing_sources_upper); cbn [negb].
    + apply IH.
    + unfold py_append, bind, ret. rewrite IH. cbn [map orb].
      rewrite orb_true_r, <- app_assoc. reflexivity.
Qed.

Lemma _add_missing_sources_spec (headers : list string) (items : list json)
    (sources : list string) (w : World) :
  Forall2 has_source items sources ->
  _add_missing_sources headers (JArr items) w =
    (Ok (existsb (is_missing (map upper sources)) headers,
         JArr (items ++ new_entries (map upper sources) headers)), w).
Proof.
  intros H. unfold _add_missing_sources, iterate.
  unfold bind at 1. unfold ret at 1.
  rewrite (bind_ok _ _ _ _ _ (existing_sources_ok _ _ _ H)).
  apply add_headers_spec.
Qed.

Lemma new_entries_have_sources (existing_sources_upper headers : list string) :
  Forall2 has_source (new_entries existing_sources_upper headers)
    (map upper (filter (is_missing existing_sources_upper) headers)).
Proof.
  unfold new_entries.
  induction (filter (is_missing existing_sources_upper) headers) as [| h l IH];
    constructor; [| exact IH].
  eexists. split; reflexivity.
Qed.



Lemma filter_none {A : Type} (f : A -> bool) (l : list A) :
  existsb f l = false -> filter f l = [].
Proof.
  induction l as [| x l IH]; [reflexivity |]. cbn [existsb filter].
  destruct (f x); [discriminate | exact IH].
Qed.

Lemma is_missing_true (existing_sources_upper : list string) (header : string) :
  is_missing existing_sources_upper header = true ->
  mem (upper header) existing_sources_upper = false.
Proof. unfold is_missing. apply negb_true_iff. Qed.

(** A second pass over the list the first pass has left finds nothing to add. *)
Lemma second_pass_adds_nothing (headers sources : list string) :
  existsb (is_missing (map upper
             (sources ++ map upper (filter (is_missing (map upper sources)) headers))))
    headers = false.
Proof.
  apply not_true_is_false. intros H. apply existsb_exists in H.
  destruct H as (h & Hin & Hmiss). apply is_missing_true in Hmiss.
  assert (Hm : mem (upper h)
            (map upper (sources ++ map upper (filter (is_missing (map upper sources)) headers)))
          = true); [| congruence].
  apply mem_In. rewrite map_app. apply in_or_app.
  destruct (mem (upper h) (map upper sources)) eqn:E.
  - left. now apply mem_In.
  - right. rewrite map_map. apply in_map_iff. exists h.
    split; [apply upper_idempotent |].
    apply filter_In. split; [assumption |]. unfold is_missing. now rewrite E.
Qed.

(** C10. [_add_missing_sources] computes the set of existing sources once,
    from the items it is given: every header that is not, in upper case, in
    that set gets an identity entry, also when an earlier header of the same
    pass has already added the same entry. So the headers Zip and ZIP, neither
    of them a source, add two identical entries ZIP -> ZIP; a second pass over
    the list that the first pass has left adds nothing and reports no
    modification. *)
Theorem add_missing_sources_once_per_pass
    (headers : list string) (items : list json) (sources : list string) (w : World) :
  Forall2 has_source items sources ->
  let existing := map upper sources in
  let items' := (items ++ new_entries existing headers)%list in
  _add_missing_sources ["Zip"; "ZIP"] (JArr []) w
    = (Ok (true, JArr [identity_entry "ZIP"; identity_entry "ZIP"]), w) /\
  _add_missing_sources headers (JArr items) w
    = (Ok (existsb (is_missing existing) headers, JArr items'), w) /\
  _add_missing_sources headers (JArr items') w = (Ok (false, JArr items'), w).
Proof.
  intros H existing items'. split; [reflexivity |]. split.
  - now apply _add_missing_sources_spec.
  - assert (H' : Forall2 has_source items'
                   (sources ++ map upper (filter (is_missing existing) headers))).
    { apply Forall2_app; [assumption | apply new_entries_have_sources]. }
    rewrite (_add_missing_sources_spec _ _ _ _ H').
    assert (Hnone := second_pass_adds_nothing headers sources).
    fold existing in Hnone. rewrite Hnone.
    unfold new_entries. rewrite (filter_none _ _ Hnone). cbn [map].
    now rewrite app_nil_r.
Qed.






(** ** C6 *)


Lemma decode_base64_field_ok (v : json) (field_name s : string) (w : World) :
  b64decode_utf8 v = Some s ->
  decode_base64_field v field_name w =
    (Ok s, mkWorld (clock w) (script w) (sent w) (files w) (tables w)
             (decoded w ++ [field_name])).
Proof. intros H. unfold decode_base64_field. now rewrite H. Qed.

Lemma decode_base64_field_fails (v : json) (field_name : string) (w : World) :
  b64decode_utf8 v = None ->
  decode_base64_field v field_name w =
    (Raise (decode_failure field_name),
     mkWorld (clock w) (script w) (sent w) (files w) (tables w)
       (decoded w ++ [field_name])).
Proof. intros H. unfold decode_base64_field. now rewrite H. Qed.


(** ** C9 *)

Lemma take_length (n : nat) (s : string) :
  String.length (take n s) = Nat.min n (String.length s).
Proof.
  revert s. induction n as [| n IH]; intros [| c s]; cbn; auto.
Qed.

Lemma take_prefix (n : nat) (s : string) : prefix (take n s) s = true.
Proof.
  revert s. induction n as [| n IH]; intros [| c s]; cbn; auto.
  destruct (Ascii.ascii_dec c c); [apply IH | congruence].
Qed.

Lemma search_portfolios_served (exposure_id : json) (x : Z) (portfolio_name : string)
    (w : World) (ev : Event) (rest : list Event) (r : Response) (v : json) :
  as_int exposure_id = Some x -> 0 < x ->
  script w = ev :: rest ->
  answers ev r v ->
  search_portfolios exposure_id (name_filter "portfolioName" portfolio_name) 100 0 w
    = (Ok v, served w ev rest (portfolio_search exposure_id portfolio_name)).
Proof.
  intros Hx Hpos Hs (Hr & He & Hb). unfold search_portfolios, validate_positive_int.
  rewrite Hx. destruct (Z.leb_spec x 0); [lia |].
  unfold bind at 1. unfold ret at 1. apply try_except_ok.
  unfold name_filter at 1. cbn [String.append].
  rewrite (bind_ok _ _ _ _ _ (request_served "GET" _ _ _ _ w ev rest r eq_refl Hs Hr He)).
  unfold response_json. now rewrite Hb.
Qed.

(** C9. [create_portfolio] sends, and returns as the request body, the
    portfolio name and the description as they were passed and, as
    [portfolioNumber], the first 20 characters of the portfolio number: a
    longer number passes validation and is cut, not rejected. *)
Theorem create_portfolio_number_truncated
    (edm_name portfolio_name portfolio_number description : string) :
  let data := portfolio_data portfolio_name portfolio_number description in
  (forall (w w1 : World) (de : list (string * json)) (exposure_id : json) (x : Z)
          (e1 e2 : Event) (rest : list Event) (r1 r2 : Response)
          (location : string) (id : Z),
     is_blank edm_name = false ->
     is_blank portfolio_name = false ->
     is_blank portfolio_number = false ->
     search_edms (name_filter "exposureName" edm_name) w = (Ok (JArr [JObj de]), w1) ->
     lookup "exposureId" de = Some exposure_id ->
     as_int exposure_id = Some x -> 0 < x ->
     script w1 = e1 :: e2 :: rest ->
     answers e1 r1 (JArr []) ->
     ev_reply e2 = Reply r2 -> is_http_error r2 = false ->
     lookup "location" (headers r2) = Some location ->
     last_segment location <> EmptyString ->
     py_int (last_segment location) = Some id ->
     exists w',
       create_portfolio edm_name portfolio_name portfolio_number description w
         = (Ok (id, data), w') /\
       sent w' = (sent w1 ++
                  [portfolio_search exposure_id portfolio_name;
                   mkRequest "POST" (target_url (CREATE_PORTFOLIO K exposure_id) None)
                     [] (Some data)])%list) /\
  (forall (w w' : World) (id : Z) (body : json),
     create_portfolio edm_name portfolio_name portfolio_number description w
       = (Ok (id, body), w') ->
     body = data) /\
  String.length (take 20 portfolio_number)
    = Nat.min 20 (String.length portfolio_number) /\
  prefix (take 20 portfolio_number) portfolio_number = true.
Proof.
  intros data. split; [| split; [| split]].
  - intros w w1 de exposure_id x e1 e2 rest r1 r2 location id
      Be Bn Bu Hedm Hexp Hx Hpos Hs A1 Hr2 He2 Hloc Hseg Hid.
    unfold create_portfolio.
    rewrite (bind_ok _ _ _ _ _ (validate_non_empty_string_ok _ _ _ Be)).
    rewrite (bind_ok _ _ _ _ _ (validate_non_empty_string_ok _ _ _ Bn)).
    rewrite (bind_ok _ _ _ _ _ (validate_non_empty_string_ok _ _ _ Bu)).
    rewrite (bind_ok _ _ _ _ _ Hedm).
    unfold py_len at 1. unfold bind at 1. unfold ret at 1. cbn [List.length Z.of_nat
      Pos.of_succ_nat Z.eqb Pos.eqb negb].
    unfold index0, subscript. unfold bind at 2. unfold ret at 1.
    rewrite Hexp. unfold try_except at 1. unfold ret at 1. unfold bind at 1.
    rewrite (bind_ok _ _ _ _ _
               (search_portfolios_served _ _ portfolio_name _ _ _ _ _ Hx Hpos Hs A1)).
    unfold py_len at 1. unfold bind at 1. unfold ret at 1.
    cbn [List.length Z.of_nat Z.gtb Z.compare].
    fold data. eexists. split.
    + apply try_except_ok.
      rewrite (bind_ok _ _ _ _ _
                 (request_served "POST" _ _ _ _
                    (served w1 e1 (e2 :: rest) _) e2 rest r2 eq_refl eq_refl Hr2 He2)).
      unfold extract_id_from_location_header, get_location_header.
      rewrite Hloc. unfold bind at 2. unfold ret at 1.
      destruct (last_segment location) eqn:E; [congruence |].
      unfold bind at 1. unfold ret at 1. rewrite Hid. reflexivity.
    + cbn [served sent]. rewrite <- app_assoc. reflexivity.
  - intros w w' id body H. unfold create_portfolio in H.
    repeat (apply bind_inv_ok in H; destruct H as (? & ? & _ & H)).
    destruct (negb _); [discriminate |].
    repeat (apply bind_inv_ok in H; destruct H as (? & ? & _ & H)).
    destruct (_ >? _); [discriminate |].
    unfold try_except in H.
    match type of H with
    | context [match ?m ?w0 with _ => _ end] => destruct (m w0) as [[c | e |] w2] eqn:Hin
    end; try discriminate.
    injection H as -> _.
    repeat (apply bind_inv_ok in Hin; destruct Hin as (? & ? & _ & Hin)).
    destruct (py_int _); [| discriminate].
    injection Hin as _ <- _. reflexivity.
  - apply take_length.
  - apply take_prefix.
Qed.

(** ** C5 *)

Lemma Forall_on_firstn {A : Type} (P : A -> Prop) (n : nat) (l : list A) :
  Forall P l -> Forall P (firstn n l).
Proof.
  intros H. revert n. induction H as [| x l Hx _ IH]; intros [| n]; cbn [firstn];
    constructor; auto.
Qed.

Lemma first_named_none (data_list : list json) (name_field target_name : string)
    (w : World) :
  Forall (named_otherwise name_field target_name) data_list ->
  first_named data_list name_field target_name w = (Ok None, w).
Proof.
  induction 1 as [| item rest (d & s & -> & Hd & Hne) _ IH]; [reflexivity |].
  cbn [first_named]. unfold dict_get, bind, ret. rewrite Hd.
  destruct (String.eqb_spec s target_name); [contradiction | exact IH].
Qed.

Lemma names_of_ok (items : list json) (name_field target_name : string) (w : World) :
  Forall (named_otherwise name_field target_name) items ->
  exists names, names_of items name_field w = (Ok names, w).
Proof.
  induction 1 as [| item rest (d & s & -> & Hd & _) _ [names IH]].
  - now exists [].
  - exists (s :: names). cbn [names_of]. unfold dict_get, bind, ret. rewrite Hd.
    unfold bind, ret in IH. now rewrite IH.
Qed.

(** C5, as the code has it. In [submit_mri_import_job] the EDM search must
    yield exactly one match: any other count is an API error that says how
    many were found. The portfolio search then fails with an API error
    saying that the portfolio was not found on zero matches, gives the
    portfolio ID of the match on exactly one, and fails with an API error
    that mentions the count and asks for a unique name on two or more; the
    first of several matches is not picked there. These errors are
    [IRPAPIError]s, not reference-data errors. The helper
    [find_reference_data_by_name] raises the reference-data error, saying
    not found, when no item has the name, and otherwise returns the first
    item that has it, whatever follows it in the list. *)
Theorem lookup_by_name
    (edm_name portfolio_name accounts_file_name locations_file_name
     mapping_file_name : string) (w w1 : World) (edms : list json) :
  let lookup_ids :=
    submit_mri_import_job_lookup edm_name portfolio_name accounts_file_name
      locations_file_name mapping_file_name in
  is_blank edm_name = false ->
  is_blank portfolio_name = false ->
  is_blank accounts_file_name = false ->
  is_blank locations_file_name = false ->
  is_blank mapping_file_name = false ->
  search_edms (name_filter "exposureName" edm_name) w = (Ok (JArr edms), w1) ->
  (List.length edms <> 1%nat ->
     lookup_ids w
       = (Raise (Exn IRPAPIError
            [Lit "Expected 1 EDM with name "; FStr edm_name; Lit ", found ";
             FInt (Z.of_nat (List.length edms))]), w1)) /\
  (forall (de : list (string * json)) (exposure_id : json) (x : Z)
          (e1 : Event) (rest : list Event) (r1 : Response) (portfolios : list json),
     edms = [JObj de] ->
     lookup "exposureId" de = Some exposure_id ->
     as_int exposure_id = Some x -> 0 < x ->
     script w1 = e1 :: rest ->
     answers e1 r1 (JArr portfolios) ->
     let w2 := served w1 e1 rest (portfolio_search exposure_id portfolio_name) in
     (portfolios = [] ->
        lookup_ids w
          = (Raise (Exn IRPAPIError
               [Lit "Portfolio with name "; FStr portfolio_name; Lit " not found"]), w2)) /\
     (forall (dp : list (string * json)) (portfolio_id : json),
        portfolios = [JObj dp] ->
        lookup "portfolioId" dp = Some portfolio_id ->
        lookup_ids w
          = (Ok (exposure_id, portfolio_id), w2)) /\
     ((2 <= List.length portfolios)%nat ->
        lookup_ids w
          = (Raise (Exn IRPAPIError
               [FInt (Z.of_nat (List.length portfolios));
                Lit " portfolios found with name "; FStr portfolio_name;
                Lit ", please use a unique name"]), w2))) /\
  (forall (name_field data_type target_name : string) (d : list (string * json))
          (others : list json) (w0 : World),
     lookup name_field d = Some (JStr target_name) ->
     find_reference_data_by_name (JObj d :: others) target_name name_field data_type w0
       = (Ok (JObj d), w0)) /\
  (forall (name_field data_type target_name : string) (item : json)
          (others : list json) (w0 : World),
     Forall (named_otherwise name_field target_name) (item :: others) ->
     exists more,
       find_reference_data_by_name (item :: others) target_name name_field data_type w0
         = (Raise (Exn IRPReferenceDataError
              ([FStr data_type; Lit " '"; FStr target_name;
                Lit "' not found. Available: "] ++ more)), w0)).
Proof.
  intros lookup_ids Be Bn Ba Bl Bm Hedm. subst lookup_ids.
  split; [| split; [| split]].
  - intros Hlen. unfold submit_mri_import_job_lookup.
    rewrite (bind_ok _ _ _ _ _ (validate_non_empty_string_ok _ _ _ Be)).
    rewrite (bind_ok _ _ _ _ _ (validate_non_empty_string_ok _ _ _ Bn)).
    rewrite (bind_ok _ _ _ _ _ (validate_non_empty_string_ok _ _ _ Ba)).
    rewrite (bind_ok _ _ _ _ _ (validate_non_empty_string_ok _ _ _ Bl)).
    rewrite (bind_ok _ _ _ _ _ (validate_non_empty_string_ok _ _ _ Bm)).
    rewrite (bind_ok _ _ _ _ _ Hedm).
    unfold py_len at 1. unfold bind at 1. unfold ret at 1.
    destruct (Z.eqb_spec (Z.of_nat (List.length edms)) 1); [lia | reflexivity].
  - intros de exposure_id x e1 rest r1 portfolios -> Hexp Hx Hpos Hs A1 w2.
    assert (Hprefix :
      submit_mri_import_job_lookup edm_name portfolio_name accounts_file_name
        locations_file_name mapping_file_name w =
      (n_portfolios <- py_len (JArr portfolios) ;;
       if n_portfolios =? 0
       then raise IRPAPIError
              [Lit "Portfolio with name "; FStr portfolio_name; Lit " not found"]
       else if n_portfolios >? 1
       then raise IRPAPIError
              [FInt n_portfolios; Lit " portfolios found with name "; FStr portfolio_name;
               Lit ", please use a unique name"]
       else
         portfolio_id <-
           try_except (portfolio <- index0 (JArr portfolios) ;;
                       subscript portfolio "portfolioId")
             (fun e => raise IRPAPIError
                [Lit "Failed to extract portfolio ID for portfolio '"; FStr portfolio_name;
                 Lit "': "; fexn e]) ;;
         ret (exposure_id, portfolio_id)) w2).
    { unfold submit_mri_import_job_lookup.
      rewrite (bind_ok _ _ _ _ _ (validate_non_empty_string_ok _ _ _ Be)).
      rewrite (bind_ok _ _ _ _ _ (validate_non_empty_string_ok _ _ _ Bn)).
      rewrite (bind_ok _ _ _ _ _ (validate_non_empty_string_ok _ _ _ Ba)).
      rewrite (bind_ok _ _ _ _ _ (validate_non_empty_string_ok _ _ _ Bl)).
      rewrite (bind_ok _ _ _ _ _ (validate_non_empty_string_ok _ _ _ Bm)).
      rewrite (bind_ok _ _ _ _ _ Hedm).
      unfold py_len at 1. unfold bind at 1. unfold ret at 1.
      cbn [List.length Z.of_nat Pos.of_succ_nat Z.eqb Pos.eqb negb].
      unfold index0, subscript. unfold bind at 2. unfold ret at 1.
      rewrite Hexp. unfold try_except at 1. unfold ret at 1. unfold bind at 1.
      rewrite (bind_ok _ _ _ _ _
                 (search_portfolios_served _ _ portfolio_name _ _ _ _ _ Hx Hpos Hs A1)).
      reflexivity. }
    rewrite Hprefix. unfold py_len. rewrite bind_ret.
    split; [| split].
    + intros ->. reflexivity.
    + intros dp portfolio_id -> Hpid.
      cbn [List.length Z.of_nat Pos.of_succ_nat Z.eqb Z.gtb Z.compare Pos.compare
           Pos.compare_cont].
      unfold index0, subscript, try_except, bind, ret. now rewrite Hpid.
    + intros Hlen.
      destruct (Z.eqb_spec (Z.of_nat (List.length portfolios)) 0); [lia |].
      destruct (Z.gtb_spec (Z.of_nat (List.length portfolios)) 1); [reflexivity | lia].
  - intros name_field data_type target_name d others w0 Hd.
    unfold find_reference_data_by_name. cbn [first_named].
    unfold dict_get, bind, ret. rewrite Hd. now rewrite String.eqb_refl.
  - intros name_field data_type target_name item others w0 Hall.
    unfold find_reference_data_by_name.
    rewrite (bind_ok _ _ _ _ _ (first_named_none _ _ _ _ Hall)).
    assert (Hfirst : Forall (named_otherwise name_field target_name)
                       (firstn 5 (item :: others))).
    { now apply Forall_on_firstn. }
    destruct (names_of_ok _ _ _ w0 Hfirst) as [names Hnames].
    rewrite (bind_ok _ _ _ _ _ Hnames).
    eexists. unfold raise. cbn [List.app]. reflexivity.
Qed.

(** ** Further properties: the loops of the single-handle pollers *)

Lemma total_latency_nonneg (evs : list Event) : 0 <= total_latency evs.
Proof. induction evs as [| ev evs IH]; cbn [total_latency fold_right]; [lia |].
  fold (total_latency evs). lia. Qed.

Lemma total_latency_cons (ev : Event) (evs : list Event) :
  total_latency (ev :: evs) = Z.of_nat (latency ev) + total_latency evs.
Proof. reflexivity. Qed.

Lemma total_latency_app (evs1 evs2 : list Event) :
  total_latency (evs1 ++ evs2) = total_latency evs1 + total_latency evs2.
Proof.
  induction evs1 as [| ev evs1 IH]; [reflexivity |].
  cbn [app]. rewrite !total_latency_cons, IH. lia.
Qed.

Section PollLoop.

Context {A : Type}.
Variable body : unit -> M (tick unit A).
Variable rq : Request.
Variable P : Event -> Prop.
Variable err : Event -> exn.
Variables start interval timeout : Z.
Hypothesis interval_pos : 0 < interval.
Hypothesis body_pending :
  forall (w : World) (ev : Event) (rest : list Event),
    script w = ev :: rest -> P ev ->
    body tt w =
      let w1 := served w ev rest rq in
      if clock w1 - start >? timeout * hz then (Raise (err ev), w1)
      else (Ok (Again tt), advance (interval * hz) w1).

(** The loop passes over pending replies as long as the time budget lasts. *)
Lemma loop_skips_pending (rest : list Event) :
  forall (evs : list Event) (w : World) (fuel : nat),
    script w = (evs ++ rest)%list ->
    Forall P evs ->
    (List.length evs <= fuel)%nat ->
    evs = [] \/
    clock w - start + total_latency evs
      + (Z.of_nat (List.length evs) - 1) * (interval * hz) <= timeout * hz ->
    while_true fuel body tt w =
      while_true (fuel - List.length evs) body tt
        (after_requests w evs rest rq (List.length evs)
           (Z.of_nat (List.length evs) * (interval * hz))).
Proof.
  induction evs as [| ev evs IH]; intros w fuel Hs HP Hfuel Hbudget.
  - cbn [List.length]. rewrite Nat.sub_0_r. f_equal.
    destruct w. cbn in Hs. subst. unfold after_requests. cbn.
    rewrite app_nil_r. f_equal. lia.
  - destruct Hbudget as [Hnil | Hbudget]; [discriminate |].
    destruct fuel as [| fuel]; [cbn in Hfuel; lia |].
    inversion HP as [| ? ? Hev HP']; subst.
    pose proof (total_latency_nonneg evs) as Hnn.
    rewrite total_latency_cons in Hbudget. cbn [List.length] in Hbudget, Hfuel.
    rewrite Nat2Z.inj_succ in Hbudget.
    assert (Hih : 0 <= Z.of_nat (List.length evs) * (interval * hz)) by nia.
    pose proof (body_pending w ev (evs ++ rest) Hs Hev) as Hb. cbn zeta in Hb.
    destruct (Z.gtb_spec (clock (served w ev (evs ++ rest) rq) - start) (timeout * hz))
      as [Hgt | _]; [cbn [served clock] in Hgt; lia |].
    rewrite (while_true_again _ _ _ _ _ _ Hb).
    rewrite (IH (advance (interval * hz) (served w ev (evs ++ rest) rq)) fuel
               eq_refl HP' ltac:(lia)).
    + cbn [List.length Nat.sub]. f_equal.
      unfold after_requests. cbn [served advance clock sent files tables decoded repeat].
      rewrite Nat2Z.inj_succ, total_latency_cons, <- app_assoc. cbn [app].
      f_equal. lia.
    + destruct evs as [| ev' evs']; [now left | right].
      cbn [served advance clock]. lia.
Qed.

(** Once the sleeps alone exceed the timeout the loop has raised. *)
Lemma loop_times_out (rest : list Event) :
  forall (evs : list Event) (w : World) (fuel : nat),
    script w = (evs ++ rest)%list ->
    evs <> [] ->
    Forall P evs ->
    (List.length evs <= fuel)%nat ->
    start <= clock w ->
    timeout * hz < clock w - start + (Z.of_nat (List.length evs) - 1) * (interval * hz) ->
    exists (ev : Event) (w' : World) (n : nat),
      In ev evs /\ while_true fuel body tt w = (Raise (err ev), w') /\
      (1 <= n <= List.length evs)%nat /\ sent w' = (sent w ++ repeat rq n)%list.
Proof.
  induction evs as [| ev evs IH]; intros w fuel Hs Hne HP Hfuel Hstart Hover;
    [congruence |].
  destruct fuel as [| fuel]; [cbn in Hfuel; lia |].
  inversion HP as [| ? ? Hev HP']; subst.
  pose proof (body_pending w ev (evs ++ rest) Hs Hev) as Hb. cbn zeta in Hb.
  cbn [List.length] in Hover, Hfuel. rewrite Nat2Z.inj_succ in Hover.
  destruct (Z.gtb_spec (clock (served w ev (evs ++ rest) rq) - start) (timeout * hz))
    as [Hgt | Hle].
  - exists ev, (served w ev (evs ++ rest) rq), 1%nat.
    split; [now left |]. split; [now apply while_true_raise |].
    split; [cbn [List.length]; lia | reflexivity].
  - destruct evs as [| ev' evs'].
    + cbn [served clock List.length] in *. lia.
    + rewrite (while_true_again _ _ _ _ _ _ Hb).
      destruct (IH (advance (interval * hz) (served w ev ((ev' :: evs') ++ rest) rq)) fuel
                  eq_refl ltac:(discriminate) HP' ltac:(lia))
        as (ev0 & w' & n & Hin & Hrun & Hn & Hsent).
      * cbn [served advance clock]. nia.
      * cbn [served advance clock] in *. lia.
      * exists ev0, w', (S n). split; [now right |]. split; [assumption |].
        split; [cbn [List.length] in *; lia |].
        rewrite Hsent. cbn [served advance sent repeat]. now rewrite <- app_assoc.
Qed.

End PollLoop.

Lemma poll_geohaz_job_to_completion_tick_completed (job_id interval timeout start : Z)
    (w : World) (ev : Event) (rest : list Event) (r : Response)
    (d : list (string * json)) (status progress : json) :
  0 < job_id ->
  script w = ev :: rest ->
  answers ev r (JObj d) ->
  lookup "status" d = Some status ->
  lookup "progress" d = Some progress ->
  status_in status (WORKFLOW_COMPLETED_STATUSES K) = true ->
  poll_geohaz_job_to_completion_tick job_id interval timeout start tt w =
    (Ok (Return (JObj d)), served w ev rest (geohaz_request job_id)).
Proof.
  intros Hid Hs Ha Hst Hpr Hin. unfold poll_geohaz_job_to_completion_tick.
  rewrite (bind_ok _ _ _ _ _ (get_geohaz_job_served _ _ _ _ _ _ Hid Hs Ha)).
  unfold subscript, try_except, bind, ret. rewrite Hst, Hpr. cbn [fst]. rewrite Hin.
  reflexivity.
Qed.

Lemma pending_job_observed (ev : Event) :
  pending_job ev ->
  exists r d status progress,
    answers ev r (JObj d) /\ lookup "status" d = Some status /\
    lookup "progress" d = Some progress /\
    status_in status (WORKFLOW_COMPLETED_STATUSES K) = false /\
    status_or_empty d = status /\ observed_status ev = status.
Proof.
  intros (r & d & status & progress & Ha & Hst & Hpr & Hin).
  exists r, d, status, progress. repeat (split; [assumption |]).
  assert (Hse : status_or_empty d = status) by (unfold status_or_empty; now rewrite Hst).
  split; [assumption |].
  destruct Ha as (Hr & _ & Hb). unfold observed_status, record_of. now rewrite Hr, Hb.
Qed.

Lemma poll_workflow_tick_on_pending (workflow_url : string) (interval timeout start : Z)
    (w : World) (ev : Event) (rest : list Event) :
  script w = ev :: rest -> pending_job ev ->
  poll_workflow_tick workflow_url interval timeout start tt w =
    let w1 := served w ev rest (url_request workflow_url) in
    if clock w1 - start >? timeout * hz
    then (Raise (workflow_timeout timeout (observed_status ev)), w1)
    else (Ok (Again tt), advance (interval * hz) w1).
Proof.
  intros Hs Hp.
  destruct (pending_job_observed ev Hp) as (r & d & st & pr & Ha & _ & _ & Hin & Hse & ->).
  rewrite (poll_workflow_tick_pending _ _ _ _ _ _ _ _ _ Hs Ha); rewrite Hse; auto.
Qed.

Lemma poll_workflow_to_completion_tick_on_pending (workflow_id interval timeout start : Z)
    (w : World) (ev : Event) (rest : list Event) :
  0 < workflow_id ->
  script w = ev :: rest -> pending_job ev ->
  poll_workflow_to_completion_tick workflow_id interval timeout start tt w =
    let w1 := served w ev rest (workflow_request workflow_id) in
    if clock w1 - start >? timeout * hz
    then (Raise (job_timeout workflow_id timeout (observed_status ev)), w1)
    else (Ok (Again tt), advance (interval * hz) w1).
Proof.
  intros Hid Hs Hp.
  destruct (pending_job_observed ev Hp) as (r & d & st & pr & Ha & Hst & Hpr & Hin & _ & ->).
  exact (poll_workflow_to_completion_tick_pending _ _ _ _ _ _ _ _ _ _ _ Hid Hs Ha Hst Hpr Hin).
Qed.

Lemma poll_geohaz_job_to_completion_tick_on_pending (job_id interval timeout start : Z)
    (w : World) (ev : Event) (rest : list Event) :
  0 < job_id ->
  script w = ev :: rest -> pending_job ev ->
  poll_geohaz_job_to_completion_tick job_id interval timeout start tt w =
    let w1 := served w ev rest (geohaz_request job_id) in
    if clock w1 - start >? timeout * hz
    then (Raise (geohaz_timeout job_id timeout (observed_status ev)), w1)
    else (Ok (Again tt), advance (interval * hz) w1).
Proof.
  intros Hid Hs Hp.
  destruct (pending_job_observed ev Hp) as (r & d & st & pr & Ha & Hst & Hpr & Hin & _ & ->).
  exact (poll_geohaz_job_to_completion_tick_pending _ _ _ _ _ _ _ _ _ _ _ Hid Hs Ha Hst Hpr Hin).
Qed.

Lemma served_after_requests (w : World) (evs : list Event) (ev : Event)
    (rest : list Event) (rq : Request) (n : nat) (slept : Z) :
  served (after_requests w evs (ev :: rest) rq n slept) ev rest rq
  = after_requests w (evs ++ [ev]) rest rq (S n) slept.
Proof.
  unfold served, after_requests. cbn [clock sent files tables decoded].
  rewrite total_latency_app, total_latency_cons. cbn [total_latency fold_right].
  rewrite <- app_assoc, <- repeat_cons. f_equal. lia.
Qed.

(** A loop over pending replies followed by a reply on which the body
    returns. *)
Lemma loop_returns_after_pending {A : Type} (body : unit -> M (tick unit A))
    (rq : Request) (err : Event -> exn) (interval timeout : Z) (a : A)
    (w : World) (evs : list Event) (ev : Event) (rest : list Event) :
  0 < interval ->
  (forall (w0 : World) (ev0 : Event) (rest0 : list Event),
     script w0 = ev0 :: rest0 -> pending_job ev0 ->
     body tt w0 =
       let w1 := served w0 ev0 rest0 rq in
       if clock w1 - clock w >? timeout * hz then (Raise (err ev0), w1)
       else (Ok (Again tt), advance (interval * hz) w1)) ->
  (forall w0 : World,
     script w0 = ev :: rest -> body tt w0 = (Ok (Return a), served w0 ev rest rq)) ->
  script w = (evs ++ ev :: rest)%list ->
  Forall pending_job evs ->
  evs = [] \/
  total_latency evs + (Z.of_nat (List.length evs) - 1) * (interval * hz)
    <= timeout * hz ->
  loop body tt w =
    (Ok a, after_requests w (evs ++ [ev]) rest rq (S (List.length evs))
             (Z.of_nat (List.length evs) * (interval * hz))).
Proof.
  intros Hi Hpend Hdone Hs HP Hbudget. unfold loop. rewrite Hs.
  rewrite (loop_skips_pending body rq pending_job err (clock w) interval timeout Hi Hpend
             (ev :: rest) evs w _ Hs HP).
  - rewrite length_app. cbn [List.length].
    replace (S (List.length evs + S (List.length rest)) - List.length evs)%nat
      with (S (S (List.length rest))) by lia.
    rewrite (while_true_return _ _ _ _ _ _
               (Hdone (after_requests w evs (ev :: rest) rq (List.length evs)
                         (Z.of_nat (List.length evs) * (interval * hz))) eq_refl)).
    now rewrite served_after_requests.
  - rewrite length_app. lia.
  - destruct Hbudget as [-> | Hb]; [now left | right; lia].
Qed.

(** X1. Each single-handle poller returns the first record whose status is
    in COMPLETED: after [n] records with other statuses, while the time
    budget lasts, it has made [n + 1] fetches and slept [n] intervals, no
    more. With [n = 0] the poll returns at once, without sleeping. *)
Theorem polls_return_first_completed
    (workflow_url : string) (id interval timeout : Z)
    (w : World) (evs : list Event) (ev : Event) (rest : list Event) (r : Response)
    (d : list (string * json)) (status progress : json) :
  is_blank workflow_url = false ->
  0 < id -> 0 < interval -> 0 < timeout ->
  script w = (evs ++ ev :: rest)%list ->
  Forall pending_job evs ->
  answers ev r (JObj d) ->
  lookup "status" d = Some status ->
  lookup "progress" d = Some progress ->
  status_in status (WORKFLOW_COMPLETED_STATUSES K) = true ->
  evs = [] \/
  total_latency evs + (Z.of_nat (List.length evs) - 1) * (interval * hz)
    <= timeout * hz ->
  let after rq :=
    after_requests w (evs ++ [ev]) rest rq (S (List.length evs))
      (Z.of_nat (List.length evs) * (interval * hz)) in
  poll_workflow workflow_url interval timeout w
    = (Ok r, after (url_request workflow_url)) /\
  poll_workflow_to_completion id interval timeout w
    = (Ok (JObj d), after (workflow_request id)) /\
  poll_geohaz_job_to_completion id interval timeout w
    = (Ok (JObj d), after (geohaz_request id)).
Proof.
  intros Hu Hid Hi Ht Hs HP Ha Hst Hpr Hin Hbudget after.
  assert (Hse : status_in (status_or_empty d) (WORKFLOW_COMPLETED_STATUSES K) = true)
    by (unfold status_or_empty; now rewrite Hst).
  rewrite (poll_workflow_start _ _ _ _ Hu Hi Ht).
  rewrite (poll_workflow_to_completion_start _ _ _ _ Hid Hi Ht).
  rewrite (poll_geohaz_job_to_completion_start _ _ _ _ Hid Hi Ht).
  split; [| split].
  - apply (loop_returns_after_pending _ _
             (fun ev0 => workflow_timeout timeout (observed_status ev0))
             interval timeout); auto.
    + intros; now apply poll_workflow_tick_on_pending.
    + intros w0 Hs0. now apply poll_workflow_tick_completed with (d := d).
  - apply (loop_returns_after_pending _ _
             (fun ev0 => job_timeout id timeout (observed_status ev0))
             interval timeout); auto.
    + intros; now apply poll_workflow_to_completion_tick_on_pending.
    + intros w0 Hs0.
      now apply poll_workflow_to_completion_tick_completed
        with (r := r) (status := status) (progress := progress).
  - apply (loop_returns_after_pending _ _
             (fun ev0 => geohaz_timeout id timeout (observed_status ev0))
             interval timeout); auto.
    + intros; now apply poll_geohaz_job_to_completion_tick_on_pending.
    + intros w0 Hs0.
      now apply poll_geohaz_job_to_completion_tick_completed
        with (r := r) (status := status) (progress := progress).
Qed.

(** X2. No single-handle poll goes on for ever: over records whose status
    is never in COMPLETED, each poller has raised its timeout error by the
    tick after which the sleeps alone exceed the timeout, that is within
    [n] fetches as soon as [(n - 1) * interval > timeout]; the message holds
    the status of the reply of the tick that raised. *)
Theorem polls_time_out_within_bound
    (workflow_url : string) (id interval timeout : Z)
    (w : World) (evs rest : list Event) :
  is_blank workflow_url = false ->
  0 < id -> 0 < interval -> 0 < timeout ->
  script w = (evs ++ rest)%list ->
  Forall pending_job evs ->
  timeout < (Z.of_nat (List.length evs) - 1) * interval ->
  (exists ev w' n,
     In ev evs /\
     poll_workflow workflow_url interval timeout w
       = (Raise (workflow_timeout timeout (observed_status ev)), w') /\
     (1 <= n <= List.length evs)%nat /\
     sent w' = (sent w ++ repeat (url_request workflow_url) n)%list) /\
  (exists ev w' n,
     In ev evs /\
     poll_workflow_to_completion id interval timeout w
       = (Raise (job_timeout id timeout (observed_status ev)), w') /\
     (1 <= n <= List.length evs)%nat /\
     sent w' = (sent w ++ repeat (workflow_request id) n)%list) /\
  (exists ev w' n,
     In ev evs /\
     poll_geohaz_job_to_completion id interval timeout w
       = (Raise (geohaz_timeout id timeout (observed_status ev)), w') /\
     (1 <= n <= List.length evs)%nat /\
     sent w' = (sent w ++ repeat (geohaz_request id) n)%list).
Proof.
  intros Hu Hid Hi Ht Hs HP Hover.
  assert (Hne : evs <> []).
  { intros ->. change (Z.of_nat (List.length (@nil Event))) with 0 in Hover. lia. }
  assert (Hfuel : (List.length evs <= S (List.length (script w)))%nat)
    by (rewrite Hs, length_app; lia).
  assert (Hticks : timeout * hz
                   < clock w - clock w + (Z.of_nat (List.length evs) - 1) * (interval * hz)).
  { rewrite Z.mul_assoc, Z.sub_diag, Z.add_0_l.
    apply Z.mul_lt_mono_pos_r; assumption. }
  rewrite (poll_workflow_start _ _ _ _ Hu Hi Ht).
  rewrite (poll_workflow_to_completion_start _ _ _ _ Hid Hi Ht).
  rewrite (poll_geohaz_job_to_completion_start _ _ _ _ Hid Hi Ht).
  unfold loop. split; [| split].
  - apply (loop_times_out _ (url_request workflow_url) pending_job
             (fun ev0 => workflow_timeout timeout (observed_status ev0))
             (clock w) interval timeout) with (rest := rest); auto; try lia.
    intros; now apply poll_workflow_tick_on_pending.
  - apply (loop_times_out _ (workflow_request id) pending_job
             (fun ev0 => job_timeout id timeout (observed_status ev0))
             (clock w) interval timeout) with (rest := rest); auto; try lia.
    intros; now apply poll_workflow_to_completion_tick_on_pending.
  - apply (loop_times_out _ (geohaz_request id) pending_job
             (fun ev0 => geohaz_timeout id timeout (observed_status ev0))
             (clock w) interval timeout) with (rest := rest); auto; try lia.
    intros; now apply poll_geohaz_job_to_completion_tick_on_pending.
Qed.

(** ** Further properties: validation and the classes of the errors *)

Lemma bind_inv_raise {A B : Type} (m : M A) (f : A -> M B) (w w' : World) (e : exn) :
  bind m f w = (Raise e, w') ->
  m w = (Raise e, w') \/ exists a w1, m w = (Ok a, w1) /\ f a w1 = (Raise e, w').
Proof.
  unfold bind. destruct (m w) as [[a | e0 |] w1]; intros H; try discriminate.
  - right. now exists a, w1.
  - left. now injection H as <- <-.
Qed.

Lemma validate_positive_int_result (value : json) (name : string) (w : World) :
  validate_positive_int value name w = (Ok tt, w) \/
  exists m, validate_positive_int value name w = (Raise (Exn IRPValidationError m), w).
Proof.
  unfold validate_positive_int, raise, ret.
  destruct (as_int value) as [z |]; [destruct (z <=? 0) |]; eauto.
Qed.

Lemma validate_positive_int_rejects (z : Z) (name : string) (w : World) :
  z <= 0 ->
  exists m, validate_positive_int (JInt z) name w = (Raise (Exn IRPValidationError m), w).
Proof.
  intros Hz. unfold validate_positive_int, raise. cbn [as_int].
  destruct (Z.leb_spec z 0); [eauto | lia].
Qed.

Lemma validate_non_empty_string_result (value : json) (name : string) (w : World) :
  validate_non_empty_string value name w = (Ok tt, w) \/
  exists m, validate_non_empty_string value name w
            = (Raise (Exn IRPValidationError m), w).
Proof.
  unfold validate_non_empty_string, raise, ret.
  destruct value as [| | | s | |]; eauto. destruct (is_blank s); eauto.
Qed.

Lemma validate_list_not_empty_result (value : json) (name : string) (w : World) :
  validate_list_not_empty value name w = (Ok tt, w) \/
  exists m, validate_list_not_empty value name w = (Raise (Exn IRPValidationError m), w).
Proof.
  unfold validate_list_not_empty, raise, ret.
  destruct value as [| | | | [| x l] |]; eauto.
Qed.

(** After a validator, either its validation error or the rest. *)
Lemma after_validator {A : Type} (v : M unit) (k : M A) (w : World) :
  (v w = (Ok tt, w) \/ exists m, v w = (Raise (Exn IRPValidationError m), w)) ->
  (exists m, k w = (Raise (Exn IRPValidationError m), w)) ->
  exists m, (v ;; k) w = (Raise (Exn IRPValidationError m), w).
Proof.
  intros [Hok | [m Hm]] Hk.
  - now rewrite (bind_ok _ _ _ _ _ Hok).
  - exists m. now apply bind_raise.
Qed.

Lemma rejected_by_validator {A : Type} (v : M unit) (k : M A) (w : World) :
  (exists m, v w = (Raise (Exn IRPValidationError m), w)) ->
  exists m, (v ;; k) w = (Raise (Exn IRPValidationError m), w).
Proof. intros [m Hm]. exists m. now apply bind_raise. Qed.

(** X3. The six polling operations check their arguments before anything
    else: with an interval or a timeout that is not positive (or a blank
    URL, an ID that is not positive, an empty list of IDs) they raise a
    validation error without reading the clock or sending a request. *)
Theorem polls_validate_first
    (workflow_url : string) (id interval timeout : Z) (ids : list Z) (w : World) :
  (is_blank workflow_url = true \/ interval <= 0 \/ timeout <= 0 ->
     exists m, poll_workflow workflow_url interval timeout w
               = (Raise (Exn IRPValidationError m), w)) /\
  (id <= 0 \/ interval <= 0 \/ timeout <= 0 ->
     (exists m, poll_workflow_to_completion id interval timeout w
                = (Raise (Exn IRPValidationError m), w)) /\
     (exists m, poll_geohaz_job_to_completion id interval timeout w
                = (Raise (Exn IRPValidationError m), w))) /\
  (ids = [] \/ interval <= 0 \/ timeout <= 0 ->
     (exists m, poll_workflow_batch_to_completion ids interval timeout w
                = (Raise (Exn IRPValidationError m), w)) /\
     (exists m, poll_import_job_batch_to_completion ids interval timeout w
                = (Raise (Exn IRPValidationError m), w)) /\
     (exists m, poll_geohaz_job_batch_to_completion ids interval timeout w
                = (Raise (Exn IRPValidationError m), w))).
Proof.
  assert (Htail : forall {A : Type} (k : M A),
            interval <= 0 \/ timeout <= 0 ->
            exists m, (validate_positive_int (JInt interval) "interval" ;;
                       validate_positive_int (JInt timeout) "timeout" ;; k) w
                      = (Raise (Exn IRPValidationError m), w)).
  { intros A k [Hi | Ht].
    - apply rejected_by_validator. now apply validate_positive_int_rejects.
    - apply after_validator; [apply validate_positive_int_result |].
      apply rejected_by_validator. now apply validate_positive_int_rejects. }
  split; [| split].
  - intros [Hu | H]; unfold poll_workflow.
    + apply rejected_by_validator. unfold validate_non_empty_string. rewrite Hu.
      unfold raise. eauto.
    + apply after_validator; [apply validate_non_empty_string_result | now apply Htail].
  - intros [Hid | H]; unfold poll_workflow_to_completion, poll_geohaz_job_to_completion.
    + split; apply rejected_by_validator; now apply validate_positive_int_rejects.
    + split; (apply after_validator; [apply validate_positive_int_result | now apply Htail]).
  - intros [-> | H]; unfold poll_workflow_batch_to_completion,
      poll_import_job_batch_to_completion, poll_geohaz_job_batch_to_completion.
    + repeat split; apply rejected_by_validator; cbn; unfold raise; eauto.
    + repeat split;
        (apply after_validator; [apply validate_list_not_empty_result | now apply Htail]).
Qed.

Lemma validate_positive_int_raises (value : json) (name : string) (w w' : World)
    (e : exn) :
  validate_positive_int value name w = (Raise e, w') -> kind e = IRPValidationError.
Proof.
  destruct (validate_positive_int_result value name w) as [H | [m H]]; rewrite H;
    [discriminate | now intros [= <- _]].
Qed.

Lemma validate_non_empty_string_raises (value : json) (name : string) (w w' : World)
    (e : exn) :
  validate_non_empty_string value name w = (Raise e, w') -> kind e = IRPValidationError.
Proof.
  destruct (validate_non_empty_string_result value name w) as [H | [m H]]; rewrite H;
    [discriminate | now intros [= <- _]].
Qed.

(** What a [try] block raises when its handler always raises [k]. *)
Lemma try_except_wraps {A : Type} (m : M A) (k : exn_kind) (f : exn -> list frag)
    (w w' : World) (e : exn) :
  try_except m (fun e0 => raise k (f e0)) w = (Raise e, w') -> kind e = k.
Proof.
  unfold try_except, raise. destruct (m w) as [[a | e0 |] w1]; intros H;
    try discriminate. now injection H as <- _.
Qed.

(** What a validated, wrapped operation raises. *)
Lemma raises_validation_or_api {A : Type} (v : M unit) (k : M A) (w w' : World)
    (e : exn) :
  (forall w0 w1 e0, v w0 = (Raise e0, w1) -> kind e0 = IRPValidationError) ->
  (forall w0 w1 e0, k w0 = (Raise e0, w1) ->
     kind e0 = IRPValidationError \/ kind e0 = IRPAPIError) ->
  (v ;; k) w = (Raise e, w') ->
  kind e = IRPValidationError \/ kind e = IRPAPIError.
Proof.
  intros Hv Hk H. apply bind_inv_raise in H.
  destruct H as [H | (a & w1 & _ & H)]; [left; eauto | eauto].
Qed.

(** X4. The operations that fetch or submit through a [try] block raise
    nothing but validation errors and API errors: whatever goes wrong with
    the request, the JSON body, the Location header or the conversion of the
    identifier is wrapped into an [IRPAPIError]. *)
Theorem wrapped_operations_raise_api_errors (w w' : World) (e : exn) :
  (forall id, get_workflow id w = (Raise e, w') ->
     kind e = IRPValidationError \/ kind e = IRPAPIError) /\
  (forall id, get_import_job id w = (Raise e, w') ->
     kind e = IRPValidationError \/ kind e = IRPAPIError) /\
  (forall id, get_geohaz_job id w = (Raise e, w') ->
     kind e = IRPValidationError \/ kind e = IRPAPIError) /\
  (forall exposure_id filter limit offset,
     search_portfolios exposure_id filter limit offset w = (Raise e, w') ->
     kind e = IRPValidationError \/ kind e = IRPAPIError) /\
  (forall exposure_id portfolio_id,
     search_accounts_by_portfolio exposure_id portfolio_id w = (Raise e, w') ->
     kind e = IRPValidationError \/ kind e = IRPAPIError) /\
  (forall edm_name portfolio_id bucket_id accounts_file_id locations_file_id
          mapping_file_id delimiter skip_lines currency append_locations,
     submit_import_job edm_name portfolio_id bucket_id accounts_file_id
       locations_file_id mapping_file_id delimiter skip_lines currency append_locations w
       = (Raise e, w') ->
     kind e = IRPValidationError \/ kind e = IRPAPIError).
Proof.
  assert (Hwrap : forall {A : Type} (m : M A) (f : exn -> list frag) w0 w1 e0,
            try_except m (fun e1 => raise IRPAPIError (f e1)) w0 = (Raise e0, w1) ->
            kind e0 = IRPValidationError \/ kind e0 = IRPAPIError).
  { intros A m f w0 w1 e0 H. right. exact (try_except_wraps _ _ _ _ _ _ H). }
  repeat split; intros.
  - unfold get_workflow in H.
    eapply raises_validation_or_api; [| | exact H];
      [apply validate_positive_int_raises | apply Hwrap].
  - unfold get_import_job in H.
    eapply raises_validation_or_api; [| | exact H];
      [apply validate_positive_int_raises | apply Hwrap].
  - unfold get_geohaz_job in H.
    eapply raises_validation_or_api; [| | exact H];
      [apply validate_positive_int_raises | apply Hwrap].
  - unfold search_portfolios in H.
    eapply raises_validation_or_api; [| | exact H];
      [apply validate_positive_int_raises | apply Hwrap].
  - unfold search_accounts_by_portfolio in H.
    eapply raises_validation_or_api; [| | exact H];
      [apply validate_positive_int_raises |].
    intros w0 w1 e0 H0.
    eapply raises_validation_or_api; [| | exact H0];
      [apply validate_positive_int_raises | apply Hwrap].
  - unfold submit_import_job in H.
    eapply raises_validation_or_api; [| | exact H];
      [apply validate_non_empty_string_raises |].
    do 5 (intros ? ? ? ?H; eapply raises_validation_or_api; [| | eassumption];
          [apply validate_positive_int_raises |]).
    apply Hwrap.
Qed.

(** X5. [poll_workflow] parses the status answer outside any [try] block:
    an answer whose body is not JSON escapes as the decoder's error, and a
    JSON body that is not an object as an [AttributeError]. On the same
    answers [poll_workflow_to_completion] raises an [IRPAPIError]. In both
    cases the poll ends on that tick, after one fetch. *)
Theorem poll_workflow_lets_parse_errors_through
    (workflow_url : string) (id interval timeout : Z)
    (w : World) (ev : Event) (rest : list Event) (r : Response) :
  is_blank workflow_url = false ->
  0 < id -> 0 < interval -> 0 < timeout ->
  script w = ev :: rest ->
  ev_reply ev = Reply r ->
  is_http_error r = false ->
  (forall d, json_body r <> Some (JObj d)) ->
  (exists e,
     poll_workflow workflow_url interval timeout w
       = (Raise e, served w ev rest (url_request workflow_url)) /\
     kind e = match json_body r with
              | None => JSONDecodeError
              | Some _ => AttributeError
              end) /\
  (exists m,
     poll_workflow_to_completion id interval timeout w
       = (Raise (Exn IRPAPIError m), served w ev rest (workflow_request id))).
Proof.
  intros Hu Hid Hi Ht Hs Hr He Hnot.
  rewrite (poll_workflow_start _ _ _ _ Hu Hi Ht).
  rewrite (poll_workflow_to_completion_start _ _ _ _ Hid Hi Ht).
  split.
  - assert (Htick : exists e,
              poll_workflow_tick workflow_url interval timeout (clock w) tt w
                = (Raise e, served w ev rest (url_request workflow_url)) /\
              kind e = match json_body r with
                       | None => JSONDecodeError
                       | Some _ => AttributeError
                       end).
    { unfold poll_workflow_tick.
      rewrite (bind_ok _ _ _ _ _ (request_served "GET" _ _ _ _ w ev rest r eq_refl Hs Hr He)).
      unfold response_json, dict_get, bind, raise, ret.
      destruct (json_body r) as [[| b | z | s | l | d] |];
        try (eexists; split; reflexivity).
      now destruct (Hnot d). }
    destruct Htick as (e & Htick & Hk). exists e. split; [| assumption].
    now apply loop_raise.
  - assert (Htick : exists m,
              poll_workflow_to_completion_tick id interval timeout (clock w) tt w
                = (Raise (Exn IRPAPIError m), served w ev rest (workflow_request id))).
    { unfold poll_workflow_to_completion_tick.
      destruct (json_body r) as [v |] eqn:Hb.
      - rewrite (bind_ok _ _ _ _ _
                   (get_workflow_served _ _ _ _ _ v Hid Hs (conj Hr (conj He Hb)))).
        unfold subscript, try_except, bind, raise, ret.
        destruct v as [| b | z | s | l | d]; try (eexists; reflexivity).
        now destruct (Hnot d).
      - eexists. apply bind_raise. unfold get_workflow.
        rewrite (bind_ok _ _ _ _ _ (validate_positive_int_ok _ _ _ Hid)).
        assert (Hin : (response <- request "GET" (GET_WORKFLOW_BY_ID K id) None [] None ;;
                       response_json response) w
                      = (Raise (Exn JSONDecodeError []),
                         served w ev rest (workflow_request id))).
        { rewrite (bind_ok _ _ _ _ _
                     (request_served "GET" _ _ _ _ w ev rest r eq_refl Hs Hr He)).
          unfold response_json. now rewrite Hb. }
        rewrite (try_except_raise _ _ _ _ _ Hin). reflexivity. }
    destruct Htick as (m & Htick). exists m. now apply loop_raise.
Qed.

(** ** Further properties: the batch pollers *)

Lemma served_after_fetches (w : World) (evs : list Event) (ev : Event)
    (rest : list Event) (rqs : list Request) (rq : Request) :
  served (after_fetches w evs (ev :: rest) rqs) ev rest rq
  = after_fetches w (evs ++ [ev]) rest (rqs ++ [rq]).
Proof.
  unfold served, after_fetches. cbn [clock sent files tables decoded].
  rewrite total_latency_app, total_latency_cons. cbn [total_latency fold_right].
  rewrite <- app_assoc. f_equal. lia.
Qed.

Lemma after_fetches_served (w : World) (ev : Event) (evs rest0 rest : list Event)
    (rq : Request) (rqs : list Request) :
  after_fetches (served w ev rest0 rq) evs rest rqs
  = after_fetches w (ev :: evs) rest (rq :: rqs).
Proof.
  unfold served, after_fetches. cbn [clock sent files tables decoded].
  rewrite total_latency_cons, <- app_assoc. f_equal. lia.
Qed.

Lemma after_no_fetches (w : World) : after_fetches w [] (script w) [] = w.
Proof.
  destruct w. unfold after_fetches. cbn. rewrite app_nil_r. f_equal. lia.
Qed.

Lemma job_record (in_progress : bool) (ev : Event) :
  job_in_progress in_progress ev ->
  exists r d status,
    answers ev r (JObj d) /\ lookup "status" d = Some status /\
    status_in status (WORKFLOW_IN_PROGRESS_STATUSES K) = in_progress /\
    record_of ev = JObj d.
Proof.
  intros (r & d & status & Ha & Hst & Hin). exists r, d, status.
  repeat (split; [assumption |]).
  destruct Ha as (Hr & _ & Hb). unfold record_of. now rewrite Hr, Hb.
Qed.

(** The scan passes over finished jobs, keeping their records. *)
Lemma geohaz_scan_finished (rest : list Event) (ids' : list Z) :
  forall (ids : list Z) (evs : list Event) (all_done : bool) (all_jobs : list json)
         (w : World),
    Forall (fun id => 0 < id) ids ->
    List.length ids = List.length evs ->
    Forall (job_in_progress false) evs ->
    script w = (evs ++ rest)%list ->
    geohaz_scan (ids ++ ids') all_done all_jobs w =
      geohaz_scan ids' (match ids with [] => all_done | _ => true end)
        (all_jobs ++ map record_of evs)
        (after_fetches w evs rest (map geohaz_request ids)).
Proof.
  induction ids as [| id ids IH]; intros evs all_done all_jobs w Hpos Hlen Hfin Hs.
  - destruct evs; [| discriminate]. cbn [app map]. rewrite app_nil_r.
    cbn [app] in Hs. rewrite <- Hs. now rewrite after_no_fetches.
  - destruct evs as [| ev evs]; [discriminate |].
    inversion Hpos as [| ? ? Hid Hpos']; subst.
    inversion Hfin as [| ? ? Hev Hfin']; subst.
    destruct (job_record false ev Hev) as (r & d & status & Ha & Hst & Hin & Hrec).
    cbn [app] in *.
    rewrite (geohaz_scan_step _ _ _ _ _ _ _ _ _ _ Hid Hs Ha Hst Hin).
    rewrite (IH evs true _ (served w ev (evs ++ rest) (geohaz_request id))
               Hpos' ltac:(cbn in Hlen; lia) Hfin' eq_refl).
    cbn [map]. rewrite after_fetches_served, Hrec, <- app_assoc. cbn [app].
    now destruct ids.
Qed.

Lemma geohaz_scan_in_progress (job_id : Z) (job_ids : list Z) (all_done : bool)
    (all_jobs : list json) (w : World) (ev : Event) (rest : list Event) :
  0 < job_id ->
  script w = ev :: rest ->
  job_in_progress true ev ->
  geohaz_scan (job_id :: job_ids) all_done all_jobs w =
    (Ok (all_done, []), served w ev rest (geohaz_request job_id)).
Proof.
  intros Hid Hs Hev.
  destruct (job_record true ev Hev) as (r & d & status & Ha & Hst & Hin & _).
  cbn [geohaz_scan].
  rewrite (bind_ok _ _ _ _ _ (get_geohaz_job_served _ _ _ _ _ _ Hid Hs Ha)).
  unfold subscript, try_except, bind, ret. rewrite Hst, Hin. reflexivity.
Qed.

Lemma poll_geohaz_job_batch_to_completion_start (job_ids : list Z)
    (interval timeout : Z) (w : World) :
  job_ids <> [] -> 0 < interval -> 0 < timeout ->
  poll_geohaz_job_batch_to_completion job_ids interval timeout w =
    loop (poll_geohaz_job_batch_to_completion_tick job_ids interval timeout (clock w)) tt w.
Proof.
  intros Hne Hi Ht. unfold poll_geohaz_job_batch_to_completion.
  assert (Hv : validate_list_not_empty (JArr (map JInt job_ids)) "job_ids" w = (Ok tt, w))
    by (destruct job_ids; [congruence | reflexivity]).
  rewrite (bind_ok _ _ _ _ _ Hv).
  rewrite (bind_ok _ _ _ _ _ (validate_positive_int_ok _ _ _ Hi)).
  rewrite (bind_ok _ _ _ _ _ (validate_positive_int_ok _ _ _ Ht)).
  reflexivity.
Qed.

(** X6. When no job of the batch is in progress,
    [poll_geohaz_job_batch_to_completion] returns on the first tick the job
    records in the order of the job IDs, after one fetch per job and no
    sleep. *)
Theorem geohaz_batch_returns_all_records
    (job_ids : list Z) (interval timeout : Z) (w : World) (evs rest : list Event) :
  job_ids <> [] ->
  Forall (fun id => 0 < id) job_ids ->
  0 < interval -> 0 < timeout ->
  List.length job_ids = List.length evs ->
  Forall (job_in_progress false) evs ->
  script w = (evs ++ rest)%list ->
  poll_geohaz_job_batch_to_completion job_ids interval timeout w
    = (Ok (map record_of evs),
       after_fetches w evs rest (map geohaz_request job_ids)).
Proof.
  intros Hne Hpos Hi Ht Hlen Hfin Hs.
  rewrite (poll_geohaz_job_batch_to_completion_start _ _ _ _ Hne Hi Ht).
  apply loop_return. unfold poll_geohaz_job_batch_to_completion_tick.
  pose proof (geohaz_scan_finished rest [] job_ids evs false [] w Hpos Hlen Hfin Hs) as H.
  rewrite app_nil_r in H. cbn [geohaz_scan app] in H. unfold ret in H.
  rewrite (bind_ok _ _ _ _ _ H). cbn [fst snd].
  destruct job_ids; [congruence | reflexivity].
Qed.

(** X7. When the first jobs of the batch are finished and a later one is
    in progress, the tick of [poll_geohaz_job_batch_to_completion] empties
    the list of records, leaves the scan with [all_completed] still set
    and returns: the batch poll ends with an empty list while a job is in
    progress, and the jobs after that one are not fetched. *)
Theorem geohaz_batch_returns_empty_list
    (done_ids : list Z) (job_id : Z) (later_ids : list Z) (interval timeout : Z)
    (w : World) (evs : list Event) (ev : Event) (rest : list Event) :
  done_ids <> [] ->
  Forall (fun id => 0 < id) done_ids ->
  0 < job_id -> 0 < interval -> 0 < timeout ->
  List.length done_ids = List.length evs ->
  Forall (job_in_progress false) evs ->
  job_in_progress true ev ->
  script w = (evs ++ ev :: rest)%list ->
  poll_geohaz_job_batch_to_completion (done_ids ++ job_id :: later_ids) interval timeout w
    = (Ok [],
       after_fetches w (evs ++ [ev]) rest (map geohaz_request (done_ids ++ [job_id]))).
Proof.
  intros Hne Hpos Hid Hi Ht Hlen Hfin Hev Hs.
  rewrite poll_geohaz_job_batch_to_completion_start; [| now destruct done_ids | | ]; auto.
  apply loop_return. unfold poll_geohaz_job_batch_to_completion_tick.
  assert (H : geohaz_scan (done_ids ++ job_id :: later_ids) false [] w
              = (Ok (true, []),
                 after_fetches w (evs ++ [ev]) rest
                   (map geohaz_request (done_ids ++ [job_id])))).
  { rewrite (geohaz_scan_finished (ev :: rest) (job_id :: later_ids) done_ids evs false []
               w Hpos Hlen Hfin Hs).
    rewrite (geohaz_scan_in_progress _ _ _ _
               (after_fetches w evs (ev :: rest) (map geohaz_request done_ids))
               ev rest Hid eq_refl Hev).
    rewrite served_after_fetches, map_app. cbn [map].
    now destruct done_ids. }
  now rewrite (bind_ok _ _ _ _ _ H).
Qed.

Lemma bind_raise_exhausted {A B : Type} (m : M A) (f : A -> M B) (w w' : World) :
  m w = (Exhausted, w') -> bind m f w = (Exhausted, w').
Proof. intros H. unfold bind. now rewrite H. Qed.

(** ** Further properties: pagination *)

Lemma page_requests_zero (workflow_ids : list Z) (limit offset : Z) :
  page_requests workflow_ids limit offset 0 = [].
Proof. reflexivity. Qed.

(** The inner loop of a batch tick over pages that leave the count short of
    the reported total, followed by a page that completes it. *)
Lemma fetch_pages_run (workflow_ids : list Z) (limit total : Z)
    (ev : Event) (rest : list Event) (r : Response) (d : list (string * json))
    (page : list json) :
  answers ev r (JObj d) ->
  lists d total page ->
  forall (evs : list Event) (pages : list (list json)) (all_workflows : list json)
         (offset : Z) (w : World) (fuel : nat),
    Forall2 (page_of total) evs pages ->
    script w = (evs ++ ev :: rest)%list ->
    Z.of_nat (List.length (all_workflows ++ List.concat pages)) < total ->
    total <= Z.of_nat (List.length (all_workflows ++ List.concat pages ++ page)) ->
    (List.length evs < fuel)%nat ->
    while_true fuel (fetch_workflows_page workflow_ids limit) (all_workflows, offset) w
      = (Ok (r, all_workflows ++ List.concat pages ++ page)%list,
         after_fetches w (evs ++ [ev]) rest
           (page_requests workflow_ids limit offset (S (List.length evs)))).
Proof.
  intros Ha Hl evs pages. revert evs.
  induction pages as [| p pages IH]; intros evs all_workflows offset w fuel HF Hs Hlt Hle Hfuel;
    inversion HF as [| e p' evs' pages' Hp HF']; subst.
  - destruct fuel as [| fuel]; [cbn in Hfuel; lia |].
    cbn [app List.concat] in *. rewrite app_nil_r in Hlt.
    rewrite (while_true_return _ _ _ _ _ _
               (fetch_workflows_page_last _ _ _ _ _ _ _ _ _ _ _ Hs Ha Hl Hle)).
    f_equal. unfold served, after_fetches, page_requests. cbn.
    rewrite Z.mul_0_r, !Z.add_0_r. reflexivity.
  - destruct fuel as [| fuel]; [cbn in Hfuel; lia |].
    destruct Hp as (r0 & d0 & Ha0 & Hl0).
    cbn [app List.concat List.length] in *.
    assert (Hshort : Z.of_nat (List.length (all_workflows ++ p)) < total).
    { rewrite !length_app in *. lia. }
    rewrite (while_true_again _ _ _ _ _ _
               (fetch_workflows_page_more _ _ _ _ _ _ _ _ _ _ _ Hs Ha0 Hl0 Hshort)).
    rewrite (IH evs' (all_workflows ++ p)%list (offset + limit)
               (served w e (evs' ++ ev :: rest) (page_request workflow_ids limit offset))
               fuel HF' eq_refl).
    + rewrite after_fetches_served, <- page_requests_succ, <- !app_assoc. reflexivity.
    + rewrite !length_app in *. lia.
    + rewrite !length_app in *. lia.
    + lia.
Qed.

Lemma fetch_workflows_page_exhausted (workflow_ids : list Z) (limit : Z)
    (st : list json * Z) (w : World) :
  script w = [] ->
  fetch_workflows_page workflow_ids limit st w = (Exhausted, w).
Proof.
  intros Hs. unfold fetch_workflows_page. cbv zeta.
  apply bind_raise_exhausted.
  unfold request.
  rewrite (bind_ok _ _ _ _ _ (validate_non_empty_string_ok "GET" "method" w eq_refl)).
  now rewrite Hs.
Qed.

(** The inner loop of a batch tick over pages that all leave the count short
    of the reported total. *)
Lemma fetch_pages_short (workflow_ids : list Z) (limit total : Z)
    (evs : list Event) (pages : list (list json)) :
  Forall2 (page_of total) evs pages ->
  forall (all_workflows : list json) (offset : Z) (w : World) (fuel : nat),
    script w = evs ->
    Z.of_nat (List.length (all_workflows ++ List.concat pages)) < total ->
    (List.length evs < fuel)%nat ->
    while_true fuel (fetch_workflows_page workflow_ids limit) (all_workflows, offset) w
      = (@Exhausted (Response * list json),
         after_fetches w evs []
           (page_requests workflow_ids limit offset (List.length evs))).
Proof.
  induction 1 as [| e p evs pages Hp HF IH];
    intros all_workflows offset w fuel Hs Hlt Hfuel;
    (destruct fuel as [| fuel]; [cbn in Hfuel; lia |]).
  - cbn [while_true].
    rewrite (bind_raise_exhausted _ _ _ _ (fetch_workflows_page_exhausted _ _ _ _ Hs)).
    rewrite page_requests_zero. rewrite <- Hs at 2. now rewrite after_no_fetches.
  - destruct Hp as (r0 & d0 & Ha0 & Hl0).
    cbn [app List.concat List.length] in *.
    assert (Hshort : Z.of_nat (List.length (all_workflows ++ p)) < total).
    { rewrite !length_app in *. lia. }
    rewrite (while_true_again _ _ _ _ _ _
               (fetch_workflows_page_more _ _ _ _ _ _ _ _ _ _ _ Hs Ha0 Hl0 Hshort)).
    rewrite (IH (all_workflows ++ p)%list (offset + limit)
               (served w e evs (page_request workflow_ids limit offset))
               fuel eq_refl).
    + now rewrite after_fetches_served, <- page_requests_succ.
    + rewrite !length_app in *. lia.
    + lia.
Qed.

Lemma poll_batch_start (workflow_ids : list Z) (interval timeout : Z) (w : World) :
  workflow_ids <> [] -> 0 < interval -> 0 < timeout ->
  poll_workflow_batch_to_completion workflow_ids interval timeout w =
    loop (poll_workflow_batch_to_completion_tick workflow_ids interval timeout (clock w))
      tt w /\
  poll_import_job_batch_to_completion workflow_ids interval timeout w =
    loop (poll_import_job_batch_to_completion_tick workflow_ids interval timeout (clock w))
      tt w.
Proof.
  intros Hne Hi Ht.
  unfold poll_workflow_batch_to_completion, poll_import_job_batch_to_completion.
  assert (Hv : validate_list_not_empty (JArr (map JInt workflow_ids)) "workflow_ids" w
               = (Ok tt, w))
    by (destruct workflow_ids; [congruence | reflexivity]).
  rewrite !(bind_ok _ _ _ _ _ Hv).
  rewrite !(bind_ok _ _ _ _ _ (validate_positive_int_ok _ _ _ Hi)).
  rewrite !(bind_ok _ _ _ _ _ (validate_positive_int_ok _ _ _ Ht)).
  split; reflexivity.
Qed.

(** X8. A batch tick collects the pages of the listing in order: over pages
    that leave the number of workflows fetched short of the reported total,
    followed by the page that completes it, with no workflow in progress,
    [poll_import_job_batch_to_completion] returns the concatenation of the
    pages and [poll_workflow_batch_to_completion] the answer of the last
    page, after one request per page at offsets 0, 100, 200, ... *)
Theorem batch_poll_collects_pages
    (workflow_ids : list Z) (interval timeout total : Z)
    (w : World) (evs : list Event) (pages : list (list json))
    (ev : Event) (rest : list Event) (r : Response) (d : list (string * json))
    (page : list json) :
  workflow_ids <> [] -> 0 < interval -> 0 < timeout ->
  script w = (evs ++ ev :: rest)%list ->
  Forall2 (page_of total) evs pages ->
  answers ev r (JObj d) ->
  lists d total page ->
  Z.of_nat (List.length (List.concat pages)) < total ->
  total <= Z.of_nat (List.length (List.concat pages ++ page)) ->
  Forall not_in_progress (List.concat pages ++ page) ->
  let w' := after_fetches w (evs ++ [ev]) rest
              (page_requests workflow_ids 100 0 (S (List.length evs))) in
  poll_import_job_batch_to_completion workflow_ids interval timeout w
    = (Ok (List.concat pages ++ page)%list, w') /\
  poll_workflow_batch_to_completion workflow_ids interval timeout w = (Ok r, w').
Proof.
  intros Hne Hi Ht Hs HF Ha Hl Hlt Hle Hdone w'.
  destruct (poll_batch_start workflow_ids interval timeout w Hne Hi Ht) as [-> ->].
  assert (Hloop : loop (fetch_workflows_page workflow_ids 100) ([], 0) w
                  = (Ok (r, List.concat pages ++ page)%list, w')).
  { unfold loop.
    apply (fetch_pages_run workflow_ids 100 total ev rest r d page Ha Hl evs pages [] 0 w);
      auto. rewrite Hs, length_app. cbn [List.length]. lia. }
  split; apply loop_return.
  - unfold poll_import_job_batch_to_completion_tick.
    rewrite (bind_ok _ _ _ _ _ Hloop). cbn [fst snd].
    now rewrite (bind_ok _ _ _ _ _ (all_completed_finished _ _ Hdone)).
  - unfold poll_workflow_batch_to_completion_tick.
    rewrite (bind_ok _ _ _ _ _ Hloop). cbn [fst snd].
    now rewrite (bind_ok _ _ _ _ _ (all_completed_finished _ _ Hdone)).
Qed.

(** X9. The timeout of a batch poll is tested between ticks only. While
    the listing keeps reporting more matches than its pages have delivered,
    the tick goes on requesting pages, whatever the timeout and however long
    the replies take: over any number of such replies the batch pollers have
    made one page request per reply and have neither returned nor raised. *)
Theorem batch_tick_pages_without_timeout
    (workflow_ids : list Z) (interval timeout total : Z)
    (w : World) (pages : list (list json)) :
  workflow_ids <> [] -> 0 < interval -> 0 < timeout ->
  Forall2 (page_of total) (script w) pages ->
  Z.of_nat (List.length (List.concat pages)) < total ->
  let w' := after_fetches w (script w) []
              (page_requests workflow_ids 100 0 (List.length (script w))) in
  poll_workflow_batch_to_completion workflow_ids interval timeout w = (Exhausted, w') /\
  poll_import_job_batch_to_completion workflow_ids interval timeout w = (Exhausted, w').
Proof.
  intros Hne Hi Ht HF Hlt w'.
  destruct (poll_batch_start workflow_ids interval timeout w Hne Hi Ht) as [-> ->].
  assert (Hloop : loop (fetch_workflows_page workflow_ids 100) ([], 0) w
                  = (Exhausted, w')).
  { unfold loop.
    apply (fetch_pages_short workflow_ids 100 total (script w) pages HF [] 0 w); auto. }
  split; unfold loop; cbn [while_true]; apply bind_raise_exhausted.
  - unfold poll_workflow_batch_to_completion_tick.
    apply bind_raise_exhausted. exact Hloop.
  - unfold poll_import_job_batch_to_completion_tick.
    apply bind_raise_exhausted. exact Hloop.
Qed.

Lemma portfolio_page_requests_succ (exposure_id : json) (filter : string)
    (limit offset : Z) (n : nat) :
  portfolio_page_requests exposure_id filter limit offset (S n) =
  portfolio_page_request exposure_id filter limit offset
    :: portfolio_page_requests exposure_id filter limit (offset + limit) n.
Proof.
  unfold portfolio_page_requests. cbn [seq map]. rewrite <- seq_shift, map_map.
  f_equal; [f_equal; lia |]. apply map_ext. intros i. f_equal. lia.
Qed.

Lemma search_portfolios_answered (id : Z) (filter : string) (limit offset : Z)
    (w : World) (ev : Event) (rest : list Event) (r : Response) (v : json) :
  0 < id ->
  script w = ev :: rest ->
  answers ev r v ->
  search_portfolios (JInt id) filter limit offset w
    = (Ok v, served w ev rest (portfolio_page_request (JInt id) filter limit offset)).
Proof.
  intros Hpos Hs (Hr & He & Hb). unfold search_portfolios.
  rewrite (bind_ok _ _ _ _ _ (validate_positive_int_ok _ _ _ Hpos)).
  apply try_except_ok.
  rewrite (bind_ok _ _ _ _ _ (request_served "GET" _ _ _ _ w ev rest r eq_refl Hs Hr He)).
  unfold response_json. rewrite Hb. unfold ret, portfolio_page_request.
  now destruct filter.
Qed.

Lemma search_portfolios_page_step (id : Z) (filter : string) (limit offset : Z)
    (all_results : list json) (w : World) (ev : Event) (rest : list Event)
    (page : list json) :
  0 < id ->
  script w = ev :: rest ->
  portfolios_of ev page ->
  search_portfolios_page (JInt id) filter limit (all_results, offset) w =
    (Ok (if Z.of_nat (List.length page) <? limit
         then Return (all_results ++ page)%list
         else Again ((all_results ++ page)%list, offset + limit)),
     served w ev rest (portfolio_page_request (JInt id) filter limit offset)).
Proof.
  intros Hpos Hs (r & Ha). unfold search_portfolios_page. cbn [fst snd].
  rewrite (bind_ok _ _ _ _ _ (search_portfolios_answered _ _ _ _ _ _ _ _ _ Hpos Hs Ha)).
  cbn [iterate py_len]. rewrite !bind_ret.
  now destruct (Z.of_nat (List.length page) <? limit).
Qed.

(** The loop of [search_portfolios_paginated] over full pages followed by a
    short one. *)
Lemma search_portfolios_pages_run (id : Z) (filter : string) (limit : Z)
    (ev : Event) (rest : list Event) (page : list json)
    (evs : list Event) (pages : list (list json)) :
  0 < id ->
  portfolios_of ev page ->
  Z.of_nat (List.length page) < limit ->
  Forall2 portfolios_of evs pages ->
  Forall (fun p => limit <= Z.of_nat (List.length p)) pages ->
  forall (all_results : list json) (offset : Z) (w : World) (fuel : nat),
    script w = (evs ++ ev :: rest)%list ->
    (List.length evs < fuel)%nat ->
    while_true fuel (search_portfolios_page (JInt id) filter limit) (all_results, offset) w
      = (Ok (all_results ++ List.concat pages ++ page)%list,
         after_fetches w (evs ++ [ev]) rest
           (portfolio_page_requests (JInt id) filter limit offset (S (List.length evs)))).
Proof.
  intros Hpos Hlast Hshort HF.
  induction HF as [| e p evs pages Hp HF IH];
    intros Hfull all_results offset w fuel Hs Hfuel;
    (destruct fuel as [| fuel]; [cbn in Hfuel; lia |]).
  - cbn [app List.concat List.length] in *.
    pose proof (search_portfolios_page_step id filter limit offset all_results
                  w ev rest page Hpos Hs Hlast) as Hstep.
    destruct (Z.ltb_spec (Z.of_nat (List.length page)) limit); [| lia].
    rewrite (while_true_return _ _ _ _ _ _ Hstep).
    f_equal. unfold served, after_fetches, portfolio_page_requests. cbn.
    rewrite Z.mul_0_r, !Z.add_0_r. reflexivity.
  - inversion Hfull as [| p' pages' Hp_full Hrest]; subst.
    cbn [app List.concat List.length] in *.
    pose proof (search_portfolios_page_step id filter limit offset all_results
                  w e (evs ++ ev :: rest) p Hpos Hs Hp) as Hstep.
    destruct (Z.ltb_spec (Z.of_nat (List.length p)) limit); [lia |].
    rewrite (while_true_again _ _ _ _ _ _ Hstep).
    rewrite (IH Hrest (all_results ++ p)%list (offset + limit)
               (served w e (evs ++ ev :: rest)
                  (portfolio_page_request (JInt id) filter limit offset))
               fuel eq_refl); [| lia].
    now rewrite after_fetches_served, <- portfolio_page_requests_succ, <- !app_assoc.
Qed.

(** X10. [search_portfolios_paginated] concatenates the pages in order and
    stops at the first page shorter than 100: over pages of at least 100
    entries followed by a shorter one it returns their concatenation after
    one request per page, at offsets 0, 100, 200, ..., each with the limit
    100 and the caller's filter, and it asks for no page after the short
    one. *)
Theorem paginated_search_concatenates_pages (id : Z) (filter : string)
    (w : World) (evs : list Event) (pages : list (list json))
    (ev : Event) (rest : list Event) (page : list json) :
  0 < id ->
  script w = (evs ++ ev :: rest)%list ->
  Forall2 portfolios_of evs pages ->
  Forall (fun p => 100 <= Z.of_nat (List.length p)) pages ->
  portfolios_of ev page ->
  Z.of_nat (List.length page) < 100 ->
  search_portfolios_paginated (JInt id) filter w
    = (Ok (List.concat pages ++ page)%list,
       after_fetches w (evs ++ [ev]) rest
         (portfolio_page_requests (JInt id) filter 100 0 (S (List.length evs)))).
Proof.
  intros Hpos Hs HF Hfull Hlast Hshort. unfold search_portfolios_paginated.
  rewrite (bind_ok _ _ _ _ _ (validate_positive_int_ok _ _ _ Hpos)).
  unfold loop.
  apply (search_portfolios_pages_run id filter 100 ev rest page evs pages
           Hpos Hlast Hshort HF Hfull [] 0 w); auto.
  rewrite Hs, length_app. cbn [List.length]. lia.
Qed.

(** ** Further properties: the Location header *)

Lemma string_app_assoc (a b c : string) : ((a ++ b) ++ c = a ++ (b ++ c))%string.
Proof. induction a as [| x a IH]; cbn; [reflexivity | now rewrite IH]. Qed.

Lemma string_app_nil_r (a : string) : (a ++ EmptyString = a)%string.
Proof. induction a as [| x a IH]; cbn; [reflexivity | now rewrite IH]. Qed.

Lemma last_segment_from_cons (acc : string) (c : ascii) (r : string) :
  last_segment_from acc (String c r) =
    if Ascii.eqb c "/" then last_segment_from EmptyString r
    else last_segment_from (acc ++ String c EmptyString) r.
Proof. destruct c as [[] [] [] [] [] [] [] []]; reflexivity. Qed.

Lemma slash_free_cons (c : ascii) (r : string) :
  slash_free (String c r) = negb (Ascii.eqb c "/") && slash_free r.
Proof. destruct c as [[] [] [] [] [] [] [] []]; reflexivity. Qed.


Lemma slash_free_app (a b : string) :
  slash_free (a ++ b) = slash_free a && slash_free b.
Proof.
  induction a as [| c a IH]; [reflexivity |].
  cbn [String.append]. rewrite !slash_free_cons, IH. now rewrite andb_assoc.
Qed.

Lemma last_segment_from_slash_free (s : string) :
  forall acc, slash_free s = true -> last_segment_from acc s = (acc ++ s)%string.
Proof.
  induction s as [| c s IH]; intros acc H.
  - cbn. now rewrite string_app_nil_r.
  - rewrite slash_free_cons in H. apply andb_prop in H. destruct H as [Hc Hs].
    rewrite last_segment_from_cons.
    destruct (Ascii.eqb c "/"); [discriminate |].
    rewrite (IH _ Hs), string_app_assoc. reflexivity.
Qed.

Lemma last_segment_from_path (base id : string) :
  slash_free id = true ->
  forall acc, last_segment_from acc (base ++ String "/" id) = id.
Proof.
  intros Hid. induction base as [| c base IH]; intros acc.
  - cbn [String.append]. rewrite last_segment_from_cons. cbn [Ascii.eqb Bool.eqb].
    now rewrite (last_segment_from_slash_free _ _ Hid).
  - cbn [String.append]. rewrite last_segment_from_cons.
    destruct (Ascii.eqb c "/"); apply IH.
Qed.

Lemma last_segment_from_spec (s : string) :
  forall acc, slash_free acc = true ->
    slash_free (last_segment_from acc s) = true /\
    exists base, (acc ++ s = base ++ last_segment_from acc s)%string /\
                 (base = EmptyString \/ exists b, base = (b ++ "/")%string).
Proof.
  induction s as [| c s IH]; intros acc Hacc.
  - cbn [last_segment_from]. split; [assumption |].
    exists EmptyString. rewrite string_app_nil_r. auto.
  - rewrite last_segment_from_cons. destruct (Ascii.eqb_spec c "/") as [-> | Hc].
    + destruct (IH EmptyString eq_refl) as (Hfree & base & Heq & Hbase).
      split; [assumption |]. cbn [String.append] in Heq.
      exists (acc ++ String "/" base)%string. split.
      * rewrite string_app_assoc. cbn [String.append]. now rewrite <- Heq.
      * right. destruct Hbase as [-> | (b & ->)].
        -- exists acc. reflexivity.
        -- exists (acc ++ String "/" b)%string. rewrite string_app_assoc. reflexivity.
    + destruct (IH (acc ++ String c EmptyString)%string) as (Hfree & base & Heq & Hbase).
      { rewrite slash_free_app, Hacc, slash_free_cons.
        apply Ascii.eqb_neq in Hc. now rewrite Hc. }
      split; [assumption |]. exists base. split; [| assumption].
      rewrite <- Heq, string_app_assoc. reflexivity.
Qed.

(** X11. [extract_id_from_location_header] gives back the identifier that
    a Location header ends with: on a header made of any text, a slash and
    an identifier without slash, it returns the identifier when it is not
    empty, and raises the API error that quotes the whole header when the
    header ends with the slash. The world is left as it was. *)
Theorem location_id_round_trip (r : Response) (error_context base id : string)
    (w : World) :
  lookup "location" (headers r) = Some (base ++ String "/" id)%string ->
  slash_free id = true ->
  extract_id_from_location_header r error_context w =
    (match id with
     | EmptyString =>
         Raise (Exn IRPAPIError
                  [Lit "Could not extract ID from Location header: ";
                   FStr (base ++ "/")])
     | _ => Ok id
     end, w).
Proof.
  intros Hloc Hid. unfold extract_id_from_location_header, get_location_header.
  rewrite Hloc, bind_ret. unfold last_segment.
  rewrite (last_segment_from_path _ _ Hid). now destruct id.
Qed.

(** X12. Whatever the response, an identifier that
    [extract_id_from_location_header] returns is not empty, holds no slash,
    and is the end of the Location header: the header is the identifier
    itself, or a text that ends with a slash followed by the identifier. *)
Theorem extracted_id_ends_location (r : Response) (error_context id : string)
    (w w' : World) :
  extract_id_from_location_header r error_context w = (Ok id, w') ->
  w' = w /\ id <> EmptyString /\ slash_free id = true /\
  exists base,
    lookup "location" (headers r) = Some (base ++ id)%string /\
    (base = EmptyString \/ exists b, base = (b ++ "/")%string).
Proof.
  unfold extract_id_from_location_header, get_location_header.
  destruct (lookup "location" (headers r)) as [location |]; [| discriminate].
  rewrite bind_ret. unfold last_segment.
  destruct (last_segment_from_spec location EmptyString eq_refl)
    as (Hfree & base & Heq & Hbase).
  destruct (last_segment_from EmptyString location) as [| c rest] eqn:E; [discriminate |].
  intros [= <- <-]. repeat split; [discriminate | assumption |].
  exists base. cbn [String.append] in Heq. now rewrite Heq.
Qed.

(** ** Further properties: the analysis identifier *)

(** X13. [extract_analysis_id_from_workflow_response] returns the value of
    [analysisId] inside [output] exactly when the workflow is a dict whose
    [output] is a dict with that key; on any other workflow it raises an API
    error: it never returns a value for a field that is missing. *)
Theorem analysis_id_extraction (workflow : json) (w : World) :
  (forall d o v,
     workflow = JObj d -> lookup "output" d = Some (JObj o) ->
     lookup "analysisId" o = Some v ->
     extract_analysis_id_from_workflow_response workflow w = (Ok v, w)) /\
  (forall v w',
     extract_analysis_id_from_workflow_response workflow w = (Ok v, w') ->
     exists d o, workflow = JObj d /\ lookup "output" d = Some (JObj o) /\
                 lookup "analysisId" o = Some v) /\
  (forall e w',
     extract_analysis_id_from_workflow_response workflow w = (Raise e, w') ->
     kind e = IRPAPIError /\ w' = w) /\
  (forall w',
     extract_analysis_id_from_workflow_response workflow w <> (Exhausted, w')).
Proof.
  unfold extract_analysis_id_from_workflow_response, try_except, subscript, bind, ret,
    raise.
  split; [| split; [| split]].
  - intros d o v -> Ho Hv. now rewrite Ho, Hv.
  - intros v w'. destruct workflow as [| | | | | d]; try discriminate.
    destruct (lookup "output" d) as [output |] eqn:Ho; [| discriminate].
    destruct output as [| | | | | o]; try discriminate.
    destruct (lookup "analysisId" o) as [x |] eqn:Hx; [| discriminate].
    intros [= <- _]. now exists d, o.
  - intros e w'. destruct workflow as [| | | | | d]; try (now intros [= <- <-]).
    destruct (lookup "output" d) as [output |]; [| now intros [= <- <-]].
    destruct output as [| | | | | o]; try (now intros [= <- <-]).
    destruct (lookup "analysisId" o); [discriminate | now intros [= <- <-]].
  - intros w'. destruct workflow as [| | | | | d]; try discriminate.
    destruct (lookup "output" d) as [output |]; [| discriminate].
    destruct output as [| | | | | o]; try discriminate.
    destruct (lookup "analysisId" o); discriminate.
Qed.

(** ** Further properties: credentials and the upload *)





(** ** Further properties: the presigned parameters *)


(** ** Further properties: the cycle type's directory *)

Lemma first_directory_sound (target_dir : string) (entries : list (string * bool))
    (name : string) :
  first_directory target_dir entries = Some name ->
  In (name, true) entries /\ lower name = target_dir.
Proof.
  induction entries as [| [n is_dir] entries IH]; [discriminate |].
  cbn [first_directory]. destruct is_dir; cbn [andb].
  - destruct (String.eqb_spec (lower n) target_dir) as [He | _].
    + intros [= <-]. split; [now left | assumption].
    + intros H. destruct (IH H). split; [now right | assumption].
  - intros H. destruct (IH H). split; [now right | assumption].
Qed.

Lemma first_directory_complete (target_dir : string) (entries : list (string * bool))
    (name : string) :
  In (name, true) entries -> lower name = target_dir ->
  exists found, first_directory target_dir entries = Some found.
Proof.
  intros Hin Hl. induction entries as [| [n is_dir] entries IH]; [contradiction |].
  cbn [first_directory]. destruct Hin as [[= -> ->] | Hin].
  - cbn [andb]. rewrite Hl, String.eqb_refl. now exists name.
  - destruct (is_dir && String.eqb (lower n) target_dir); [now exists n | now apply IH].
Qed.

(** X16. [resolve_cycle_type_directory] returns a name exactly when the
    mapping directory holds a sub-directory whose name, in lower case, is
    the cycle type in lower case, or [test] for a cycle type that contains
    [test] in any case; the name it returns is that of such a sub-directory,
    as the file system spells it. Entries that are not directories never
    match. *)
Theorem cycle_directory_resolution (entries : list (string * bool))
    (cycle_type : string) (w : World) :
  (forall name w',
     resolve_cycle_type_directory (Some entries) cycle_type w = (Ok name, w') ->
     w' = w /\ In (name, true) entries /\ lower name = cycle_directory cycle_type) /\
  (forall name,
     In (name, true) entries -> lower name = cycle_directory cycle_type ->
     exists found,
       resolve_cycle_type_directory (Some entries) cycle_type w = (Ok found, w)) /\
  ((forall name, In (name, true) entries -> lower name <> cycle_directory cycle_type) ->
   resolve_cycle_type_directory (Some entries) cycle_type w
     = (Raise (Exn IRPValidationError
          [Lit "Portfolio mapping directory not found for cycle type '";
           FStr cycle_type; Lit "'. ";
           Lit "Expected directory: portfolio_mapping/";
           FStr (cycle_directory cycle_type)]), w)).
Proof.
  unfold resolve_cycle_type_directory. cbv zeta. fold (cycle_directory cycle_type).
  split; [| split].
  - intros name w'.
    destruct (first_directory (cycle_directory cycle_type) entries) as [found |] eqn:E;
      [| discriminate].
    intros [= <- <-]. split; [reflexivity |]. now apply first_directory_sound.
  - intros name Hin Hl.
    destruct (first_directory_complete _ _ _ Hin Hl) as (found & ->). now exists found.
  - intros Hnone.
    destruct (first_directory (cycle_directory cycle_type) entries) as [found |] eqn:E;
      [| reflexivity].
    destruct (first_directory_sound _ _ _ E) as (Hin & Hl). now destruct (Hnone _ Hin).
Qed.

(** ** Further properties: the lookup by name *)

Lemma first_named_sound (name_field target_name : string) (data_list : list json) :
  forall (w w' : World) (item : json),
    first_named data_list name_field target_name w = (Ok (Some item), w') ->
    w' = w /\
    exists before after,
      data_list = (before ++ item :: after)%list /\
      named_as name_field target_name item /\
      Forall (fun other => ~ named_as name_field target_name other) before.
Proof.
  induction data_list as [| x rest IH]; intros w w' item H.
  - discriminate.
  - cbn [first_named] in H. unfold dict_get in H.
    destruct x as [| | | | | d]; try discriminate.
    rewrite bind_ret in H.
    assert (Hskip : lookup name_field d <> Some (JStr target_name) ->
                    first_named rest name_field target_name w = (Ok (Some item), w') ->
                    w' = w /\
                    exists before after,
                      JObj d :: rest = (before ++ item :: after)%list /\
                      named_as name_field target_name item /\
                      Forall (fun other => ~ named_as name_field target_name other) before).
    { intros Hd Hr. destruct (IH _ _ _ Hr) as (-> & before & after & -> & Hn & Hb).
      split; [reflexivity |]. exists (JObj d :: before), after. repeat split; auto.
      constructor; [| assumption]. intros (d' & [= <-] & Hd'). contradiction. }
    destruct (lookup name_field d) as [[| | | s | |] |] eqn:Hd;
      try (apply Hskip; [discriminate | assumption]).
    destruct (String.eqb_spec s target_name) as [-> | Hne].
    + injection H as <- <-. split; [reflexivity |].
      exists [], rest. repeat split; [| constructor]. now exists d.
    + apply Hskip; [congruence | assumption].
Qed.

(** X17. [find_reference_data_by_name] returns the first item of the list
    whose name field is the target name: an item it returns is in the list,
    carries the name, and no item before it does. On an empty list it raises
    the reference-data error that says there is nothing to search. *)
Theorem reference_data_lookup_is_first_match
    (data_list : list json) (target_name name_field data_type : string) (w : World) :
  (forall item w',
     find_reference_data_by_name data_list target_name name_field data_type w
       = (Ok item, w') ->
     w' = w /\
     exists before after,
       data_list = (before ++ item :: after)%list /\
       named_as name_field target_name item /\
       Forall (fun other => ~ named_as name_field target_name other) before) /\
  (data_list = [] ->
     find_reference_data_by_name data_list target_name name_field data_type w
       = (Raise (Exn IRPReferenceDataError
            [Lit "No "; FStr data_type; Lit " available to search"]), w)).
Proof.
  split.
  - intros item w' H. unfold find_reference_data_by_name in H.
    destruct data_list as [| x rest]; [discriminate |].
    apply bind_inv_ok in H. destruct H as (found & w1 & Hfound & H).
    destruct found as [found |].
    + injection H as <- <-. exact (first_named_sound _ _ _ _ _ _ Hfound).
    + apply bind_inv_ok in H. destruct H as (? & ? & _ & H). discriminate.
  - now intros ->.
Qed.

(** ** Further properties: the GeoHaz submission *)

Lemma search_accounts_by_portfolio_served (x pid : Z) (w : World) (ev : Event)
    (rest : list Event) (r : Response) (v : json) :
  0 < x -> 0 < pid ->
  script w = ev :: rest ->
  answers ev r v ->
  search_accounts_by_portfolio (JInt x) (JInt pid) w
    = (Ok v, served w ev rest (accounts_request x pid)).
Proof.
  intros Hx Hpid Hs (Hr & He & Hb). unfold search_accounts_by_portfolio.
  rewrite (bind_ok _ _ _ _ _ (validate_positive_int_ok _ _ _ Hx)).
  rewrite (bind_ok _ _ _ _ _ (validate_positive_int_ok _ _ _ Hpid)).
  apply try_except_ok.
  rewrite (bind_ok _ _ _ _ _ (request_served "GET" _ _ _ _ w ev rest r eq_refl Hs Hr He)).
  unfold response_json. now rewrite Hb.
Qed.

Lemma count_locations_zeros (accounts : list json) (w : World) :
  Forall (account_with 0) accounts -> count_locations accounts 0 w = (Ok 0, w).
Proof.
  induction 1 as [| account rest (d & -> & Hd) _ IH]; [reflexivity |].
  cbn [count_locations]. unfold subscript. rewrite Hd, bind_ret.
  unfold add_count. cbn [as_int]. rewrite bind_ret. exact IH.
Qed.

Lemma count_locations_first_positive (zeros : list json) (account : json) (n : Z)
    (others : list json) (w : World) :
  Forall (account_with 0) zeros -> account_with n account -> 0 < n ->
  count_locations (zeros ++ account :: others) 0 w = (Ok n, w).
Proof.
  intros Hz (d & -> & Hd) Hn.
  induction Hz as [| zero rest (d0 & -> & Hd0) _ IH]; cbn [app count_locations];
    unfold subscript.
  - rewrite Hd, bind_ret. unfold add_count. cbn [as_int]. rewrite bind_ret.
    cbn [Z.add]. destruct (Z.gtb_spec n 0); [reflexivity | lia].
  - rewrite Hd0, bind_ret. unfold add_count. cbn [as_int]. rewrite bind_ret. exact IH.
Qed.

(** The run of [submit_geohaz_job] up to the list of accounts. *)
Lemma submit_geohaz_job_lookups
    (portfolio_name edm_name version : string) (hazard_eq hazard_ws : bool)
    (geocode_layer_options hazard_layer_options : option json)
    (w w1 : World) (de : list (string * json)) (x : Z)
    (e1 e2 : Event) (rest : list Event) (r1 r2 : Response)
    (dp : list (string * json)) (uri : json) (pid : Z) (accounts : list json) :
  is_blank portfolio_name = false -> is_blank edm_name = false ->
  search_edms (name_filter "exposureName" edm_name) w = (Ok (JArr [JObj de]), w1) ->
  lookup "exposureId" de = Some (JInt x) -> 0 < x ->
  script w1 = e1 :: e2 :: rest ->
  answers e1 r1 (JArr [JObj dp]) ->
  lookup "uri" dp = Some uri ->
  lookup "portfolioId" dp = Some (JInt pid) -> 0 < pid ->
  answers e2 r2 (JArr accounts) ->
  exists k : json -> M (Z * json),
    submit_geohaz_job portfolio_name edm_name version hazard_eq hazard_ws
      geocode_layer_options hazard_layer_options w
    = k (JArr accounts)
        (after_fetches w1 [e1; e2] rest
           [portfolio_search (JInt x) portfolio_name; accounts_request x pid]) /\
    k = (fun accounts =>
      n_accounts <- py_len accounts ;;
      if n_accounts =? 0
      then raise IRPAPIError
             [Lit "Portfolio '"; FStr portfolio_name;
              Lit "' does not have any Accounts/Locations to be GeoHaz'd"]
      else
        locations_count <-
          try_except
            (items <- iterate accounts ;; count_locations items 0)
            (fun e => raise IRPAPIError
               [Lit "Failed to validate locations count for portfolio '";
                FStr portfolio_name; Lit "': "; fexn e]) ;;
        if locations_count =? 0
        then raise IRPAPIError
               [Lit "Portfolio '"; FStr portfolio_name;
                Lit "' has accounts but no locations to be GeoHaz'd"]
        else
          let data := geohaz_data uri version hazard_eq hazard_ws
                        (options_or geocode_layer_options default_geocode_layer_options)
                        (options_or hazard_layer_options default_hazard_layer_options) in
          try_except
            (response <- request "POST" GEOHAZ_PORTFOLIO None [] (Some data) ;;
             job_id <- extract_id_from_location_header response "portfolio geohaz" ;;
             match py_int job_id with
             | Some id => ret (id, data)
             | None => raise ValueError [Lit "invalid literal for int(): "; FStr job_id]
             end)
            (fun e => raise IRPAPIError
               [Lit "Failed to execute geohaz for portfolio '"; FJson uri;
                Lit "': "; fexn e])).
Proof.
  intros Bn Be Hedm Hexp Hx Hs A1 Huri Hpid Hpos A2.
  eexists. split; [| reflexivity].
  unfold submit_geohaz_job.
  rewrite (bind_ok _ _ _ _ _ (validate_non_empty_string_ok _ _ _ Bn)).
  rewrite (bind_ok _ _ _ _ _ (validate_non_empty_string_ok _ _ _ Be)).
  rewrite (bind_ok _ _ _ _ _ Hedm).
  cbn [py_len List.length]. rewrite bind_ret.
  cbn [Z.of_nat Pos.of_succ_nat Z.eqb Pos.eqb negb].
  assert (Hid : (edm <- index0 (JArr [JObj de]) ;; subscript edm "exposureId") w1
                = (Ok (JInt x), w1)).
  { cbn [index0]. rewrite bind_ret. unfold subscript. now rewrite Hexp. }
  rewrite (bind_ok _ _ _ _ _ (try_except_ok _ _ _ _ _ Hid)).
  rewrite (bind_ok _ _ _ _ _
             (search_portfolios_served (JInt x) x portfolio_name w1 e1 (e2 :: rest) r1 _
                eq_refl Hx Hs A1)).
  cbn [py_len List.length]. rewrite bind_ret.
  cbn [Z.of_nat Pos.of_succ_nat Z.eqb Pos.eqb negb].
  set (w2 := served w1 e1 (e2 :: rest) (portfolio_search (JInt x) portfolio_name)).
  assert (Hdet : (portfolio <- index0 (JArr [JObj dp]) ;;
                  uri0 <- subscript portfolio "uri" ;;
                  portfolio' <- index0 (JArr [JObj dp]) ;;
                  id <- subscript portfolio' "portfolioId" ;;
                  ret (uri0, id)) w2 = (Ok (uri, JInt pid), w2)).
  { cbn [index0]. rewrite bind_ret. unfold subscript. rewrite Huri, bind_ret, bind_ret.
    now rewrite Hpid, bind_ret. }
  rewrite (bind_ok _ _ _ _ _ (try_except_ok _ _ _ _ _ Hdet)).
  cbn [fst snd].
  rewrite (bind_ok _ _ _ _ _
             (search_accounts_by_portfolio_served x pid w2 e2 rest r2 _ Hx Hpos
                eq_refl A2)).
  subst w2. rewrite <- (after_fetches_served w1 e1 [e2] (e2 :: rest) rest).
  rewrite <- (after_fetches_served _ e2 [] rest rest).
  replace (after_fetches _ [] rest [])
    with (served (served w1 e1 (e2 :: rest) (portfolio_search (JInt x) portfolio_name))
            e2 rest (accounts_request x pid)).
  - unfold options_or. reflexivity.
  - unfold after_fetches, served. cbn. rewrite app_nil_r. f_equal. lia.
Qed.

Lemma bind_ret_eta {A B : Type} (a : A) (f : A -> M B) : bind (ret a) f = f a.
Proof. reflexivity. Qed.

Lemma location_segment (r : Response) (error_context base id : string) (w : World) :
  lookup "location" (headers r) = Some (base ++ String "/" id)%string ->
  slash_free id = true -> id <> EmptyString ->
  extract_id_from_location_header r error_context w = (Ok id, w).
Proof.
  intros Hloc Hid Hne. unfold extract_id_from_location_header, get_location_header.
  rewrite Hloc, bind_ret. unfold last_segment.
  rewrite (last_segment_from_path _ _ Hid). now destruct id.
Qed.

(** X18. [submit_geohaz_job] submits nothing for a portfolio without
    locations: when the EDM and the portfolio are found and every account of
    the portfolio reports zero locations, or there is no account at all, it
    raises an API error after the two searches, and no POST is made. The
    error says that there are no accounts when the list is empty, and that
    there are accounts but no locations otherwise. *)
Theorem geohaz_submission_needs_locations
    (portfolio_name edm_name version : string) (hazard_eq hazard_ws : bool)
    (geocode_layer_options hazard_layer_options : option json)
    (w w1 : World) (de : list (string * json)) (x : Z)
    (e1 e2 : Event) (rest : list Event) (r1 r2 : Response)
    (dp : list (string * json)) (uri : json) (pid : Z) (accounts : list json) :
  is_blank portfolio_name = false -> is_blank edm_name = false ->
  search_edms (name_filter "exposureName" edm_name) w = (Ok (JArr [JObj de]), w1) ->
  lookup "exposureId" de = Some (JInt x) -> 0 < x ->
  script w1 = e1 :: e2 :: rest ->
  answers e1 r1 (JArr [JObj dp]) ->
  lookup "uri" dp = Some uri ->
  lookup "portfolioId" dp = Some (JInt pid) -> 0 < pid ->
  answers e2 r2 (JArr accounts) ->
  Forall (account_with 0) accounts ->
  submit_geohaz_job portfolio_name edm_name version hazard_eq hazard_ws
    geocode_layer_options hazard_layer_options w
  = (Raise (no_locations_error portfolio_name accounts),
     after_fetches w1 [e1; e2] rest
       [portfolio_search (JInt x) portfolio_name; accounts_request x pid]).
Proof.
  intros Bn Be Hedm Hexp Hx Hs A1 Huri Hpid Hpos A2 Hzero.
  destruct (submit_geohaz_job_lookups portfolio_name edm_name version hazard_eq
              hazard_ws geocode_layer_options hazard_layer_options w w1 de x e1 e2 rest
              r1 r2 dp uri pid accounts Bn Be Hedm Hexp Hx Hs A1 Huri Hpid Hpos A2)
    as (k & -> & ->).
  cbn [py_len]. rewrite bind_ret.
  destruct accounts as [| account others]; [reflexivity |].
  assert (Hlen : (Z.of_nat (List.length (account :: others)) =? 0) = false)
    by reflexivity.
  rewrite Hlen. cbn [iterate]. rewrite bind_ret_eta.
  rewrite (bind_ok _ _ _ _ _
             (try_except_ok _ _ _ _ _ (count_locations_zeros _ _ Hzero))).
  reflexivity.
Qed.

(** X19. [submit_geohaz_job] counts locations only up to the first account
    that has some: when accounts with zero locations are followed by one
    with a positive count, whatever comes after it in the list is not
    examined, and the job is submitted with one POST whose body names the
    portfolio's URI, the geocode layer, then the earthquake layer and the
    windstorm layer when they are asked for, with the default layer options
    for those not given. The job identifier it returns is the number read off
    the end of the Location header, and the body is returned with it. *)
Theorem geohaz_submission_stops_at_first_location
    (portfolio_name edm_name version : string) (hazard_eq hazard_ws : bool)
    (geocode_layer_options hazard_layer_options : option json)
    (w w1 : World) (de : list (string * json)) (x : Z)
    (e1 e2 e3 : Event) (rest : list Event) (r1 r2 r3 : Response)
    (dp : list (string * json)) (uri : json) (pid : Z)
    (zeros : list json) (account : json) (n : Z) (others : list json)
    (base job : string) (id : Z) :
  is_blank portfolio_name = false -> is_blank edm_name = false ->
  search_edms (name_filter "exposureName" edm_name) w = (Ok (JArr [JObj de]), w1) ->
  lookup "exposureId" de = Some (JInt x) -> 0 < x ->
  script w1 = e1 :: e2 :: e3 :: rest ->
  answers e1 r1 (JArr [JObj dp]) ->
  lookup "uri" dp = Some uri ->
  lookup "portfolioId" dp = Some (JInt pid) -> 0 < pid ->
  answers e2 r2 (JArr (zeros ++ account :: others)) ->
  Forall (account_with 0) zeros -> account_with n account -> 0 < n ->
  ev_reply e3 = Reply r3 -> is_http_error r3 = false ->
  lookup "location" (headers r3) = Some (base ++ String "/" job)%string ->
  slash_free job = true -> job <> EmptyString ->
  py_int job = Some id ->
  let data := geohaz_data uri version hazard_eq hazard_ws
                (options_or geocode_layer_options default_geocode_layer_options)
                (options_or hazard_layer_options default_hazard_layer_options) in
  submit_geohaz_job portfolio_name edm_name version hazard_eq hazard_ws
    geocode_layer_options hazard_layer_options w
  = (Ok (id, data),
     after_fetches w1 [e1; e2; e3] rest
       [portfolio_search (JInt x) portfolio_name; accounts_request x pid;
        mkRequest "POST" (target_url GEOHAZ_PORTFOLIO None) [] (Some data)]).
Proof.
  intros Bn Be Hedm Hexp Hx Hs A1 Huri Hpid Hpos A2 Hzero Hacc Hn Hr3 He3 Hloc Hfree
    Hjob Hid data.
  destruct (submit_geohaz_job_lookups portfolio_name edm_name version hazard_eq
              hazard_ws geocode_layer_options hazard_layer_options w w1 de x e1 e2
              (e3 :: rest) r1 r2 dp uri pid (zeros ++ account :: others)
              Bn Be Hedm Hexp Hx Hs A1 Huri Hpid Hpos A2)
    as (k & -> & ->).
  cbn [py_len]. rewrite bind_ret.
  assert (Hlen : (Z.of_nat (List.length (zeros ++ account :: others)) =? 0) = false).
  { rewrite length_app. cbn [List.length]. apply Z.eqb_neq. lia. }
  rewrite Hlen. cbn [iterate]. rewrite bind_ret_eta.
  rewrite (bind_ok _ _ _ _ _
             (try_except_ok _ _ _ _ _
                (count_locations_first_positive _ _ _ others _ Hzero Hacc Hn))).
  assert (Hn0 : (n =? 0) = false) by (apply Z.eqb_neq; lia).
  rewrite Hn0. fold data.
  set (w2 := after_fetches w1 [e1; e2] (e3 :: rest)
               [portfolio_search (JInt x) portfolio_name; accounts_request x pid]).
  apply try_except_ok.
  rewrite (bind_ok _ _ _ _ _
             (request_served "POST" _ _ _ _ w2 e3 rest r3 eq_refl eq_refl Hr3 He3)).
  rewrite (bind_ok _ _ _ _ _ (location_segment r3 _ base job _ Hloc Hfree Hjob)).
  rewrite Hid. unfold ret. f_equal. subst w2.
  now rewrite (served_after_fetches w1 [e1; e2] e3 rest).
Qed.

(** ** Further properties: what the synchronisation touches *)

Lemma unchanged_ret {A : Type} (a : A) : unchanged (ret a).
Proof. intros w w' res [= _ <-]. reflexivity. Qed.

Lemma unchanged_raise {A : Type} (k : exn_kind) (m : list frag) :
  unchanged (@raise A k m).
Proof. intros w w' res [= _ <-]. reflexivity. Qed.

Lemma unchanged_bind {A B : Type} (m : M A) (f : A -> M B) :
  unchanged m -> (forall a, unchanged (f a)) -> unchanged (bind m f).
Proof.
  intros Hm Hf w w' res. unfold bind.
  destruct (m w) as [[a | e |] w1] eqn:E; pose proof (Hm _ _ _ E) as ->.
  - apply Hf.
  - now intros [= _ <-].
  - now intros [= _ <-].
Qed.

Lemma unchanged_subscript (v : json) (k : string) : unchanged (subscript v k).
Proof.
  unfold subscript. destruct v as [| | | | | d]; try apply unchanged_raise.
  destruct (lookup k d); [apply unchanged_ret | apply unchanged_raise].
Qed.

Lemma unchanged_iterate (v : json) : unchanged (iterate v).
Proof. destruct v; cbn [iterate]; (apply unchanged_ret || apply unchanged_raise). Qed.

Lemma unchanged_existing_sources (items : list json) :
  unchanged (existing_sources items).
Proof.
  induction items as [| item rest IH]; cbn [existing_sources]; [apply unchanged_ret |].
  apply unchanged_bind.
  - unfold source_upper. apply unchanged_bind; [apply unchanged_subscript |].
    intros source. destruct source; (apply unchanged_ret || apply unchanged_raise).
  - intros s0. apply unchanged_bind; [exact IH | intros; apply unchanged_ret].
Qed.

Lemma unchanged_add_headers (existing_sources_upper headers : list string) :
  forall (items : json) (modified : bool),
    unchanged (add_headers existing_sources_upper headers items modified).
Proof.
  induction headers as [| header rest IH]; intros items modified; cbn [add_headers].
  - apply unchanged_ret.
  - destruct (mem (upper header) existing_sources_upper); [apply IH |].
    apply unchanged_bind; [| intros; apply IH].
    unfold py_append. destruct items; (apply unchanged_ret || apply unchanged_raise).
Qed.

Lemma unchanged_add_missing_sources (headers : list string) (items : json) :
  unchanged (_add_missing_sources headers items).
Proof.
  unfold _add_missing_sources.
  apply unchanged_bind; [apply unchanged_iterate | intros entries].
  apply unchanged_bind; [apply unchanged_existing_sources | intros].
  apply unchanged_add_headers.
Qed.

Lemma unchanged_sync_items (mapping : json) (key : string) (headers : list string) :
  unchanged (sync_items mapping key headers).
Proof.
  unfold sync_items. destruct mapping as [| | | | | d]; try apply unchanged_raise.
  destruct (lookup key d);
    (apply unchanged_bind;
     [apply unchanged_add_missing_sources | intros; apply unchanged_ret]).
Qed.

Lemma unchanged_json_load (path : string) : unchanged (json_load path).
Proof.
  intros w w' res. unfold json_load. destruct (lookup path (files w)); now intros [= _ <-].
Qed.

Lemma unchanged_read_csv_columns (path : string) : unchanged (read_csv_columns path).
Proof.
  intros w w' res. unfold read_csv_columns.
  destruct (lookup path (tables w)); now intros [= _ <-].
Qed.

Lemma same_but_file_refl (path : string) (w : World) : same_but_file path w w.
Proof. unfold same_but_file. auto 10. Qed.

(** What a computation that leaves the world alone gives to the one that
    follows it. *)
Lemma bind_unchanged_inv {A B : Type} (m : M A) (f : A -> M B) (w w' : World)
    (res : outcome B) :
  unchanged m ->
  bind m f w = (res, w') ->
  (exists a, f a w = (res, w')) \/ ((forall b, res <> Ok b) /\ w' = w).
Proof.
  intros Hm. unfold bind.
  destruct (m w) as [[a | e |] w1] eqn:E; pose proof (Hm _ _ _ E) as ->.
  - intros H. left. now exists a.
  - intros [= <- <-]. right. split; [discriminate | reflexivity].
  - intros [= <- <-]. right. split; [discriminate | reflexivity].
Qed.

(** X20. [_sync_mapping_with_csv_headers] touches nothing but the mapping
    file, and that only at its very end: however it ends, no request has been
    sent, the delimited files and every other file are as before, and when
    it fails, at whatever step, the mapping file itself is as before: entries
    added in memory for the accounts are not saved when the locations file
    cannot be read. *)
Theorem sync_writes_only_the_mapping
    (mapping_file_path accounts_file_path locations_file_path : string)
    (w w' : World) (res : outcome unit) :
  _sync_mapping_with_csv_headers mapping_file_path accounts_file_path
    locations_file_path w = (res, w') ->
  same_but_file mapping_file_path w w' /\
  (res <> Ok tt -> w' = w).
Proof.
  assert (Hend : forall b : unit, (forall b0 : unit, res <> Ok b0) -> w' = w ->
                 same_but_file mapping_file_path w w' /\ (res <> Ok tt -> w' = w)).
  { intros _ _ ->. split; [apply same_but_file_refl | reflexivity]. }
  intros H. unfold _sync_mapping_with_csv_headers in H.
  apply (bind_unchanged_inv _ _ _ _ _ (unchanged_json_load _)) in H.
  destruct H as [(mapping & H) | (Hres & Hw)]; [| now apply Hend].
  apply (bind_unchanged_inv _ _ _ _ _ (unchanged_read_csv_columns _)) in H.
  destruct H as [(account_headers & H) | (Hres & Hw)]; [| now apply Hend].
  apply (bind_unchanged_inv _ _ _ _ _ (unchanged_sync_items _ _ _)) in H.
  destruct H as [(r1 & H) | (Hres & Hw)]; [| now apply Hend].
  apply (bind_unchanged_inv _ _ _ _ _ (unchanged_read_csv_columns _)) in H.
  destruct H as [(location_headers & H) | (Hres & Hw)]; [| now apply Hend].
  apply (bind_unchanged_inv _ _ _ _ _ (unchanged_sync_items _ _ _)) in H.
  destruct H as [(r2 & H) | (Hres & Hw)]; [| now apply Hend].
  destruct (false || fst r1 || fst r2).
  - unfold json_dump in H. injection H as <- <-. split; [| congruence].
    unfold same_but_file. cbn [clock script sent files tables decoded].
    repeat split. intros other Hne. now apply lookup_update_other.
  - injection H as <- <-. split; [apply same_but_file_refl | reflexivity].
Qed.

End Client.

(** ** The statements at concrete inputs *)

(** C1 at a record with the status ARCHIVED, which is in neither set of
    [K0]: the URL poller goes round again, the geohaz scan counts the job
    as completed. *)
Lemma status_outside_completed_by_poller_witness :
  poll_workflow_tick K0 api0 1000 url0 10 600 0 tt archived_world
    = (Ok (Again tt),
       advance 10000 (served archived_world (json_reply 5 archived) []
                        (url_request api0 url0))) /\
  geohaz_scan K0 api0 [42] false [] archived_world
    = (Ok (true, [archived]),
       served archived_world (json_reply 5 archived) [] (geohaz_request K0 api0 42)).
Proof.
  pose proof (status_outside_completed_by_poller K0 api0 1000 url0 42 10 600 0
                archived_world (json_reply 5 archived) []
                (mkResponse 200 [] EmptyString (Some archived))
                [("status", JStr "ARCHIVED"); ("progress", JInt 0)]
                (JStr "ARCHIVED") (JInt 0)
                ltac:(lia) eq_refl (conj eq_refl (conj eq_refl eq_refl))
                eq_refl eq_refl eq_refl) as (H1 & _ & _ & H4).
  split; [exact H1 | exact (proj1 (H4 eq_refl))].
Defined.

(** C1 as stated fails for the batch pollers: a listing whose only workflow
    has the status ARCHIVED, in neither set, ends the batch poll with the
    listing answer on the first tick. *)
Lemma batch_poll_ends_on_unknown_status :
  status_in (JStr "ARCHIVED") (WORKFLOW_COMPLETED_STATUSES K0) = false /\
  status_in (JStr "ARCHIVED") (WORKFLOW_IN_PROGRESS_STATUSES K0) = false /\
  fst (poll_workflow_batch_to_completion K0 api0 1000 [42] 20 600
         (world0 [json_reply 5 archived_listing]))
    = Ok (mkResponse 200 [] EmptyString (Some archived_listing)) /\
  fst (poll_import_job_batch_to_completion K0 api0 1000 [42] 20 600
         (world0 [json_reply 5 archived_listing]))
    = Ok [archived] /\
  fst (poll_geohaz_job_batch_to_completion K0 api0 1000 [42] 20 600 archived_world)
    = Ok [archived].
Proof. vm_compute. repeat split. Qed.

(** C2 with timeout 1 s, interval 2 s and fetches of 5 ms: two fetches, the
    second tick raises. *)
Lemma interval_beyond_timeout_witness :
  exists w',
    poll_workflow K0 api0 1000 url0 2 1 running_world
      = (Raise (Exn IRPWorkflowError
           [Lit "Workflow did not complete within "; FInt 1;
            Lit " seconds. Last status: "; FJson (JStr "RUNNING")]), w') /\
    sent w' = [url_request api0 url0; url_request api0 url0].
Proof.
  pose proof (interval_beyond_timeout K0 api0 1000 ltac:(lia) url0 42 2 1 running_world
                (json_reply 5 (status_record "RUNNING" 10))
                (json_reply 5 (status_record "RUNNING" 20))
                [json_reply 5 (status_record "RUNNING" 30)]
                (mkResponse 200 [] EmptyString (Some (status_record "RUNNING" 10)))
                (mkResponse 200 [] EmptyString (Some (status_record "RUNNING" 20)))
                [("status", JStr "RUNNING"); ("progress", JInt 10)]
                [("status", JStr "RUNNING"); ("progress", JInt 20)]
                (JStr "RUNNING") (JInt 10) (JStr "RUNNING") (JInt 20)
                eq_refl ltac:(lia) ltac:(lia) eq_refl
                (conj eq_refl (conj eq_refl eq_refl))
                (conj eq_refl (conj eq_refl eq_refl))
                eq_refl eq_refl eq_refl eq_refl eq_refl eq_refl) as [H _].
  exact (proj1 (H ltac:(cbn; lia))).
Defined.

(** C2 as stated fails: with timeout 1 s, interval 2 s and fetches of 5 ms
    both single-handle polls fetch twice, not once; the first timeout test
    sees 5 ms and lets the poll go on. *)
Lemma single_fetch_claim_fails :
  List.length (sent (snd (poll_workflow K0 api0 1000 url0 2 1 running_world))) = 2%nat /\
  List.length (sent (snd (poll_workflow_to_completion K0 api0 1000 42 2 1 running_world)))
    = 2%nat /\
  fst (poll_workflow_tick K0 api0 1000 url0 2 1 0 tt running_world) = Ok (Again tt).
Proof. vm_compute. repeat split. Qed.

(** C3 at a job record without [status]: the poll by ID fails at once. *)
Lemma malformed_status_record_witness :
  poll_workflow_to_completion K0 api0 1000 42 10 600 no_status_world
    = (Raise (Exn IRPAPIError
         [Lit "Missing 'status' or 'progress' in job response for workflow ID ";
          FInt 42; Lit ": "; FExn KeyError [FStr "status"]]),
       served no_status_world (json_reply 5 no_status)
         [json_reply 5 (status_record "FINISHED" 100)] (workflow_request K0 api0 42)).
Proof.
  pose proof (malformed_status_record K0 api0 1000 url0 42 10 600 0 no_status_world
                (json_reply 5 no_status)
                [json_reply 5 (status_record "FINISHED" 100)]
                (mkResponse 200 [] EmptyString (Some no_status))
                [("progress", JInt 10)]
                ltac:(lia) eq_refl (conj eq_refl (conj eq_refl eq_refl))
                (or_introl eq_refl)) as (_ & _ & H & _).
  exact (proj1 (H ltac:(lia) ltac:(lia))).
Defined.

(** C3 as stated fails for [poll_workflow]: a status record without [status]
    raises nothing, the poll fetches again and returns the second answer. *)
Lemma poll_workflow_tolerates_missing_status :
  fst (poll_workflow_tick K0 api0 1000 url0 10 600 0 tt no_status_world) = Ok (Again tt) /\
  fst (poll_workflow K0 api0 1000 url0 10 600 no_status_world) = Ok finished /\
  List.length (sent (snd (poll_workflow K0 api0 1000 url0 10 600 no_status_world))) = 2%nat.
Proof. vm_compute. repeat split. Qed.

(** C4 with pages of 100, 100 and 50 items: three page requests. *)
Lemma batch_pagination_witness :
  exists w',
    loop (fetch_workflows_page K0 api0 [1; 2] 100) ([], 0) (pages [100; 100; 50]%nat)
      = (Ok (mkResponse 200 [] EmptyString
               (Some (listing 250 (repeat (status_record "FINISHED" 100) 50))),
             repeat (status_record "FINISHED" 100) 100
             ++ repeat (status_record "FINISHED" 100) 100
             ++ repeat (status_record "FINISHED" 100) 50)%list, w') /\
    script w' = [] /\
    sent w' = [page_request K0 api0 [1; 2] 100 0; page_request K0 api0 [1; 2] 100 100;
               page_request K0 api0 [1; 2] 100 200].
Proof.
  exact (proj1 (batch_pagination K0 api0 1000 [1; 2] (pages [100; 100; 50]%nat)
                  (json_reply 5 (listing 250 (repeat (status_record "FINISHED" 100) 100)))
                  (json_reply 5 (listing 250 (repeat (status_record "FINISHED" 100) 100)))
                  (json_reply 5 (listing 250 (repeat (status_record "FINISHED" 100) 50))) []
                  (mkResponse 200 [] EmptyString
                     (Some (listing 250 (repeat (status_record "FINISHED" 100) 100))))
                  (mkResponse 200 [] EmptyString
                     (Some (listing 250 (repeat (status_record "FINISHED" 100) 100))))
                  (mkResponse 200 [] EmptyString
                     (Some (listing 250 (repeat (status_record "FINISHED" 100) 50))))
                  [("totalMatchCount", JInt 250);
                   ("workflows", JArr (repeat (status_record "FINISHED" 100) 100))]
                  [("totalMatchCount", JInt 250);
                   ("workflows", JArr (repeat (status_record "FINISHED" 100) 100))]
                  [("totalMatchCount", JInt 250);
                   ("workflows", JArr (repeat (status_record "FINISHED" 100) 50))]
                  (repeat (status_record "FINISHED" 100) 100)
                  (repeat (status_record "FINISHED" 100) 100)
                  (repeat (status_record "FINISHED" 100) 50)
                  eq_refl
                  (conj eq_refl (conj eq_refl eq_refl))
                  (conj eq_refl (conj eq_refl eq_refl))
                  (conj eq_refl (conj eq_refl eq_refl))
                  (conj eq_refl eq_refl) (conj eq_refl eq_refl) (conj eq_refl eq_refl)
                  ltac:(rewrite !repeat_length; lia)
                  ltac:(rewrite !repeat_length; lia))).
Defined.

(** C4 as stated fails: with 250 matches reported and pages of 125 items the
    tick makes two page requests, at offsets 0 and 100; with the 250 items in
    the first page it makes one. *)
Lemma page_count_follows_page_sizes :
  sent (snd (poll_workflow_batch_to_completion_tick K0 api0 1000 [1; 2] 20 600 0 tt
               (pages [125; 125; 125]%nat)))
    = [page_request K0 api0 [1; 2] 100 0; page_request K0 api0 [1; 2] 100 100] /\
  sent (snd (poll_workflow_batch_to_completion_tick K0 api0 1000 [1; 2] 20 600 0 tt
               (pages [250; 0; 0]%nat)))
    = [page_request K0 api0 [1; 2] 100 0].
Proof. vm_compute. split; reflexivity. Qed.

(** C5 at a portfolio search without a match. *)
Lemma lookup_by_name_witness :
  submit_mri_import_job_lookup K0 api0 one_edm "EDM_Q4" "USFL_Other"
    "accounts.tsv" "locations.tsv" "mapping.json" no_portfolio_world
    = (Raise (Exn IRPAPIError
         [Lit "Portfolio with name "; FStr "USFL_Other"; Lit " not found"]),
       served no_portfolio_world (json_reply 5 (JArr [])) []
         (portfolio_search K0 api0 (JInt 7) "USFL_Other")).
Proof.
  pose proof (lookup_by_name K0 api0 one_edm "EDM_Q4" "USFL_Other"
                "accounts.tsv" "locations.tsv" "mapping.json"
                no_portfolio_world no_portfolio_world
                [JObj [("exposureId", JInt 7); ("exposureName", JStr "EDM_Q4")]]
                eq_refl eq_refl eq_refl eq_refl eq_refl eq_refl) as (_ & H & _).
  exact (proj1 (H [("exposureId", JInt 7); ("exposureName", JStr "EDM_Q4")] (JInt 7) 7
                  (json_reply 5 (JArr [])) []
                  (mkResponse 200 [] EmptyString (Some (JArr []))) []
                  eq_refl eq_refl eq_refl ltac:(lia) eq_refl
                  (conj eq_refl (conj eq_refl eq_refl))) eq_refl).
Defined.

(** C5 as stated fails twice over: [find_reference_data_by_name] returns the
    first of two portfolios of the same name, and the lookups of
    [submit_mri_import_job] raise [IRPAPIError], not the reference-data
    error, with a message for no EDM that does not say not found. *)
Lemma lookup_picks_first_and_raises_api_error :
  find_reference_data_by_name [usfl 1; usfl 2] "USFL_Other" "name" "portfolio" (world0 [])
    = (Ok (usfl 1), world0 []) /\
  usfl 1 <> usfl 2 /\
  fst (submit_mri_import_job_lookup K0 api0 one_edm "EDM_Q4" "USFL_Other"
         "accounts.tsv" "locations.tsv" "mapping.json" no_portfolio_world)
    = Raise (Exn IRPAPIError
        [Lit "Portfolio with name "; FStr "USFL_Other"; Lit " not found"]) /\
  fst (submit_mri_import_job_lookup K0 api0 (fun _ => ret (JArr [])) "EDM_Q4" "USFL_Other"
         "accounts.tsv" "locations.tsv" "mapping.json" (world0 []))
    = Raise (Exn IRPAPIError
        [Lit "Expected 1 EDM with name "; FStr "EDM_Q4"; Lit ", found "; FInt 0]).
Proof.
  split; [reflexivity |]. split; [discriminate |]. split; reflexivity.
Qed.




(** C8 at a 202 submission followed by RUNNING, RUNNING, FINISHED. *)
Lemma execute_workflow_contract_witness :
  exists w',
    execute_workflow K0 api0 1000 "POST" "/riskmodeler/v1/imports" [] None submission_world
      = (Ok finished, w') /\
    script w' = [] /\
    sent w' = [mkRequest "POST" "https://api-euw1.rms-ppe.com/riskmodeler/v1/imports"
                 [] None;
               mkRequest "GET" "https://host/workflows/42" [] None;
               mkRequest "GET" "https://host/workflows/42" [] None;
               mkRequest "GET" "https://host/workflows/42" [] None].
Proof.
  pose proof (execute_workflow_contract K0 api0 1000 ltac:(lia)
                "POST" "/riskmodeler/v1/imports" [] None submission_world
                (accepted 5 url0)
                [json_reply 5 (status_record "RUNNING" 10);
                 json_reply 5 (status_record "RUNNING" 90);
                 json_reply 5 (status_record "FINISHED" 100)]
                (mkResponse 202 [("location", url0)] EmptyString None)
                eq_refl eq_refl eq_refl) as [_ H].
  destruct (H (or_introl eq_refl)) as [_ H2].
  destruct (H2 (or_intror eq_refl)) as (_ & _ & H3).
  exact (H3 url0 (json_reply 5 (status_record "RUNNING" 10))
           (json_reply 5 (status_record "RUNNING" 90))
           (json_reply 5 (status_record "FINISHED" 100)) []
           (mkResponse 200 [] EmptyString (Some (status_record "RUNNING" 10)))
           (mkResponse 200 [] EmptyString (Some (status_record "RUNNING" 90)))
           finished
           [("status", JStr "RUNNING"); ("progress", JInt 10)]
           [("status", JStr "RUNNING"); ("progress", JInt 90)]
           [("status", JStr "FINISHED"); ("progress", JInt 100)]
           eq_refl eq_refl eq_refl
           (conj eq_refl (conj eq_refl eq_refl))
           (conj eq_refl (conj eq_refl eq_refl))
           (conj eq_refl (conj eq_refl eq_refl))
           eq_refl eq_refl eq_refl ltac:(cbn; lia)).
Defined.

(** C8 as stated fails for an answer with an HTTP error status: 404 is
    neither 201 nor 202, and the answer is not returned; the operation
    raises the API error of the request. *)
Lemma submission_error_is_raised :
  status_code not_found <> 201 /\ status_code not_found <> 202 /\
  execute_workflow K0 api0 1000 "POST" "/riskmodeler/v1/imports" [] None
    (world0 [mkEvent 5 (Reply not_found)])
  = (Raise (Exn IRPAPIError
       [Lit "HTTP request failed: "; FExn HTTPError [FInt 404]; Lit " ";
        Lit " | text: "; FStr "Not Found"]),
     mkWorld 5 []
       [mkRequest "POST" "https://api-euw1.rms-ppe.com/riskmodeler/v1/imports" [] None]
       [] [] []).
Proof. split; [discriminate | split; [discriminate | reflexivity]]. Qed.

(** C9 at a portfolio number of 27 characters. *)
Lemma create_portfolio_number_truncated_witness :
  exists w',
    create_portfolio K0 api0 int_of_digits one_edm
      "EDM_Q4" "USFL_Other" "PORTFOLIO-NUMBER-0123456789" "Other flood" creation_world
      = (Ok (88, JObj [("portfolioName", JStr "USFL_Other");
                       ("portfolioNumber", JStr "PORTFOLIO-NUMBER-012");
                       ("description", JStr "Other flood")]), w') /\
    sent w' = [portfolio_search K0 api0 (JInt 7) "USFL_Other";
               mkRequest "POST" (target_url api0 (CREATE_PORTFOLIO K0 (JInt 7)) None) []
                 (Some (JObj [("portfolioName", JStr "USFL_Other");
                              ("portfolioNumber", JStr "PORTFOLIO-NUMBER-012");
                              ("description", JStr "Other flood")]))].
Proof.
  exact (proj1 (create_portfolio_number_truncated K0 api0 int_of_digits one_edm
                  "EDM_Q4" "USFL_Other" "PORTFOLIO-NUMBER-0123456789" "Other flood")
           creation_world creation_world
           [("exposureId", JInt 7); ("exposureName", JStr "EDM_Q4")] (JInt 7) 7
           (json_reply 5 (JArr []))
           (accepted 5 "https://host/exposures/7/portfolios/88") []
           (mkResponse 200 [] EmptyString (Some (JArr [])))
           (mkResponse 202 [("location", "https://host/exposures/7/portfolios/88")]
              EmptyString None)
           "https://host/exposures/7/portfolios/88" 88
           eq_refl eq_refl eq_refl eq_refl eq_refl eq_refl ltac:(lia) eq_refl
           (conj eq_refl (conj eq_refl eq_refl)) eq_refl eq_refl eq_refl
           ltac:(discriminate) eq_refl).
Defined.

(** C10 at the headers Zip, ZIP and city over a mapping with the source CITY:
    the first pass adds ZIP twice, a second pass over its result adds
    nothing. *)
Lemma add_missing_sources_once_per_pass_witness :
  _add_missing_sources ["Zip"; "ZIP"; "city"] (JArr [identity_entry "CITY"]) (world0 [])
    = (Ok (true, JArr synced_items), world0 []) /\
  _add_missing_sources ["Zip"; "ZIP"; "city"] (JArr synced_items) (world0 [])
    = (Ok (false, JArr synced_items), world0 []).
Proof.
  assert (Hs : Forall2 has_source [identity_entry "CITY"] ["CITY"]).
  { constructor; [| constructor].
    exists [("source", JStr "CITY"); ("destination", JStr "CITY")]. split; reflexivity. }
  exact (proj2 (add_missing_sources_once_per_pass ["Zip"; "ZIP"; "city"]
                  [identity_entry "CITY"] ["CITY"] (world0 []) Hs)).
Defined.

(** X1 at a job that is running at the first fetch and finished at the
    second: two requests, one sleep of ten seconds in between. *)
Lemma polls_return_first_completed_witness :
  poll_workflow K0 api0 1000 url0 10 600 (world0 [running; finished_reply])
    = (Ok finished,
       after_requests (world0 [running; finished_reply]) [running; finished_reply] []
         (url_request api0 url0) 2 10000).
Proof.
  refine (proj1 (polls_return_first_completed K0 api0 1000 _ url0 42 10 600
                   (world0 [running; finished_reply]) [running] finished_reply []
                   finished [("status", JStr "FINISHED"); ("progress", JInt 100)]
                   (JStr "FINISHED") (JInt 100)
                   eq_refl _ _ _ eq_refl _ (conj eq_refl (conj eq_refl eq_refl))
                   eq_refl eq_refl eq_refl _)); try lia.
  - constructor; [| constructor].
    exists running_response, [("status", JStr "RUNNING"); ("progress", JInt 10)],
      (JStr "RUNNING"), (JInt 10).
    repeat split.
  - right. cbn. lia.
Defined.

(** X2 with a timeout of 1 s and an interval of 2 s over three answers of a
    running job. *)
Lemma polls_time_out_within_bound_witness :
  exists ev w' n,
    In ev [json_reply 5 (status_record "RUNNING" 10);
           json_reply 5 (status_record "RUNNING" 20);
           json_reply 5 (status_record "RUNNING" 30)] /\
    poll_workflow K0 api0 1000 url0 2 1 running_world
      = (Raise (workflow_timeout 1 (observed_status ev)), w') /\
    (1 <= n <= 3)%nat /\
    sent w' = (sent running_world ++ repeat (url_request api0 url0) n)%list.
Proof.
  refine (proj1 (polls_time_out_within_bound K0 api0 1000 _ url0 42 2 1 running_world
                   [json_reply 5 (status_record "RUNNING" 10);
                    json_reply 5 (status_record "RUNNING" 20);
                    json_reply 5 (status_record "RUNNING" 30)] []
                   eq_refl _ _ _ eq_refl _ _)); try lia.
  - repeat constructor.
    + exists (mkResponse 200 [] EmptyString (Some (status_record "RUNNING" 10))),
        [("status", JStr "RUNNING"); ("progress", JInt 10)], (JStr "RUNNING"), (JInt 10).
      repeat split.
    + exists (mkResponse 200 [] EmptyString (Some (status_record "RUNNING" 20))),
        [("status", JStr "RUNNING"); ("progress", JInt 20)], (JStr "RUNNING"), (JInt 20).
      repeat split.
    + exists (mkResponse 200 [] EmptyString (Some (status_record "RUNNING" 30))),
        [("status", JStr "RUNNING"); ("progress", JInt 30)], (JStr "RUNNING"), (JInt 30).
      repeat split.
  - cbn. lia.
Defined.

(** X3 at an interval of zero seconds. *)
Lemma polls_validate_first_witness :
  exists m,
    poll_workflow K0 api0 1000 url0 0 600 (world0 [finished_reply])
      = (Raise (Exn IRPValidationError m), world0 [finished_reply]).
Proof.
  refine (proj1 (polls_validate_first K0 api0 1000 url0 42 0 600 [42]
                   (world0 [finished_reply])) _).
  right. left. lia.
Defined.

(** X4 at a connection that is refused. *)
Lemma wrapped_operations_raise_api_errors_witness :
  kind (Exn IRPAPIError
          [Lit "Failed to get workflow status for workflow ID "; FInt 42; Lit ": ";
           FExn IRPAPIError [Lit "Request error: "; FExn RequestException []]])
    = IRPValidationError \/
  kind (Exn IRPAPIError
          [Lit "Failed to get workflow status for workflow ID "; FInt 42; Lit ": ";
           FExn IRPAPIError [Lit "Request error: "; FExn RequestException []]])
    = IRPAPIError.
Proof.
  exact (proj1 (wrapped_operations_raise_api_errors K0 api0 int_of_digits
                  "/riskmodeler/v1/imports" accounts_path (world0 [refused])
                  (served (world0 [refused]) refused [] (workflow_request K0 api0 42))
                  _) 42 eq_refl).
Defined.

(** X5 at an answer whose body is a list. *)
Lemma poll_workflow_lets_parse_errors_through_witness :
  exists e,
    poll_workflow K0 api0 1000 url0 10 600 no_portfolio_world
      = (Raise e, served no_portfolio_world (json_reply 5 (JArr [])) []
                    (url_request api0 url0)) /\
    kind e = AttributeError.
Proof.
  refine (proj1 (poll_workflow_lets_parse_errors_through K0 api0 1000 url0 42 10 600
                   no_portfolio_world (json_reply 5 (JArr [])) []
                   (mkResponse 200 [] EmptyString (Some (JArr [])))
                   eq_refl _ _ _ eq_refl eq_refl eq_refl _)); try lia.
  intros d. discriminate.
Defined.

(** X6 at two jobs that have finished. *)
Lemma geohaz_batch_returns_all_records_witness :
  poll_geohaz_job_batch_to_completion K0 api0 1000 [1; 2] 20 600
    (world0 [finished_reply; finished_reply])
  = (Ok [status_record "FINISHED" 100; status_record "FINISHED" 100],
     after_fetches (world0 [finished_reply; finished_reply])
       [finished_reply; finished_reply] []
       [geohaz_request K0 api0 1; geohaz_request K0 api0 2]).
Proof.
  refine (geohaz_batch_returns_all_records K0 api0 1000 [1; 2] 20 600
            (world0 [finished_reply; finished_reply]) [finished_reply; finished_reply] []
            _ _ _ _ eq_refl _ eq_refl); try lia.
  - discriminate.
  - repeat constructor.
  - repeat constructor;
      exists finished, [("status", JStr "FINISHED"); ("progress", JInt 100)],
        (JStr "FINISHED"); repeat split.
Defined.

(** X7 at a finished job followed by a running one: the poll returns the
    empty list without asking for the third job. *)
Lemma geohaz_batch_returns_empty_list_witness :
  poll_geohaz_job_batch_to_completion K0 api0 1000 [1; 2; 3] 20 600
    (world0 [finished_reply; running; finished_reply])
  = (Ok [],
     after_fetches (world0 [finished_reply; running; finished_reply])
       [finished_reply; running] [finished_reply]
       [geohaz_request K0 api0 1; geohaz_request K0 api0 2]).
Proof.
  refine (geohaz_batch_returns_empty_list K0 api0 1000 [1] 2 [3] 20 600
            (world0 [finished_reply; running; finished_reply])
            [finished_reply] running [finished_reply]
            _ _ _ _ _ eq_refl _ _ eq_refl); try lia.
  - discriminate.
  - repeat constructor.
  - repeat constructor;
      exists finished, [("status", JStr "FINISHED"); ("progress", JInt 100)],
        (JStr "FINISHED"); repeat split.
  - exists running_response, [("status", JStr "RUNNING"); ("progress", JInt 10)],
      (JStr "RUNNING"). repeat split.
Defined.

(** X8 at three workflows listed in pages of two and one. *)
Lemma batch_poll_collects_pages_witness :
  poll_import_job_batch_to_completion K0 api0 1000 [1; 2; 3] 20 600 short_pages
    = (Ok [status_record "FINISHED" 100; status_record "FAILED" 40;
           status_record "CANCELLED" 0],
       after_fetches short_pages (script short_pages) []
         [page_request K0 api0 [1; 2; 3] 100 0; page_request K0 api0 [1; 2; 3] 100 100]).
Proof.
  refine (proj1 (batch_poll_collects_pages K0 api0 1000 [1; 2; 3] 20 600 3 short_pages
                   [json_reply 5 (listing 3 [status_record "FINISHED" 100;
                                             status_record "FAILED" 40])]
                   [[status_record "FINISHED" 100; status_record "FAILED" 40]]
                   (json_reply 5 (listing 3 [status_record "CANCELLED" 0])) []
                   (mkResponse 200 [] EmptyString
                      (Some (listing 3 [status_record "CANCELLED" 0])))
                   [("totalMatchCount", JInt 3);
                    ("workflows", JArr [status_record "CANCELLED" 0])]
                   [status_record "CANCELLED" 0]
                   _ _ _ eq_refl _ (conj eq_refl (conj eq_refl eq_refl))
                   (conj eq_refl eq_refl) _ _ _)); try lia; try (cbn; lia).
  - discriminate.
  - constructor; [| constructor].
    exists (mkResponse 200 [] EmptyString
              (Some (listing 3 [status_record "FINISHED" 100; status_record "FAILED" 40]))),
      [("totalMatchCount", JInt 3);
       ("workflows", JArr [status_record "FINISHED" 100; status_record "FAILED" 40])].
    repeat split.
  - repeat constructor.
    + exists [("status", JStr "FINISHED"); ("progress", JInt 100)]. now split.
    + exists [("status", JStr "FAILED"); ("progress", JInt 40)]. now split.
    + exists [("status", JStr "CANCELLED"); ("progress", JInt 0)]. now split.
Defined.

(** X9 at a listing that reports three workflows and delivers none. *)
Lemma batch_tick_pages_without_timeout_witness :
  poll_workflow_batch_to_completion K0 api0 1000 [1; 2; 3] 20 600 empty_pages
    = (Exhausted,
       after_fetches empty_pages (script empty_pages) []
         [page_request K0 api0 [1; 2; 3] 100 0; page_request K0 api0 [1; 2; 3] 100 100]).
Proof.
  refine (proj1 (batch_tick_pages_without_timeout K0 api0 1000 [1; 2; 3] 20 600 3
                   empty_pages [[]; []] _ _ _ _ _)); try lia; try (cbn; lia).
  - discriminate.
  - repeat constructor;
      exists (mkResponse 200 [] EmptyString (Some (listing 3 []))),
        [("totalMatchCount", JInt 3); ("workflows", JArr [])]; repeat split.
Defined.

(** X10 at a page of a hundred portfolios followed by a page of one. *)
Lemma paginated_search_concatenates_pages_witness :
  search_portfolios_paginated K0 api0 (JInt 7) EmptyString portfolio_pages
    = (Ok (repeat (usfl 1) 100 ++ [usfl 2])%list,
       after_fetches portfolio_pages (script portfolio_pages) []
         [portfolio_page_request K0 api0 (JInt 7) EmptyString 100 0;
          portfolio_page_request K0 api0 (JInt 7) EmptyString 100 100]).
Proof.
  refine (paginated_search_concatenates_pages K0 api0 7 EmptyString portfolio_pages
            [json_reply 5 (JArr (repeat (usfl 1) 100))] [repeat (usfl 1) 100]
            (json_reply 5 (JArr [usfl 2])) [] [usfl 2] _ eq_refl _ _ _ _);
    try lia; try (cbn; lia).
  - constructor; [| constructor].
    exists (mkResponse 200 [] EmptyString (Some (JArr (repeat (usfl 1) 100)))).
    repeat split.
  - constructor; [| constructor]. rewrite repeat_length. lia.
  - exists (mkResponse 200 [] EmptyString (Some (JArr [usfl 2]))). repeat split.
Defined.

(** X11 at the Location header of a new portfolio. *)
Lemma location_id_round_trip_witness :
  extract_id_from_location_header
    (mkResponse 201 [("location", "https://host/exposures/7/portfolios/88")]
       EmptyString None) "portfolio creation" (world0 [])
  = (Ok "88", world0 []).
Proof.
  exact (location_id_round_trip
           (mkResponse 201 [("location", "https://host/exposures/7/portfolios/88")]
              EmptyString None)
           "portfolio creation" "https://host/exposures/7/portfolios" "88" (world0 [])
           eq_refl eq_refl).
Defined.

(** X12 at the same header. *)
Lemma extracted_id_ends_location_witness :
  world0 [] = world0 [] /\ "88" <> EmptyString /\ slash_free "88" = true /\
  exists base,
    lookup "location" [("location", "https://host/exposures/7/portfolios/88")]
      = Some (base ++ "88")%string /\
    (base = EmptyString \/ exists b, base = (b ++ "/")%string).
Proof.
  exact (extracted_id_ends_location
           (mkResponse 201 [("location", "https://host/exposures/7/portfolios/88")]
              EmptyString None)
           "portfolio creation" "88" (world0 []) (world0 []) eq_refl).
Defined.

(** X13 at a workflow whose output names the analysis 9. *)
Lemma analysis_id_extraction_witness :
  extract_analysis_id_from_workflow_response
    (JObj [("status", JStr "FINISHED"); ("output", JObj [("analysisId", JInt 9)])])
    (world0 [])
  = (Ok (JInt 9), world0 []).
Proof.
  exact (proj1 (analysis_id_extraction
                  (JObj [("status", JStr "FINISHED");
                         ("output", JObj [("analysisId", JInt 9)])])
                  (world0 []))
           [("status", JStr "FINISHED"); ("output", JObj [("analysisId", JInt 9)])]
           [("analysisId", JInt 9)] (JInt 9) eq_refl eq_refl eq_refl).
Defined.



(** X16 at the cycle type [Test_Q1]: the file [test] is passed over, the
    directory [Test] is found. *)
Lemma cycle_directory_resolution_witness :
  world0 [] = world0 [] /\ In ("Test", true) mapping_directories /\
  lower "Test" = cycle_directory "Test_Q1".
Proof.
  exact (proj1 (cycle_directory_resolution mapping_directories "Test_Q1" (world0 []))
           "Test" (world0 []) eq_refl).
Defined.

(** X17 at two portfolios of the same name after one of another name. *)
Lemma reference_data_lookup_is_first_match_witness :
  world0 [] = world0 [] /\
  exists before after,
    [JObj [("name", JStr "USFL_Commercial")]; usfl 1; usfl 2]
      = (before ++ usfl 1 :: after)%list /\
    named_as "name" "USFL_Other" (usfl 1) /\
    Forall (fun other => ~ named_as "name" "USFL_Other" other) before.
Proof.
  exact (proj1 (reference_data_lookup_is_first_match
                  [JObj [("name", JStr "USFL_Commercial")]; usfl 1; usfl 2]
                  "USFL_Other" "name" "portfolio" (world0 []))
           (usfl 1) (world0 []) eq_refl).
Defined.

(** X18 at a portfolio whose two accounts have no location. *)
Lemma geohaz_submission_needs_locations_witness :
  submit_geohaz_job K0 api0 int_of_digits one_edm geohaz_path accounts_path
    "USFL_Other" "EDM_Q4" "22.0" true false None None empty_portfolio_world
  = (Raise (Exn IRPAPIError
       [Lit "Portfolio '"; FStr "USFL_Other";
        Lit "' has accounts but no locations to be GeoHaz'd"]),
     after_fetches empty_portfolio_world (script empty_portfolio_world) []
       [portfolio_search K0 api0 (JInt 7) "USFL_Other";
        accounts_request api0 accounts_path 7 3]).
Proof.
  refine (geohaz_submission_needs_locations K0 api0 int_of_digits one_edm geohaz_path
            accounts_path "USFL_Other" "EDM_Q4" "22.0" true false None None
            empty_portfolio_world empty_portfolio_world
            [("exposureId", JInt 7); ("exposureName", JStr "EDM_Q4")] 7
            (json_reply 5 (JArr [JObj portfolio3]))
            (json_reply 5 (JArr [account_of 0; account_of 0])) []
            (mkResponse 200 [] EmptyString (Some (JArr [JObj portfolio3])))
            (mkResponse 200 [] EmptyString (Some (JArr [account_of 0; account_of 0])))
            portfolio3 (JStr "/riskmodeler/v2/exposures/7/portfolios/3") 3
            [account_of 0; account_of 0]
            eq_refl eq_refl eq_refl eq_refl _ eq_refl
            (conj eq_refl (conj eq_refl eq_refl)) eq_refl eq_refl _
            (conj eq_refl (conj eq_refl eq_refl)) _); try lia.
  repeat constructor;
    exists [("accountId", JInt 1); ("locationsCount", JInt 0)]; now split.
Defined.

(** X19 at a portfolio whose second account has four locations; the third
    entry of the list is not an account, and is not looked at. *)
Lemma geohaz_submission_stops_at_first_location_witness :
  submit_geohaz_job K0 api0 int_of_digits one_edm geohaz_path accounts_path
    "USFL_Other" "EDM_Q4" "22.0" true false None None located_portfolio_world
  = (Ok (91, geohaz_body),
     after_fetches located_portfolio_world (script located_portfolio_world) []
       [portfolio_search K0 api0 (JInt 7) "USFL_Other";
        accounts_request api0 accounts_path 7 3;
        mkRequest "POST" "https://api-euw1.rms-ppe.com/platform/geohaz/v1/jobs" []
          (Some geohaz_body)]).
Proof.
  refine (geohaz_submission_stops_at_first_location K0 api0 int_of_digits one_edm
            geohaz_path accounts_path "USFL_Other" "EDM_Q4" "22.0" true false None None
            located_portfolio_world located_portfolio_world
            [("exposureId", JInt 7); ("exposureName", JStr "EDM_Q4")] 7
            (json_reply 5 (JArr [JObj portfolio3]))
            (json_reply 5 (JArr [account_of 0; account_of 4; JNull]))
            (accepted 5 "https://host/platform/geohaz/v1/jobs/91") []
            (mkResponse 200 [] EmptyString (Some (JArr [JObj portfolio3])))
            (mkResponse 200 [] EmptyString
               (Some (JArr [account_of 0; account_of 4; JNull])))
            (mkResponse 202 [("location", "https://host/platform/geohaz/v1/jobs/91")]
               EmptyString None)
            portfolio3 (JStr "/riskmodeler/v2/exposures/7/portfolios/3") 3
            [account_of 0] (account_of 4) 4 [JNull]
            "https://host/platform/geohaz/v1/jobs" "91" 91
            eq_refl eq_refl eq_refl eq_refl _ eq_refl
            (conj eq_refl (conj eq_refl eq_refl)) eq_refl eq_refl _
            (conj eq_refl (conj eq_refl eq_refl)) _ _ _
            eq_refl eq_refl eq_refl eq_refl _ eq_refl); try lia.
  - repeat constructor.
    exists [("accountId", JInt 1); ("locationsCount", JInt 0)]. now split.
  - exists [("accountId", JInt 1); ("locationsCount", JInt 4)]. now split.
  - discriminate.
Defined.

(** X20 at a locations file that is missing: the entry for [City], added
    in memory to the account items, is not saved. *)
Lemma sync_writes_only_the_mapping_witness :
  same_but_file "mapping.json" files0 files0 /\
  (Raise (Exn FileNotFoundError [FStr "missing.tsv"]) <> Ok tt -> files0 = files0).
Proof.
  exact (sync_writes_only_the_mapping "mapping.json" "accounts.tsv" "missing.tsv"
           files0 files0 (Raise (Exn FileNotFoundError [FStr "missing.tsv"])) eq_refl).
Defined.
